(** * evergreen.py: the pagination, retry and cache core of [evergreen/api.py]

    A shallow embedding of the transport wrapper ([_call_api],
    [_raise_for_status]), the three pagination strategies ([_paginate],
    [_lazy_paginate], [_lazy_paginate_by_date]), the retrying and the cached
    variants of the client, and the properties the specification states about
    them.

    Conventions.
    - JSON bodies are a small inductive type; numbers are integers.
    - Python exceptions are values of [Exn]; a computation returns a
      [Result].
    - The network is a function from the number of requests issued so far and
      the request to what [session.request] gives back; the state threaded
      through every operation is the log of the requests issued so far. *)

From Stdlib Require Import ZArith Lia Sorted DecimalString.
From stdpp Require Import base option list gmap strings sorting.

Set Warnings "-register-all".

Local Open Scope string_scope.
Local Open Scope list_scope.
Local Open Scope Z_scope.

(** ** Python values *)

Inductive JSON : Type :=
| JNull
| JBool (b : bool)
| JNum (n : Z)
| JStr (s : string)
| JArr (items : list JSON)
| JObj (fields : list (string * JSON)).

(** Exceptions the modelled code can raise or let through. [HTTPError] carries
    its first argument: the server's message when it is raised from the body
    ([FromBody]), the status line [requests] builds when it is raised by
    [Response.raise_for_status] ([FromStatus]). *)
Inductive HTTPErrorArg : Type :=
| FromBody (msg : JSON)
| FromStatus (status_code : Z).

Inductive Exn : Type :=
| HTTPError (arg : HTTPErrorArg)
| ConnectionError
| Timeout
| JSONDecodeError
| TypeError
| KeyError
| IndexError
| AttributeError
| ValueError.

Inductive Result (A : Type) : Type :=
| Ok (a : A)
| Raise (e : Exn)
| OutOfFuel.
Arguments Ok {A} a.
Arguments Raise {A} e.
Arguments OutOfFuel {A}.

Definition rbind {A B} (r : Result A) (k : A -> Result B) : Result B :=
  match r with
  | Ok a => k a
  | Raise e => Raise e
  | OutOfFuel => OutOfFuel
  end.

Module Py.

(** [bool(x)] *)
Definition truthy (j : JSON) : bool :=
  match j with
  | JNull => false
  | JBool b => b
  | JNum n => negb (n =? 0)
  | JStr s => negb (String.eqb s "")
  | JArr l => match l with [] => false | _ => true end
  | JObj kv => match kv with [] => false | _ => true end
  end.

(** [d[key]] on a parsed JSON object. *)
Fixpoint assoc (key : string) (kv : list (string * JSON)) : option JSON :=
  match kv with
  | [] => None
  | (k, v) :: rest => if String.eqb k key then Some v else assoc key rest
  end.

Definition is_str (key : string) (j : JSON) : bool :=
  match j with
  | JStr s => String.eqb s key
  | _ => false
  end.

Definition is_substring (needle hay : string) : bool :=
  match String.index 0 needle hay with
  | Some _ => true
  | None => false
  end.

(** [key in x] for a string [key]: key of a dict, element of a list,
    substring of a string; the other JSON values are not containers. *)
Definition contains (key : string) (j : JSON) : Result bool :=
  match j with
  | JObj kv => Ok (match assoc key kv with Some _ => true | None => false end)
  | JArr l => Ok (existsb (is_str key) l)
  | JStr s => Ok (is_substring key s)
  | JNull | JBool _ | JNum _ => Raise TypeError
  end.

(** [x[key]] for a string [key]. *)
Definition getitem (j : JSON) (key : string) : Result JSON :=
  match j with
  | JObj kv => match assoc key kv with Some v => Ok v | None => Raise KeyError end
  | _ => Raise TypeError
  end.

(** [len(x)] *)
Definition len (j : JSON) : Result Z :=
  match j with
  | JArr l => Ok (Z.of_nat (List.length l))
  | JObj kv => Ok (Z.of_nat (List.length kv))
  | JStr s => Ok (Z.of_nat (String.length s))
  | JNull | JBool _ | JNum _ => Raise TypeError
  end.

Fixpoint chars (s : string) : list JSON :=
  match s with
  | EmptyString => []
  | String c rest => JStr (String c EmptyString) :: chars rest
  end.

(** The items [for x in j] goes through. *)
Definition iter (j : JSON) : Result (list JSON) :=
  match j with
  | JArr l => Ok l
  | JObj kv => Ok (map (fun p => JStr (fst p)) kv)
  | JStr s => Ok (chars s)
  | JNull | JBool _ | JNum _ => Raise TypeError
  end.

(** [n >= x] for an integer [n]. *)
Definition int_ge (n : Z) (j : JSON) : Result bool :=
  match j with
  | JNum m => Ok (m <=? n)
  | JBool b => Ok ((if b then 1 else 0) <=? n)
  | _ => Raise TypeError
  end.

(** [x.extend(y)]: only lists have the method. *)
Definition extend (j extra : JSON) : Result JSON :=
  match j with
  | JArr l => rbind (iter extra) (fun l' => Ok (JArr (l ++ l')))
  | _ => Raise AttributeError
  end.

(** [x[-1]] *)
Definition last_item (j : JSON) : Result JSON :=
  match j with
  | JArr l => match List.last (map Some l) None with
              | Some x => Ok x
              | None => Raise IndexError
              end
  | JStr s => match List.last (map Some (chars s)) None with
              | Some x => Ok x
              | None => Raise IndexError
              end
  | JObj _ => Raise KeyError
  | JNull | JBool _ | JNum _ => Raise TypeError
  end.

End Py.

(** ** Requests and responses *)

Record Request : Type := mkRequest {
  url : string;
  params : option (gmap string JSON);
  method : string;
  data : option string
}.

(** What the client reads of a [requests.Response]: [json r = None] stands
    for a body that does not parse ([response.json()] raises
    [JSONDecodeError]); [links r] maps a relation name of the Link header to
    its URL. *)
Record Response : Type := mkResponse {
  status_code : Z;
  json : option JSON;
  links : gmap string string
}.

Definition response_json (r : Response) : Result JSON :=
  match json r with
  | Some j => Ok j
  | None => Raise JSONDecodeError
  end.

(** [requests.Response.raise_for_status]: raises for the 4xx and 5xx codes. *)
Definition raise_for_status (r : Response) : Result unit :=
  if (400 <=? status_code r) && (status_code r <? 600)
  then Raise (HTTPError (FromStatus (status_code r)))
  else Ok tt.

(** [EvergreenApi._raise_for_status] *)
Definition _raise_for_status (response : Response) : Result unit :=
  match json response with
  | None => raise_for_status response
  | Some json_data =>
      if 400 <=? status_code response then
        match Py.contains "error" json_data with
        | Ok true =>
            match Py.getitem json_data "error" with
            | Ok msg => Raise (HTTPError (FromBody msg))
            | Raise e => Raise e
            | OutOfFuel => OutOfFuel
            end
        | Ok false => raise_for_status response
        | Raise e => Raise e
        | OutOfFuel => OutOfFuel
        end
      else raise_for_status response
  end.

(** ** The network and the state of a client

    [session.request] is the only effect: the [n]-th request (counting from
    0) [req] is answered by [net n req], a response or a failure raised by the
    transport.  Every operation threads the log of the requests issued. *)

Definition Network : Type := nat -> Request -> Result Response.

Definition Api (A : Type) : Type := list Request -> Result A * list Request.

Definition ret {A} (a : A) : Api A := fun log => (Ok a, log).

Definition bind {A B} (m : Api A) (k : A -> Api B) : Api B :=
  fun log =>
    match m log with
    | (Ok a, log') => k a log'
    | (Raise e, log') => (Raise e, log')
    | (OutOfFuel, log') => (OutOfFuel, log')
    end.

Definition lift {A} (r : Result A) : Api A := fun log => (r, log).

Notation "'let*' x ':=' m 'in' k" := (bind m (fun x => k))
  (at level 10, x pattern, m at level 100, k at level 200).

Definition session_request (net : Network) (req : Request) : Api Response :=
  fun log => (net (List.length log) req, log ++ [req]).

Definition CACHE_SIZE : Z := 5000.
Definition DEFAULT_LIMIT : Z := 100.
Definition MAX_RETRIES : nat := 3.

(** The client an operation runs on: [_call_api] is the one method the
    variants override, and the pagination strategies call it through [self]. *)
Record Self : Type := mkSelf {
  _call_api : string -> option (gmap string JSON) -> string -> option string -> Api Response
}.

Module Base.
(** [EvergreenApi._call_api] (the duration is only logged). *)
Definition _call_api (net : Network) (url : string) (params : option (gmap string JSON))
    (method : string) (data : option string) : Api Response :=
  let* response := session_request net (mkRequest url params method data) in
  let* _ := lift (_raise_for_status response) in
  ret response.
End Base.

Definition EvergreenApi (net : Network) : Self := mkSelf (Base._call_api net).

Module Tenacity.
(** [retry_if_exception_type((HTTPError, ConnectionError))].  [Timeout] is
    a read timeout, which is not a [ConnectionError]. *)
Definition retry_if_exception_type (e : Exn) : bool :=
  match e with
  | HTTPError _ | ConnectionError => true
  | _ => false
  end.

(** [stop_after_attempt(MAX_RETRIES)] *)
Definition stop_after_attempt (attempt_number : nat) : bool :=
  (MAX_RETRIES <=? attempt_number)%nat.

(** The loop of [@retry(..., reraise=True)] around [f], from attempt
    [attempt_number] on; the waits between attempts take time only. *)
Fixpoint attempts {A} (fuel attempt_number : nat) (f : Api A) : Api A :=
  fun log =>
    match f log with
    | (Ok a, log') => (Ok a, log')
    | (OutOfFuel, log') => (OutOfFuel, log')
    | (Raise e, log') =>
        if negb (retry_if_exception_type e) then (Raise e, log')
        else if stop_after_attempt attempt_number then (Raise e, log')
        else match fuel with
             | O => (OutOfFuel, log')
             | S fuel' => attempts fuel' (S attempt_number) f log'
             end
    end.

Definition retry {A} (f : Api A) : Api A := attempts MAX_RETRIES 1 f.
End Tenacity.

Module Retrying.
(** [RetryingEvergreenApi._call_api] *)
Definition _call_api (net : Network) (url : string) (params : option (gmap string JSON))
    (method : string) (data : option string) : Api Response :=
  Tenacity.retry (Base._call_api net url params method data).
End Retrying.

Definition RetryingEvergreenApi (net : Network) : Self := mkSelf (Retrying._call_api net).

(** ** Eager pagination *)

(** [bool(params)]: [None] and the empty dict are false. *)
Definition params_truthy (params : option (gmap string JSON)) : bool :=
  match params with
  | None => false
  | Some p => negb (size p =? 0)%nat
  end.

(** [params and "limit" in params and len(json_data) >= params["limit"]] *)
Definition limit_reached (params : option (gmap string JSON)) (json_data : JSON) : Result bool :=
  match params with
  | None => Ok false
  | Some p =>
      if negb (params_truthy params) then Ok false
      else match p !! "limit" with
           | None => Ok false
           | Some limit => rbind (Py.len json_data) (fun n => Py.int_ge n limit)
           end
  end.

(** The [while "next" in response.links] loop of [_paginate]. *)
Fixpoint paginate_loop (self : Self) (fuel : nat) (params : option (gmap string JSON))
    (response : Response) (json_data : JSON) : Api JSON :=
  match links response !! "next" with
  | None => ret json_data
  | Some next_url =>
      let* stop := lift (limit_reached params json_data) in
      if (stop : bool) then ret json_data
      else match fuel with
           | O => lift OutOfFuel
           | S fuel' =>
               let* response' := _call_api self next_url None "GET" None in
               let* page := lift (response_json response') in
               let* json_data' :=
                 (if Py.truthy page
                  then lift (rbind (response_json response') (Py.extend json_data))
                  else ret json_data) in
               paginate_loop self fuel' params response' json_data'
           end
  end.

(** [EvergreenApi._paginate] *)
Definition _paginate (self : Self) (fuel : nat) (url : string)
    (params : option (gmap string JSON)) : Api JSON :=
  let* response := _call_api self url params "GET" None in
  let* json_data := lift (response_json response) in
  paginate_loop self fuel params response json_data.

(** ** Lazy pagination

    A Python generator is a state and a [next] operation on it: [next] runs
    the body up to its next [yield] ([Some item]) or to its end ([None],
    [StopIteration]).  Creating a generator runs nothing. *)

Class Generator (G : Type) : Type := next : G -> Api (option JSON * G).

(** [itertools.islice(g, n)], consumed: at most [n] items are asked for. *)
Fixpoint islice {G} `{Generator G} (n : nat) (g : G) : Api (list JSON * G) :=
  match n with
  | O => ret ([], g)
  | S n' =>
      let* og := next g in
      match fst og with
      | None => ret ([], snd og)
      | Some item =>
          let* rest := islice n' (snd og) in
          ret (item :: fst rest, snd rest)
      end
  end.

(** [iter(items)] *)
#[export] Instance list_iterator : Generator (list JSON) :=
  fun items =>
    match items with
    | [] => ret (None, [])
    | item :: rest => ret (Some item, rest)
    end.

(** The suspended states of [_lazy_paginate]: created and not started; at
    the [yield], inside the [for] over the items of the page of [response],
    with [pending] still to be yielded; finished. *)
Inductive LazyPaginate : Type :=
| LP_created (url : string) (params : option (gmap string JSON))
| LP_yielding (pending : list JSON) (response : Response) (params : gmap string JSON)
| LP_finished.

(** [if not params: params = {"limit": DEFAULT_LIMIT}] *)
Definition default_params (params : option (gmap string JSON)) : gmap string JSON :=
  match params with
  | Some p => if params_truthy params then p else {["limit" := JNum DEFAULT_LIMIT]}
  | None => {["limit" := JNum DEFAULT_LIMIT]}
  end.

(** One turn of the [while True] loop of [_lazy_paginate], up to the first
    [yield] of the page.  A truthy value that can be iterated has an item
    ([iter_truthy_has_item]), so the [for] over no item at all is not
    reached. *)
Definition lazy_paginate_fetch (self : Self) (next_url : string) (params : gmap string JSON)
    : Api (option JSON * LazyPaginate) :=
  let* response := _call_api self next_url (Some params) "GET" None in
  let* json_response := lift (response_json response) in
  if negb (Py.truthy json_response) then ret (None, LP_finished)
  else
    let* items := lift (Py.iter json_response) in
    match items with
    | [] => lift OutOfFuel
    | item :: pending => ret (Some item, LP_yielding pending response params)
    end.

Definition lazy_paginate_next (self : Self) (g : LazyPaginate) : Api (option JSON * LazyPaginate) :=
  match g with
  | LP_created url params => lazy_paginate_fetch self url (default_params params)
  | LP_yielding (item :: pending) response params =>
      ret (Some item, LP_yielding pending response params)
  | LP_yielding [] response params =>
      match links response !! "next" with
      | None => ret (None, LP_finished)
      | Some next_url => lazy_paginate_fetch self next_url params
      end
  | LP_finished => ret (None, LP_finished)
  end.

(** [EvergreenApi._lazy_paginate] *)
Definition _lazy_paginate (url : string) (params : option (gmap string JSON)) : LazyPaginate :=
  LP_created url params.

Definition lazy_paginate_generator (self : Self) : Generator LazyPaginate :=
  lazy_paginate_next self.

Section ByDate.

(** [evergreen.util.evergreen_input_to_output], the normalisation of a
    timestamp received from the server into the form the server takes as a
    query parameter. *)
Variable evergreen_input_to_output : JSON -> Result JSON.

Inductive LazyPaginateByDate : Type :=
| BD_created (url : string) (params : option (gmap string JSON))
| BD_yielding (pending : list JSON) (data : JSON) (url : string) (params : gmap string JSON)
| BD_finished.

Definition lazy_paginate_by_date_fetch (self : Self) (url : string)
    (params : gmap string JSON) : Api (option JSON * LazyPaginateByDate) :=
  let* response := _call_api self url (Some params) "GET" None in
  let* data := lift (response_json response) in
  if negb (Py.truthy data) then ret (None, BD_finished)
  else
    let* items := lift (Py.iter data) in
    match items with
    | [] => lift OutOfFuel
    | item :: pending => ret (Some item, BD_yielding pending data url params)
    end.

(** [params["start_at"] = evergreen_input_to_output(data[-1]["create_time"])] *)
Definition advance_start_at (data : JSON) (params : gmap string JSON)
    : Result (gmap string JSON) :=
  rbind (Py.last_item data) (fun last =>
  rbind (Py.getitem last "create_time") (fun create_time =>
  rbind (evergreen_input_to_output create_time) (fun start_at =>
  Ok (<["start_at" := start_at]> params)))).

Definition lazy_paginate_by_date_next (self : Self) (g : LazyPaginateByDate)
    : Api (option JSON * LazyPaginateByDate) :=
  match g with
  | BD_created url params => lazy_paginate_by_date_fetch self url (default_params params)
  | BD_yielding (item :: pending) data url params =>
      ret (Some item, BD_yielding pending data url params)
  | BD_yielding [] data url params =>
      let* params' := lift (advance_start_at data params) in
      lazy_paginate_by_date_fetch self url params'
  | BD_finished => ret (None, BD_finished)
  end.

(** [EvergreenApi._lazy_paginate_by_date] *)
Definition _lazy_paginate_by_date (url : string) (params : option (gmap string JSON))
    : LazyPaginateByDate :=
  BD_created url params.

Definition lazy_paginate_by_date_generator (self : Self) : Generator LazyPaginateByDate :=
  lazy_paginate_by_date_next self.

End ByDate.

(** ** The cached variant *)

Module LruCache.
(** The table of [functools.lru_cache]: the entries from the most recently
    to the least recently used one. *)
Definition t (V : Type) : Type := list (string * V).

Fixpoint lookup {V} (key : string) (c : t V) : option V :=
  match c with
  | [] => None
  | (k, v) :: rest => if String.eqb k key then Some v else lookup key rest
  end.

Definition drop {V} (key : string) (c : t V) : t V :=
  List.filter (fun kv => negb (String.eqb (fst kv) key)) c.

(** A hit moves the entry to the front. *)
Definition touch {V} (key : string) (v : V) (c : t V) : t V :=
  (key, v) :: drop key c.

(** A miss stores the new entry; a full table first loses its oldest one. *)
Definition store {V} (maxsize : Z) (key : string) (v : V) (c : t V) : t V :=
  if maxsize <=? Z.of_nat (List.length c) then (key, v) :: removelast c
  else (key, v) :: c.

(** [lru_cache(maxsize)(f)(key)]; a call that raises stores nothing. *)
Definition call {V} (maxsize : Z) (f : string -> Api V) (key : string) (c : t V)
    (log : list Request) : Result V * t V * list Request :=
  match lookup key c with
  | Some v => (Ok v, touch key v c, log)
  | None =>
      match f key log with
      | (Ok v, log') => (Ok v, store maxsize key v c, log')
      | (Raise e, log') => (Raise e, c, log')
      | (OutOfFuel, log') => (OutOfFuel, c, log')
      end
  end.

(** [cache_clear()] *)
Definition cache_clear {V} (c : t V) : t V := [].
End LruCache.

Section Lookups.

(** The entity classes (pydantic models): [new_Build j] is
    [Build(api, **j)], and so on; a body that does not validate raises. *)
Variables Build Version Project : Type.
Variable new_Build : JSON -> Result Build.
Variable new_Version : JSON -> Result Version.
Variable new_Project : JSON -> Result Project.

Variable api_server : string.

(** [EvergreenApi._create_url] *)
Definition _create_url (endpoint : string) : string :=
  String.append api_server (String.append "/rest/v2" endpoint).

(** [EvergreenApi.build_by_id] *)
Definition build_by_id (self : Self) (build_id : string) : Api Build :=
  let* response := _call_api self (_create_url (String.append "/builds/" build_id))
                     None "GET" None in
  let* body := lift (response_json response) in
  lift (new_Build body).

(** [EvergreenApi.version_by_id] *)
Definition version_by_id (self : Self) (version_id : string) : Api Version :=
  let* response := _call_api self (_create_url (String.append "/versions/" version_id))
                     None "GET" None in
  let* body := lift (response_json response) in
  lift (new_Version body).

(** [EvergreenApi.project_by_id] *)
Definition project_by_id (self : Self) (project_id : string) : Api Project :=
  let* response := _call_api self (_create_url (String.append "/projects/" project_id))
                     None "GET" None in
  let* body := lift (response_json response) in
  lift (new_Project body).

(** The two tables of a [CachedEvergreenApi], for one client. *)
Record Caches : Type := mkCaches {
  build_by_id_cache : LruCache.t Build;
  version_by_id_cache : LruCache.t Version
}.

Definition Cached (A : Type) : Type :=
  Caches -> list Request -> Result A * Caches * list Request.

(** [CachedEvergreenApi.build_by_id]: the base lookup under
    [@lru_cache(maxsize=CACHE_SIZE)].  The variant inherits [_call_api]. *)
Definition cached_build_by_id (net : Network) (build_id : string) : Cached Build :=
  fun caches log =>
    match LruCache.call CACHE_SIZE (build_by_id (EvergreenApi net)) build_id
            (build_by_id_cache caches) log with
    | (r, table, log') => (r, mkCaches table (version_by_id_cache caches), log')
    end.

(** [CachedEvergreenApi.version_by_id] *)
Definition cached_version_by_id (net : Network) (version_id : string) : Cached Version :=
  fun caches log =>
    match LruCache.call CACHE_SIZE (version_by_id (EvergreenApi net)) version_id
            (version_by_id_cache caches) log with
    | (r, table, log') => (r, mkCaches (build_by_id_cache caches) table, log')
    end.

(** A lookup the variant inherits as it is. *)
Definition cached_project_by_id (net : Network) (project_id : string) : Cached Project :=
  fun caches log =>
    match project_by_id (EvergreenApi net) project_id log with
    | (r, log') => (r, caches, log')
    end.

(** [CachedEvergreenApi.clear_caches] *)
Definition clear_caches : Cached unit :=
  fun caches log =>
    (Ok tt,
     mkCaches (LruCache.cache_clear (build_by_id_cache caches))
              (LruCache.cache_clear (version_by_id_cache caches)),
     log).

End Lookups.

Arguments build_by_id {Build} new_Build api_server self build_id.
Arguments version_by_id {Version} new_Version api_server self version_id.
Arguments project_by_id {Project} new_Project api_server self project_id.
Arguments mkCaches {Build Version} build_by_id_cache version_by_id_cache.
Arguments build_by_id_cache {Build Version} c.
Arguments version_by_id_cache {Build Version} c.
Arguments cached_build_by_id {Build Version} new_Build api_server net build_id.
Arguments cached_version_by_id {Build Version} new_Version api_server net version_id.
Arguments cached_project_by_id {Build Version Project} new_Project api_server net project_id.
Arguments clear_caches {Build Version}.

(** ** Filtering a lazy sequence by a time window *)

(** [list(g)]: the items of [g] until it stops, and the state it is left in. *)
Fixpoint drain {G} `{Generator G} (fuel : nat) (g : G) : Api (list JSON * G) :=
  match fuel with
  | O => lift OutOfFuel
  | S fuel' =>
      let* og := next g in
      match fst og with
      | None => ret ([], snd og)
      | Some item =>
          let* rest := drain fuel' (snd og) in
          ret (item :: fst rest, snd rest)
      end
  end.

Section TimeWindow.

Context {G : Type} `{Generator G}.

(** [getattr(item, time_attr)], as a point in time. *)
Variable time_attr : JSON -> Z.

(** The filter over the sequence [upstream]; [stopped] once its loop has
    ended. *)
Record TimeWindow : Type := mkTimeWindow {
  upstream : G;
  stopped : bool
}.

(** Modelled from the spec: [evergreen.util.iterate_by_time_window], whose
    module [evergreen/util.py] is not among the sources.  The filter asks
    [upstream] for one item after the other; it stops at the first item
    strictly before [after], yields an item of the window
    [after <= t < before], and skips any other item. *)
Fixpoint iterate_by_time_window_next (fuel : nat) (before after : Z) (w : TimeWindow)
    : Api (option JSON * TimeWindow) :=
  if stopped w then ret (None, w)
  else match fuel with
       | O => lift OutOfFuel
       | S fuel' =>
           let* og := next (upstream w) in
           match fst og with
           | None => ret (None, mkTimeWindow (snd og) true)
           | Some item =>
               if time_attr item <? after then ret (None, mkTimeWindow (snd og) true)
               else if before <=? time_attr item
                    then iterate_by_time_window_next fuel' before after
                           (mkTimeWindow (snd og) false)
                    else ret (Some item, mkTimeWindow (snd og) false)
           end
       end.

Definition iterate_by_time_window (iterator : G) : TimeWindow := mkTimeWindow iterator false.

End TimeWindow.

Arguments TimeWindow G : clear implicits.
Arguments mkTimeWindow {G} upstream stopped.

#[export] Instance time_window_generator {G} `{Generator G} (time_attr : JSON -> Z)
    (fuel : nat) (before after : Z) : Generator (TimeWindow G) :=
  iterate_by_time_window_next time_attr fuel before after.

(** ** Vocabulary of the properties *)

(** One attempt of the base [_call_api]: what the [n]-th request [req] gives
    once the response has gone through [_raise_for_status]. *)
Definition attempt_outcome (net : Network) (req : Request) (n : nat) : Result Response :=
  rbind (net n req) (fun r => rbind (_raise_for_status r) (fun _ => Ok r)).

(** An attempt that failed with a failure the retrying variant retries on. *)
Definition retryable_failure (o : Result Response) : bool :=
  match o with
  | Raise e => Tenacity.retry_if_exception_type e
  | _ => false
  end.

(** A client whose [_call_api] hands over a response of status below 400 as
    it is, after one request.  Both variants do ([base_answers],
    [retrying_answers]). *)
Definition answers (self : Self) (net : Network) : Prop :=
  forall url params method data log r,
    net (List.length log) (mkRequest url params method data) = Ok r ->
    status_code r < 400 ->
    _call_api self url params method data log =
    (Ok r, log ++ [mkRequest url params method data]).

(** The pages that follow the response [r] along the "next" links, when [n]
    requests have been issued: each is a response of status below 400 whose
    body is a JSON array, and the last one has no "next" link. *)
Inductive follows (net : Network) : nat -> Response -> list (list JSON) -> Prop :=
| follows_end n r :
    links r !! "next" = None ->
    follows net n r []
| follows_next n r next_url r' items rest :
    links r !! "next" = Some next_url ->
    net n (mkRequest next_url None "GET" None) = Ok r' ->
    status_code r' < 400 ->
    json r' = Some (JArr items) ->
    follows net (S n) r' rest ->
    follows net n r (items :: rest).

(** The chain of pages that starts with the answer to [req]. *)
Inductive chain (net : Network) (n : nat) (req : Request) : list (list JSON) -> Prop :=
| chain_intro r items rest :
    net n req = Ok r ->
    status_code r < 400 ->
    json r = Some (JArr items) ->
    follows net (S n) r rest ->
    chain net n req (items :: rest).

Definition nonempty (page : list JSON) : bool :=
  match page with
  | [] => false
  | _ => true
  end.

(** Every page the network serves with a "next" link holds at least
    [page_size] items. *)
Definition page_size_at_least (net : Network) (page_size : nat) : Prop :=
  forall n req r j items,
    net n req = Ok r -> is_Some (links r !! "next") ->
    json r = Some j -> Py.truthy j = true -> Py.iter j = Ok items ->
    (page_size <= List.length items)%nat.

(** The items a suspended [_lazy_paginate] still holds, and whether it can
    ask for a further page. *)
Definition pending_items (g : LazyPaginate) : nat :=
  match g with
  | LP_yielding pending _ _ => List.length pending
  | _ => O
  end.

Definition may_fetch (g : LazyPaginate) : Prop :=
  match g with
  | LP_created _ _ => True
  | LP_yielding _ response _ => is_Some (links response !! "next")
  | LP_finished => False
  end.

(** [params["limit"]], when [params] has one. *)
Definition limit_of (params : option (gmap string JSON)) : option JSON :=
  match params with
  | Some p => p !! "limit"
  | None => None
  end.

(** The test [len(json_data) >= K] on the items held. *)
Definition limit_stop (K : Z) (held : list JSON) : bool :=
  K <=? Z.of_nat (List.length held).

(** The pages [_paginate] goes on to fetch once it holds [held], out of the
    [rest] the chain still has, when it stops as soon as [stop] holds of the
    items held. *)
Fixpoint fetched_after (stop : list JSON -> bool) (held : list JSON)
    (rest : list (list JSON)) : list (list JSON) :=
  match rest with
  | [] => []
  | page :: rest' =>
      if stop held then []
      else page :: fetched_after stop (held ++ page) rest'
  end.

(** What a page gives to the loop of a lazy strategy: its first item and the
    items still to be yielded, or the end of the iteration. *)
Definition first_of_page (j : JSON) : Result (option (JSON * list JSON)) :=
  if Py.truthy j
  then match Py.iter j with
       | Ok (item :: pending) => Ok (Some (item, pending))
       | Ok [] => OutOfFuel
       | Raise e => Raise e
       | OutOfFuel => OutOfFuel
       end
  else Ok None.

(** The states of a [_lazy_paginate_by_date] over [url] that is not finished
    and whose page, if it is in one, is [page]. *)
Definition in_page (url : string) (page : list JSON) (g : LazyPaginateByDate) : Prop :=
  match g with
  | BD_created url' _ => url' = url
  | BD_yielding _ data url' _ => data = JArr page /\ url' = url
  | BD_finished => False
  end.

(** [evergreen_input_to_output(data[-1]["create_time"])] for the page
    [page]: the cursor the request after the page starts at. *)
Definition cursor_after (evergreen_input_to_output : JSON -> Result JSON)
    (page : list JSON) : Result JSON :=
  rbind (Py.last_item (JArr page)) (fun last =>
  rbind (Py.getitem last "create_time") evergreen_input_to_output).

(** The requests of an iteration by date that starts with [params] and goes
    through the cursors [cursors]: the first carries [params], and each
    following one the parameters of the request before it with ["start_at"]
    set to the next cursor. *)
Fixpoint by_date_requests (url : string) (params : gmap string JSON) (cursors : list JSON)
    : list Request :=
  mkRequest url (Some params) "GET" None ::
  match cursors with
  | [] => []
  | start_at :: rest => by_date_requests url (<["start_at" := start_at]> params) rest
  end.

(** What an endpoint paged by date serves from the [n]-th request on, when
    it is asked with [params] and then from cursor to cursor: the pages
    [pages], each in a response of status below 400 and each followed by its
    cursor, and then an empty page. *)
Inductive served_by_date (evergreen_input_to_output : JSON -> Result JSON) (net : Network)
    (url : string) : nat -> gmap string JSON -> list (list JSON) -> list JSON -> Prop :=
| served_empty n params r :
    net n (mkRequest url (Some params) "GET" None) = Ok r ->
    status_code r < 400 ->
    json r = Some (JArr []) ->
    served_by_date evergreen_input_to_output net url n params [] []
| served_page n params r page start_at pages cursors :
    net n (mkRequest url (Some params) "GET" None) = Ok r ->
    status_code r < 400 ->
    json r = Some (JArr page) ->
    cursor_after evergreen_input_to_output page = Ok start_at ->
    served_by_date evergreen_input_to_output net url (S n)
      (<["start_at" := start_at]> params) pages cursors ->
    served_by_date evergreen_input_to_output net url n params (page :: pages)
      (start_at :: cursors).

(** The request of a lookup by identifier: a GET of [endpoint] followed by
    the identifier, without parameters. *)
Definition lookup_request (api_server endpoint id : string) : Request :=
  mkRequest (_create_url api_server (String.append endpoint id)) None "GET" None.

Section TimeWindowVocabulary.

Variable time_attr : JSON -> Z.
Variables before after : Z.

(** The window [after <= t < before]. *)
Definition in_window (item : JSON) : bool :=
  (after <=? time_attr item) && (time_attr item <? before).

(** Items that arrive from the latest to the earliest. *)
Definition descending (items : list JSON) : Prop :=
  StronglySorted (fun x y => time_attr y <= time_attr x) items.

(** One [next] of the filter over the items [items] still to come: the
    item yielded, if any, the items not asked for, and whether the loop
    ended. *)
Fixpoint window_step (items : list JSON) : option JSON * list JSON * bool :=
  match items with
  | [] => (None, [], true)
  | item :: rest =>
      if time_attr item <? after then (None, rest, true)
      else if before <=? time_attr item then window_step rest
      else (Some item, rest, false)
  end.

(** The whole run of the filter over [items]: the items yielded and the
    items never asked for. *)
Fixpoint window_run (items : list JSON) : list JSON * list JSON :=
  match items with
  | [] => ([], [])
  | item :: rest =>
      if time_attr item <? after then ([], rest)
      else if before <=? time_attr item then window_run rest
      else (item :: fst (window_run rest), snd (window_run rest))
  end.

End TimeWindowVocabulary.

(** ** Example networks *)

(** A page of status 200: a JSON array and, maybe, a "next" link. *)
Definition ok_page (items : list JSON) (next_url : option string) : Response :=
  mkResponse 200 (Some (JArr items))
    (match next_url with
     | Some u => {["next" := u]}
     | None => ∅
     end).

Fixpoint find_url (u : string) (table : list (string * Response)) : option Response :=
  match table with
  | [] => None
  | (u', r) :: rest => if String.eqb u' u then Some r else find_url u rest
  end.

(** A server that answers by URL, whatever the parameters. *)
Definition serve (table : list (string * Response)) : Network :=
  fun _ req =>
    match find_url (url req) table with
    | Some r => Ok r
    | None => Raise ConnectionError
    end.

(** Four pages, the third one empty. *)
Definition four_pages : list (string * Response) :=
  [("u1", ok_page [JNum 1; JNum 2] (Some "u2"));
   ("u2", ok_page [JNum 3; JNum 4] (Some "u3"));
   ("u3", ok_page [] (Some "u4"));
   ("u4", ok_page [JNum 5] None)].

(** Three pages of two items. *)
Definition three_pages : list (string * Response) :=
  [("u1", ok_page [JNum 1; JNum 2] (Some "u2"));
   ("u2", ok_page [JNum 3; JNum 4] (Some "u3"));
   ("u3", ok_page [JNum 5; JNum 6] None)].

(** The parameters [{"limit": K}]. *)
Definition limit_params (K : Z) : option (gmap string JSON) :=
  Some {["limit" := JNum K]}.

(** An item created at [t]. *)
Definition created_at (t : Z) : JSON := JObj [("create_time", JNum t)].

(** A normalisation that keeps the timestamp as it is. *)
Definition keep_timestamp (create_time : JSON) : Result JSON := Ok create_time.

Definition time_of_number (j : JSON) : Z :=
  match j with
  | JNum t => t
  | JObj [("create_time", JNum t)] => t
  | _ => 0
  end.

(** A server that answers every request with the same page of one item. *)
Definition same_page : Network :=
  fun _ _ => Ok (ok_page [created_at 10] None).

(** A server that fails twice with status 503 and then answers. *)
Definition flaky : Network :=
  fun n _ =>
    if (n <? 2)%nat then Ok (mkResponse 503 None ∅)
    else Ok (ok_page [JNum 1] None).

(** Two pages from the latest item to the earliest. *)
Definition two_pages_descending : list (string * Response) :=
  [("v1", ok_page [JNum 30; JNum 5] (Some "v2"));
   ("v2", ok_page [JNum 4; JNum 3] None)].

(** An entity kept as the JSON object it was built from. *)
Definition new_entity (body : JSON) : Result JSON :=
  match body with
  | JObj _ => Ok body
  | _ => Raise TypeError
  end.

(** The [start_at] parameter of a request. *)
Definition start_at_of (req : Request) : option JSON :=
  match params req with
  | Some p => p !! "start_at"
  | None => None
  end.

(** A server of an endpoint paged by date: a page of two items, a page of
    one item from the cursor 10 on, nothing from the cursor 5 on. *)
Definition two_pages_by_date : Network :=
  fun _ req =>
    match start_at_of req with
    | None => Ok (ok_page [created_at 20; created_at 10] None)
    | Some (JNum 10) => Ok (ok_page [created_at 5] None)
    | Some (JNum 5) => Ok (ok_page [] None)
    | Some _ => Ok (ok_page [created_at 1] None)
    end.

(** A server that answers the first request with a page [P1] of two items,
    the second with an empty page [P2] and every later one with a page [P3]
    of one item. *)
Definition empty_second_page : Network :=
  fun n _ =>
    match n with
    | O => Ok (ok_page [created_at 20; created_at 10] None)
    | S O => Ok (ok_page [] None)
    | _ => Ok (ok_page [created_at 1] None)
    end.

(** A server that answers every request with [r]. *)
Definition always (r : Response) : Network := fun _ _ => Ok r.

(** A transport that raises [e] on every request. *)
Definition failing (e : Exn) : Network := fun _ _ => Raise e.

(** ** Vocabulary of the requests a client issues *)

(** A client whose [_call_api] issues the request it is asked for, once or
    more, and no other request.  Both variants do
    ([base_issues_own_request], [retrying_issues_own_request]). *)
Definition issues_own_request (self : Self) : Prop :=
  forall url ps method data log,
    exists k : nat,
      snd (_call_api self url ps method data log)
      = log ++ repeat (mkRequest url ps method data) k.

(** A request that follows a "next" link as [_paginate] does: a GET of the
    link alone. *)
Definition follows_link (q : Request) : Prop :=
  params q = None /\ method q = "GET" /\ data q = None.

(** A GET that carries the parameters [p]. *)
Definition carries (p : gmap string JSON) (q : Request) : Prop :=
  params q = Some p /\ method q = "GET" /\ data q = None.

(** The parameters a [_lazy_paginate] sends with its requests from the state
    [g] on. *)
Definition sends (p : gmap string JSON) (g : LazyPaginate) : Prop :=
  match g with
  | LP_created _ ps => default_params ps = p
  | LP_yielding _ _ p' => p' = p
  | LP_finished => True
  end.

(** A response that fails with an [HTTPError]: a 4xx or 5xx status, and a
    body that does not parse or is a JSON object. *)
Definition http_failure (r : Response) : Prop :=
  400 <= status_code r < 600
  /\ (json r = None \/ exists fields, json r = Some (JObj fields)).

(** The argument of the [HTTPError] such a response is turned into. *)
Definition http_error_of (r : Response) : HTTPErrorArg :=
  match json r with
  | Some (JObj fields) =>
      match Py.assoc "error" fields with
      | Some msg => FromBody msg
      | None => FromStatus (status_code r)
      end
  | _ => FromStatus (status_code r)
  end.

(** ** Python values of the endpoints *)

Module Truthy.
(** [bool(x)] for an integer, a string and a list. *)
Definition int (n : Z) : bool := negb (n =? 0).
Definition str (s : string) : bool := negb (String.eqb s "").
Definition list {A} (l : list A) : bool :=
  match l with
  | [] => false
  | _ => true
  end.
End Truthy.

Module PyStr.
(** [c.lower()] for an ASCII character. *)
Definition lower_char (c : Ascii.ascii) : Ascii.ascii :=
  if (65 <=? Ascii.nat_of_ascii c)%nat && (Ascii.nat_of_ascii c <=? 90)%nat
  then Ascii.ascii_of_nat (Ascii.nat_of_ascii c + 32)
  else c.

(** [s.lower()] for an ASCII string. *)
Fixpoint lower (s : string) : string :=
  match s with
  | EmptyString => EmptyString
  | String c rest => String (lower_char c) (lower rest)
  end.

(** The scan of [s.replace(old, new)] for a non-empty [old]: [skip]
    characters of an occurrence just replaced are still to be passed. *)
Fixpoint replace_scan (old new : string) (skip : nat) (s : string) : string :=
  match s with
  | EmptyString => EmptyString
  | String c rest =>
      match skip with
      | S skip' => replace_scan old new skip' rest
      | O =>
          if String.prefix old s
          then String.append new (replace_scan old new (String.length old - 1) rest)
          else String c (replace_scan old new 0 rest)
      end
  end.

(** [s.replace("", new)]: [new] before every character and at the end. *)
Fixpoint intersperse (new : string) (s : string) : string :=
  match s with
  | EmptyString => new
  | String c rest => String.append new (String c (intersperse new rest))
  end.

(** [s.replace(old, new)] *)
Definition replace (s old new : string) : string :=
  if String.eqb old "" then intersperse new s else replace_scan old new 0 s.

(** [s.startswith(prefix)] *)
Definition startswith (s prefix : string) : bool := String.prefix prefix s.
End PyStr.

Module Dict.
(** [d[key] = v] on a dict kept as the list of its items in the order of
    insertion. *)
Fixpoint setitem (key : string) (v : JSON) (d : list (string * JSON))
    : list (string * JSON) :=
  match d with
  | [] => [(key, v)]
  | (k, v') :: rest =>
      if String.eqb k key then (k, v) :: rest else (k, v') :: setitem key v rest
  end.

(** [d.get(key)] on a parsed JSON value: [None] for a key the dict does not
    have; only dicts have the method. *)
Definition get (d : JSON) (key : string) : Result JSON :=
  match d with
  | JObj kv =>
      match Py.assoc key kv with
      | Some v => Ok v
      | None => Ok JNull
      end
  | _ => Raise AttributeError
  end.
End Dict.

Module PyCmp.
(** The integer a number or a boolean is compared as. *)
Definition as_int (j : JSON) : option Z :=
  match j with
  | JNum n => Some n
  | JBool b => Some (if b then 1 else 0)
  | _ => None
  end.

(** [a == b] on parsed JSON values: numbers and booleans by value, lists
    item by item, dicts key by key whatever the order of their items. *)
Fixpoint eq (a b : JSON) {struct a} : bool :=
  match a, b with
  | JNull, JNull => true
  | JStr s, JStr t => String.eqb s t
  | JNum n, _ =>
      match as_int b with
      | Some m => n =? m
      | None => false
      end
  | JBool c, _ =>
      match as_int b with
      | Some m => (if c then 1 else 0) =? m
      | None => false
      end
  | JArr l, JArr m =>
      (fix eq_items (l m : list JSON) {struct l} : bool :=
         match l, m with
         | [], [] => true
         | x :: l', y :: m' => eq x y && eq_items l' m'
         | _, _ => false
         end) l m
  | JObj f, JObj g =>
      (List.length f =? List.length g)%nat
      && (fix eq_fields (f : list (string * JSON)) {struct f} : bool :=
            match f with
            | [] => true
            | (k, v) :: f' =>
                match Py.assoc k g with
                | Some v' => eq v v'
                | None => false
                end && eq_fields f'
            end) f
  | _, _ => false
  end.

End PyCmp.

(** [{key(x): value(x) for x in items}] *)
Definition dict_comprehension {A V} (key : A -> string) (value : A -> V) (items : list A)
    : gmap string V :=
  foldl (fun d x => <[key x := value x]> d) ∅ items.

(** The loop of the list [[new(item) for item in items]], where an item is
    passed as keyword arguments: the entities of the items, in order; the
    first item that does not validate raises. *)
Fixpoint construct_each {A} (new : JSON -> Result A) (items : list JSON) : Result (list A) :=
  match items with
  | [] => Ok []
  | item :: rest =>
      rbind (new item) (fun a =>
      rbind (construct_each new rest) (fun l => Ok (a :: l)))
  end.

(** The list [[new(item) for item in items]] itself. *)
Definition comprehension {A} (new : JSON -> Result A) (items : JSON) : Result (list A) :=
  rbind (Py.iter items) (construct_each new).

(** A generator expression [(element(item) for item in source)] over the
    sequence [source], where an item is passed as keyword arguments;
    [exhausted] once it has ended. *)
Record GenExpr (G A : Type) : Type := mkGenExpr {
  element : JSON -> Result A;
  source : G;
  exhausted : bool
}.
Arguments mkGenExpr {G A} element source exhausted.
Arguments element {G A} g.
Arguments source {G A} g.
Arguments exhausted {G A} g.

(** [next(g)] on a generator expression: [None] is [StopIteration]. *)
Definition genexpr_next {G} `{Generator G} {A} (g : GenExpr G A)
    : Api (option A * GenExpr G A) :=
  if exhausted g then ret (None, g)
  else
    let* og := next (source g) in
    match fst og with
    | None => ret (None, mkGenExpr (element g) (snd og) true)
    | Some item =>
        let* a := lift (element g item) in
        ret (Some a, mkGenExpr (element g) (snd og) false)
    end.

(** [list(itertools.islice(g, n))] on a generator expression. *)
Fixpoint genexpr_islice {G} `{Generator G} {A} (n : nat) (g : GenExpr G A)
    : Api (list A * GenExpr G A) :=
  match n with
  | O => ret ([], g)
  | S n' =>
      let* og := genexpr_next g in
      match fst og with
      | None => ret ([], snd og)
      | Some a =>
          let* rest := genexpr_islice n' (snd og) in
          ret (a :: fst rest, snd rest)
      end
  end.

Module Params.
(** [if value: params[key] = value], for an integer, a string and a list of
    strings. *)
Definition set_int (key : string) (value : option Z) (params : gmap string JSON)
    : gmap string JSON :=
  match value with
  | Some n => if Truthy.int n then <[key := JNum n]> params else params
  | None => params
  end.

Definition set_str (key : string) (value : option string) (params : gmap string JSON)
    : gmap string JSON :=
  match value with
  | Some s => if Truthy.str s then <[key := JStr s]> params else params
  | None => params
  end.

Definition set_list (key : string) (value : option (list string))
    (params : gmap string JSON) : gmap string JSON :=
  match value with
  | Some l => if Truthy.list l then <[key := JArr (map JStr l)]> params else params
  | None => params
  end.
End Params.

(** ** Requests to the API: [evergreen/api_requests.py] *)

Module Requester.
(** [evergreen.api_models.version.Requester] *)
Inductive t : Type :=
| PATCH_REQUEST
| GITTER_REQUEST
| GITHUB_PULL_REQUEST
| MERGE_TEST
| AD_HOC
| TRIGGER_REQUEST
| UNKNOWN.

Definition name (self : t) : string :=
  match self with
  | PATCH_REQUEST => "PATCH_REQUEST"
  | GITTER_REQUEST => "GITTER_REQUEST"
  | GITHUB_PULL_REQUEST => "GITHUB_PULL_REQUEST"
  | MERGE_TEST => "MERGE_TEST"
  | AD_HOC => "AD_HOC"
  | TRIGGER_REQUEST => "TRIGGER_REQUEST"
  | UNKNOWN => "UNKNOWN"
  end.

Definition value (self : t) : string :=
  match self with
  | PATCH_REQUEST => "patch_request"
  | GITTER_REQUEST => "gitter_request"
  | GITHUB_PULL_REQUEST => "github_pull_request"
  | MERGE_TEST => "merge_test"
  | AD_HOC => "ad_hoc"
  | TRIGGER_REQUEST => "trigger_request"
  | UNKNOWN => "unknown"
  end.

(** Two members are equal when they are the same member. *)
Definition eqb (a b : t) : bool := String.eqb (name a) (name b).

(** [Requester.evg_value] *)
Definition evg_value (self : t) : string := PyStr.lower (name self).

(** [Requester.stats_value] *)
Definition stats_value (self : t) : string :=
  match self with
  | PATCH_REQUEST => "patch"
  | GITTER_REQUEST => "mainline"
  | GITHUB_PULL_REQUEST => "patch"
  | MERGE_TEST => ""
  | AD_HOC => "adhoc"
  | TRIGGER_REQUEST => "trigger"
  | UNKNOWN => ""
  end.

(** [PATCH_REQUESTERS] *)
Definition PATCH_REQUESTERS : list t := [PATCH_REQUEST; GITHUB_PULL_REQUEST; MERGE_TEST].
End Requester.

Module IssueLinkRequest.
(** [IssueLinkRequest] *)
Record t : Type := mk {
  issue_key : string;
  url : string
}.

(** [IssueLinkRequest.as_dict] *)
Definition as_dict (self : t) : JSON :=
  JObj [("issue_key", JStr (issue_key self)); ("url", JStr (url self))].
End IssueLinkRequest.

Module StatsSpecification.
(** [StatsSpecification]; [datetime] is the class of the two dates. *)
Record t (datetime : Type) : Type := mk {
  project_id : string;
  after_date : option datetime;
  before_date : option datetime;
  group_num_days : option Z;
  requesters : option Requester.t;
  tests : option (list string);
  tasks : option (list string);
  variants : option (list string);
  distros : option (list string);
  group_by : option string;
  sort : option string
}.
Arguments mk {datetime}.
Arguments project_id {datetime} _.
Arguments after_date {datetime} _.
Arguments before_date {datetime} _.
Arguments group_num_days {datetime} _.
Arguments requesters {datetime} _.
Arguments tests {datetime} _.
Arguments tasks {datetime} _.
Arguments variants {datetime} _.
Arguments distros {datetime} _.
Arguments group_by {datetime} _.
Arguments sort {datetime} _.

Section GetParams.

Context {datetime : Type}.

(** [evergreen.util.format_evergreen_date], whose module is not among the
    sources. *)
Variable format_evergreen_date : datetime -> Result JSON.

(** The member of [Requester] as a value of the dict of parameters. *)
Variable requester_param : Requester.t -> JSON.

(** [if date: params[key] = format_evergreen_date(date)]; a [datetime] is
    true. *)
Definition set_date (key : string) (value : option datetime) (params : gmap string JSON)
    : Result (gmap string JSON) :=
  match value with
  | Some d => rbind (format_evergreen_date d) (fun s => Ok (<[key := s]> params))
  | None => Ok params
  end.

(** [StatsSpecification.get_params]; a member of an [Enum] is true. *)
Definition get_params (self : t datetime) : Result (gmap string JSON) :=
  let params : gmap string JSON := ∅ in
  rbind (set_date "after_date" (after_date self) params) (fun params =>
  rbind (set_date "before_date" (before_date self) params) (fun params =>
  let params := Params.set_int "group_num_days" (group_num_days self) params in
  let params :=
    match requesters self with
    | Some r => <["requesters" := requester_param r]> params
    | None => params
    end in
  let params := Params.set_list "tests" (tests self) params in
  let params := Params.set_list "tasks" (tasks self) params in
  let params := Params.set_list "variants" (variants self) params in
  let params := Params.set_list "distros" (distros self) params in
  let params := Params.set_str "group_by" (group_by self) params in
  let params := Params.set_str "sort" (sort self) params in
  Ok params)).

End GetParams.

(** The specification with its [tests] set to [value]. *)
Definition with_tests {datetime} (value : option (list string)) (self : t datetime)
    : t datetime :=
  mk (project_id self) (after_date self) (before_date self) (group_num_days self)
     (requesters self) value (tasks self) (variants self) (distros self)
     (group_by self) (sort self).
End StatsSpecification.

(** ** Endpoints of the client *)

Section Endpoints.

Variable api_server : string.

(** [json.dumps], of the standard library. *)
Variable json_dumps : JSON -> string.

(** The class [datetime], a date as a value of the dict of parameters, and
    [evergreen.util.format_evergreen_date]. *)
Variable datetime : Type.
Variable datetime_param : datetime -> JSON.
Variable format_evergreen_date : datetime -> Result JSON.
Variable requester_param : Requester.t -> JSON.

(** The entity classes (pydantic models), as in [build_by_id]. *)
Variables Patch Task Tst Version TestStats TaskStats TaskReliability : Type.
Variable new_Patch : JSON -> Result Patch.
Variable new_Task : JSON -> Result Task.
Variable new_Tst : JSON -> Result Tst.
Variable new_Version : JSON -> Result Version.
Variable new_TestStats : JSON -> Result TestStats.
Variable new_TaskStats : JSON -> Result TaskStats.
Variable new_TaskReliability : JSON -> Result TaskReliability.

(** [EvergreenApi.configure_task] *)
Definition configure_task (self : Self) (task_id : string) (activated : option bool)
    (priority : option Z) : Api unit :=
  let url := _create_url api_server (String.append "/tasks/" task_id) in
  let data : list (string * JSON) := [] in
  let data :=
    match activated with
    | Some a => if a then Dict.setitem "activated" (JBool a) data else data
    | None => data
    end in
  let data :=
    match priority with
    | Some p => if Truthy.int p then Dict.setitem "priority" (JNum p) data else data
    | None => data
    end in
  let* _ := _call_api self url None "PATCH" (Some (json_dumps (JObj data))) in
  ret tt.

(** [EvergreenApi.configure_patch] *)
Definition configure_patch (self : Self) (patch_id : string) (variants : list JSON)
    (description : option string) : Api unit :=
  let url :=
    _create_url api_server (String.append "/patches/" (String.append patch_id "/configure")) in
  let data : list (string * JSON) := [] in
  let data :=
    if Truthy.list variants then Dict.setitem "variants" (JArr variants) data else data in
  let data :=
    match description with
    | Some d => if Truthy.str d then Dict.setitem "description" (JStr d) data else data
    | None => data
    end in
  let* _ := _call_api self url None "POST" (Some (json_dumps (JObj data))) in
  ret tt.

(** [EvergreenApi.annotate_task] *)
Definition annotate_task (self : Self) (task_id : string) (execution : option Z)
    (message : option string) (issues suspected_issues : option (list IssueLinkRequest.t))
    (metadata : option (list (string * JSON))) : Api unit :=
  let url :=
    _create_url api_server (String.append "/tasks/" (String.append task_id "/annotation")) in
  let request : list (string * JSON) := [("task_id", JStr task_id)] in
  let request :=
    match execution with
    | Some e => if Truthy.int e then Dict.setitem "task_execution" (JNum e) request else request
    | None => request
    end in
  let request :=
    match message with
    | Some m =>
        if Truthy.str m then Dict.setitem "note" (JObj [("message", JStr m)]) request
        else request
    | None => request
    end in
  let request :=
    match issues with
    | Some l =>
        if Truthy.list l
        then Dict.setitem "issues" (JArr (map IssueLinkRequest.as_dict l)) request
        else request
    | None => request
    end in
  let request :=
    match suspected_issues with
    | Some l =>
        if Truthy.list l
        then Dict.setitem "suspected_issues" (JArr (map IssueLinkRequest.as_dict l)) request
        else request
    | None => request
    end in
  let request :=
    match metadata with
    | Some m => if Truthy.list m then Dict.setitem "metadata" (JObj m) request else request
    | None => request
    end in
  let* _ := _call_api self url None "PUT" (Some (json_dumps (JObj request))) in
  ret tt.

(** [EvergreenApi.versions_by_project] *)
Definition versions_by_project (project_id : string) (requester : Requester.t)
    : GenExpr LazyPaginate Version :=
  let url :=
    _create_url api_server (String.append "/projects/" (String.append project_id "/versions")) in
  let params : gmap string JSON :=
    {["requester" := JStr (PyStr.lower (Requester.name requester))]} in
  let version_list := _lazy_paginate url (Some params) in
  mkGenExpr new_Version version_list false.

(** [EvergreenApi.patches_by_user]; a [datetime] is true. *)
Definition patches_by_user (user_id : string) (start_at : option datetime)
    (limit : option Z) : GenExpr LazyPaginate Patch :=
  let params : gmap string JSON := ∅ in
  let params :=
    match start_at with
    | Some d => <["start_at" := datetime_param d]> params
    | None => params
    end in
  let params := Params.set_int "limit" limit params in
  let url :=
    _create_url api_server (String.append "/users/" (String.append user_id "/patches")) in
  mkGenExpr new_Patch (_lazy_paginate url (Some params)) false.

(** [EvergreenApi.patch_by_id] *)
Definition patch_by_id (self : Self) (patch_id : string)
    (params : option (gmap string JSON)) : Api Patch :=
  let url := _create_url api_server (String.append "/patches/" patch_id) in
  let* response := _call_api self url params "GET" None in
  let* body := lift (response_json response) in
  lift (new_Patch body).

(** [EvergreenApi.task_by_id] *)
Definition task_by_id (self : Self) (task_id : string) (fetch_all_executions : option bool)
    : Api Task :=
  let params : option (gmap string JSON) :=
    match fetch_all_executions with
    | Some f => if f then Some {["fetch_all_executions" := JBool f]} else None
    | None => None
    end in
  let url := _create_url api_server (String.append "/tasks/" task_id) in
  let* response := _call_api self url params "GET" None in
  let* body := lift (response_json response) in
  lift (new_Task body).

(** [EvergreenApi.tests_by_task] *)
Definition tests_by_task (self : Self) (fuel : nat) (task_id : string)
    (status : option string) (execution : option Z) : Api (list Tst) :=
  let params : gmap string JSON := ∅ in
  let params := Params.set_str "status" status params in
  let params := Params.set_int "execution" execution params in
  let url :=
    _create_url api_server (String.append "/tasks/" (String.append task_id "/tests")) in
  let* tests := _paginate self fuel url (Some params) in
  lift (comprehension new_Tst tests).

(** [EvergreenApi.tasks_by_project] *)
Definition tasks_by_project (self : Self) (fuel : nat) (project_id : string)
    (statuses : option (list string)) : Api (list Task) :=
  let url :=
    _create_url api_server
      (String.append "/projects/" (String.append project_id "/versions/tasks")) in
  let params : option (gmap string JSON) :=
    match statuses with
    | Some l => if Truthy.list l then Some {["status" := JArr (map JStr l)]} else None
    | None => None
    end in
  let* tasks := _paginate self fuel url params in
  lift (comprehension new_Task tasks).

(** [EvergreenApi.tasks_by_project_and_commit] *)
Definition tasks_by_project_and_commit (self : Self) (project_id commit_hash : string)
    (params : option (gmap string JSON)) : Api (list Task) :=
  let url :=
    _create_url api_server
      (String.append "/projects/"
         (String.append project_id
            (String.append "/revisions/" (String.append commit_hash "/tasks")))) in
  let* response := _call_api self url params "GET" None in
  let* body := lift (response_json response) in
  lift (comprehension new_Task body).

(** [EvergreenApi.test_stats_by_project] *)
Definition test_stats_by_project (self : Self) (fuel : nat)
    (stats_spec : StatsSpecification.t datetime) : Api (list TestStats) :=
  let* params :=
    lift (StatsSpecification.get_params format_evergreen_date requester_param stats_spec) in
  let url :=
    _create_url api_server
      (String.append "/projects/"
         (String.append (StatsSpecification.project_id stats_spec) "/test_stats")) in
  let* test_stats_list := _paginate self fuel url (Some params) in
  lift (comprehension new_TestStats test_stats_list).

(** [EvergreenApi.task_stats_by_project] *)
Definition task_stats_by_project (self : Self) (fuel : nat)
    (stats_spec : StatsSpecification.t datetime) : Api (list TaskStats) :=
  match StatsSpecification.tests stats_spec with
  | Some _ => lift (Raise ValueError)
  | None =>
      let* params :=
        lift (StatsSpecification.get_params format_evergreen_date requester_param
                stats_spec) in
      let url :=
        _create_url api_server
          (String.append "/projects/"
             (String.append (StatsSpecification.project_id stats_spec) "/task_stats")) in
      let* task_stats_list := _paginate self fuel url (Some params) in
      lift (comprehension new_TaskStats task_stats_list)
  end.

(** [EvergreenApi.task_reliability_by_project] *)
Definition task_reliability_by_project (self : Self) (fuel : nat)
    (stats_spec : StatsSpecification.t datetime) : Api (list TaskReliability) :=
  match StatsSpecification.tests stats_spec with
  | Some _ => lift (Raise ValueError)
  | None =>
      let* params :=
        lift (StatsSpecification.get_params format_evergreen_date requester_param
                stats_spec) in
      let url :=
        _create_url api_server
          (String.append "/projects/"
             (String.append (StatsSpecification.project_id stats_spec)
                "/task_reliability")) in
      let* task_reliability_scores := _paginate self fuel url (Some params) in
      lift (comprehension new_TaskReliability task_reliability_scores)
  end.

(** [EvergreenApi._create_plugin_url] *)
Definition _create_plugin_url (endpoint : string) : string :=
  String.append api_server (String.append "/plugin/json" endpoint).

(** [EvergreenApi.json_by_task] *)
Definition json_by_task (self : Self) (fuel : nat) (task_id json_key : string) : Api JSON :=
  let url :=
    _create_plugin_url
      (String.append "/task/" (String.append task_id (String.append "/" json_key))) in
  _paginate self fuel url None.

End Endpoints.

Arguments versions_by_project api_server {Version} new_Version project_id requester.
Arguments patches_by_user api_server {datetime} datetime_param {Patch} new_Patch
  user_id start_at limit.
Arguments patch_by_id api_server {Patch} new_Patch self patch_id params.
Arguments task_by_id api_server {Task} new_Task self task_id fetch_all_executions.
Arguments tests_by_task api_server {Tst} new_Tst self fuel task_id status execution.
Arguments tasks_by_project api_server {Task} new_Task self fuel project_id statuses.
Arguments tasks_by_project_and_commit api_server {Task} new_Task self project_id
  commit_hash params.
Arguments test_stats_by_project api_server {datetime} format_evergreen_date requester_param
  {TestStats} new_TestStats self fuel stats_spec.
Arguments task_stats_by_project api_server {datetime} format_evergreen_date requester_param
  {TaskStats} new_TaskStats self fuel stats_spec.
Arguments task_reliability_by_project api_server {datetime} format_evergreen_date
  requester_param {TaskReliability} new_TaskReliability self fuel stats_spec.

(** ** Entities: [api_models/task.py], [api_models/version.py], [project.py],
    [distro.py]

    An entity is the record of the fields its methods read.  Where a method
    calls a method of the client it was built by ([self._api]), that method is
    an argument: it is the method of the variant of the client. *)

Module StatusScore.
(** [StatusScore] *)
Inductive t : Type :=
| SUCCESS
| FAILURE
| FAILURE_SYSTEM
| FAILURE_TIMEOUT
| UNDISPATCHED.

Definition value (self : t) : Z :=
  match self with
  | SUCCESS => 1
  | FAILURE => 2
  | FAILURE_SYSTEM => 3
  | FAILURE_TIMEOUT => 4
  | UNDISPATCHED => 5
  end.
End StatusScore.

Module StatusDetails.
(** [StatusDetails] *)
Record t : Type := mk {
  type : string;
  timed_out : bool
}.
End StatusDetails.

Module Task.
Definition EVG_SUCCESS_STATUS : string := "success".
Definition EVG_SYSTEM_FAILURE_STATUS : string := "system".
Definition EVG_UNDISPATCHED_STATUS : string := "undispatched".

(** [Task]; [previous_executions] is a field the model does not declare,
    kept as it came ([Extra.allow]). *)
Record t : Type := mk {
  task_id : string;
  execution : Z;
  status : string;
  status_details : StatusDetails.t;
  display_only : bool;
  execution_tasks : option (list string);
  previous_executions : option JSON
}.

(** [Task.is_success] *)
Definition is_success (self : t) : bool := String.eqb (status self) EVG_SUCCESS_STATUS.

(** [Task.is_undispatched] *)
Definition is_undispatched (self : t) : bool :=
  String.eqb (status self) EVG_UNDISPATCHED_STATUS.

(** [Task.is_system_failure]; an instance of [StatusDetails] is true. *)
Definition is_system_failure (self : t) : bool :=
  if negb (is_success self) && Truthy.str (StatusDetails.type (status_details self))
  then String.eqb (StatusDetails.type (status_details self)) EVG_SYSTEM_FAILURE_STATUS
  else false.

(** [Task.is_timeout] *)
Definition is_timeout (self : t) : bool :=
  if negb (is_success self) && StatusDetails.timed_out (status_details self)
  then StatusDetails.timed_out (status_details self)
  else false.

(** [StatusScore.get_task_status_score] *)
Definition get_task_status_score (task : t) : StatusScore.t :=
  if is_success task then StatusScore.SUCCESS
  else if is_undispatched task then StatusScore.UNDISPATCHED
  else if is_timeout task then StatusScore.FAILURE_TIMEOUT
  else if is_system_failure task then StatusScore.FAILURE_SYSTEM
  else StatusScore.FAILURE.

(** [Task.get_status_score] *)
Definition get_status_score (self : t) : StatusScore.t := get_task_status_score self.

(** [Task.get_tests] *)
Definition get_tests {Tst}
    (api_tests_by_task : string -> option string -> option Z -> Api (list Tst))
    (self : t) (status : option string) (execution' : option Z) : Api (list Tst) :=
  api_tests_by_task (task_id self) status
    (Some (match execution' with
           | None => execution self
           | Some e => e
           end)).

(** [Task.annotate] *)
Definition annotate
    (api_annotate_task :
       string -> option Z -> option string -> option (list IssueLinkRequest.t) ->
       option (list IssueLinkRequest.t) -> option (list (string * JSON)) -> Api unit)
    (self : t) (message : option string)
    (issues suspected_issues : option (list IssueLinkRequest.t))
    (metadata : option (list (string * JSON))) : Api unit :=
  api_annotate_task (task_id self) (Some (execution self)) message issues suspected_issues
    metadata.

(** The loop of [Task.get_execution] over the previous executions. *)
Fixpoint find_execution (new_Task : JSON -> Result t) (execution' : Z) (tasks : list JSON)
    : Result (option t) :=
  match tasks with
  | [] => Ok None
  | task :: rest =>
      rbind (Dict.get task "execution") (fun e =>
      if PyCmp.eq e (JNum execution')
      then rbind (new_Task task) (fun found => Ok (Some found))
      else find_execution new_Task execution' rest)
  end.

(** [Task.get_execution] *)
Definition get_execution (new_Task : JSON -> Result t) (self : t) (execution' : Z)
    : Result (option t) :=
  if execution self =? execution' then Ok (Some self)
  else
    rbind (Py.iter (match previous_executions self with
                    | Some tasks => tasks
                    | None => JArr []
                    end))
      (find_execution new_Task execution').

(** [Task.get_execution_or_self]; an instance of [Task] is true. *)
Definition get_execution_or_self (new_Task : JSON -> Result t) (self : t) (execution' : Z)
    : Result t :=
  rbind (get_execution new_Task self execution') (fun task_execution =>
  match task_execution with
  | Some found => Ok found
  | None => Ok self
  end).

(** [[api.task_by_id(task_id, fetch_all_executions=True) for task_id in ids]] *)
Fixpoint fetch_each (api_task_by_id : string -> option bool -> Api t) (ids : list string)
    : Api (list t) :=
  match ids with
  | [] => ret []
  | task_id :: rest =>
      let* task := api_task_by_id task_id (Some true) in
      let* tasks := fetch_each api_task_by_id rest in
      ret (task :: tasks)
  end.

(** [[task.get_execution_or_self(execution) for task in tasks]] *)
Fixpoint executions_or_selves (new_Task : JSON -> Result t) (execution' : Z)
    (tasks : list t) : Result (list t) :=
  match tasks with
  | [] => Ok []
  | task :: rest =>
      rbind (get_execution_or_self new_Task task execution') (fun found =>
      rbind (executions_or_selves new_Task execution' rest) (fun l => Ok (found :: l)))
  end.

(** [[task for task in tasks if filter_fn(task)]] *)
Fixpoint filter_tasks (filter_fn : t -> Result bool) (tasks : list t) : Result (list t) :=
  match tasks with
  | [] => Ok []
  | task :: rest =>
      rbind (filter_fn task) (fun keep =>
      rbind (filter_tasks filter_fn rest) (fun l =>
      Ok (if (keep : bool) then task :: l else l)))
  end.

(** [Task.get_execution_tasks]; a function is true. *)
Definition get_execution_tasks (new_Task : JSON -> Result t)
    (api_task_by_id : string -> option bool -> Api t) (self : t)
    (filter_fn : option (t -> Result bool)) : Api (option (list t)) :=
  if display_only self then
    match execution_tasks self with
    | None | Some [] => ret (Some [])
    | Some ids =>
        let* fetched := fetch_each api_task_by_id ids in
        let* found := lift (executions_or_selves new_Task (execution self) fetched) in
        match filter_fn with
        | Some f =>
            let* kept := lift (filter_tasks f found) in
            ret (Some kept)
        | None => ret (Some found)
        end
    end
  else ret None.
End Task.

Module BuildVariantStatus.
(** [BuildVariantStatus] *)
Record t : Type := mk {
  build_variant : string;
  build_id : string
}.
End BuildVariantStatus.

Module Version.
(** [Version] *)
Record t : Type := mk {
  version_id : string;
  project : string;
  requester : option Requester.t;
  build_variants_status : option (list BuildVariantStatus.t)
}.

(** [Version._build_variants_map], as [__init__] sets it. *)
Definition _build_variants_map (self : t) : gmap string string :=
  match build_variants_status self with
  | Some l =>
      if Truthy.list l
      then dict_comprehension BuildVariantStatus.build_variant BuildVariantStatus.build_id l
      else ∅
  | None => ∅
  end.

(** [Version.build_by_variant] *)
Definition build_by_variant {Build} (api_build_by_id : string -> Api Build) (self : t)
    (build_variant : string) : Api Build :=
  match _build_variants_map self !! build_variant with
  | Some build_id => api_build_by_id build_id
  | None => lift (Raise KeyError)
  end.

(** [not self.version_id.startswith(self.project.replace("-", "_"))] *)
Definition named_as_patch (self : t) : bool :=
  negb (PyStr.startswith (version_id self) (PyStr.replace (project self) "-" "_")).

(** [Version.is_patch]; a member of an [Enum] is true. *)
Definition is_patch (self : t) : bool :=
  match requester self with
  | Some r =>
      if negb (Requester.eqb r Requester.UNKNOWN)
      then existsb (Requester.eqb r) Requester.PATCH_REQUESTERS
      else named_as_patch self
  | None => named_as_patch self
  end.

(** [Version.get_patch] *)
Definition get_patch {Patch}
    (api_patch_by_id : string -> option (gmap string JSON) -> Api Patch) (self : t)
    : Api (option Patch) :=
  if is_patch self
  then
    let* patch := api_patch_by_id (version_id self) None in
    ret (Some patch)
  else ret None.
End Version.

Module Project.
(** [Project] *)
Record t : Type := mk {
  identifier : string
}.

(** [Project.most_recent_version]: [None] is the [StopIteration] of [next]
    on a sequence without an item. *)
Definition most_recent_version {Version}
    (api_versions_by_project : string -> Requester.t -> GenExpr LazyPaginate Version)
    (api : Self) (self : t) : Api (option Version) :=
  let version_iterator :=
    api_versions_by_project (identifier self) Requester.GITTER_REQUEST in
  let* ov := @genexpr_next _ (lazy_paginate_generator api) _ version_iterator in
  ret (fst ov).
End Project.

Module DistroExpansion.
(** [DistroExpansion] *)
Record t : Type := mk {
  key : string;
  value : string
}.
End DistroExpansion.

Module Distro.
(** [Distro] *)
Record t : Type := mk {
  expansions : list DistroExpansion.t
}.

(** [Distro._expansion_map], as [__init__] sets it. *)
Definition _expansion_map (self : t) : gmap string string :=
  dict_comprehension DistroExpansion.key DistroExpansion.value (expansions self).

(** [Distro.expansion] *)
Definition expansion (self : t) : gmap string string := _expansion_map self.
End Distro.

Module RunningTask.
(** [RunningTask] *)
Record t : Type := mk {
  build_id : option string;
  version_id : option string
}.
End RunningTask.

Module Host.
(** [Host] *)
Record t : Type := mk {
  host_id : string;
  running_task : RunningTask.t
}.

(** [Host.get_build] *)
Definition get_build {Build} (api_build_by_id : string -> Api Build) (self : t)
    : Api (option Build) :=
  match RunningTask.build_id (running_task self) with
  | Some build_id =>
      if Truthy.str build_id
      then
        let* build := api_build_by_id build_id in
        ret (Some build)
      else ret None
  | None => ret None
  end.

(** [Host.get_version] *)
Definition get_version {Version} (api_version_by_id : string -> Api Version) (self : t)
    : Api (option Version) :=
  match RunningTask.version_id (running_task self) with
  | Some version_id =>
      if Truthy.str version_id
      then
        let* version := api_version_by_id version_id in
        ret (Some version)
      else ret None
  | None => ret None
  end.
End Host.

(** ** Performance results: [api_models/performance_results.py] *)

Module PerformanceResults.

Section Builtins.

(** The built-ins of Python the two functions call on the keys and on the
    values of the results: [key.isdigit()]; [int(key)], which raises a
    [ValueError] for a string it does not read as a number, as for some of
    the strings [isdigit] holds of (a superscript two); [str(n)] for an
    integer; and [a < b] for two values. *)
Variable isdigit : string -> bool.
Variable int : string -> Result Z.
Variable str : Z -> string.
Variable lt : JSON -> JSON -> Result bool.

(** The generator [int(key) for key in keys if key.isdigit()], consumed. *)
Fixpoint digit_keys (keys : list string) : Result (list Z) :=
  match keys with
  | [] => Ok []
  | key :: rest =>
      if isdigit key
      then rbind (int key) (fun n => rbind (digit_keys rest) (fun l => Ok (n :: l)))
      else digit_keys rest
  end.

(** [_thread_levels_from_results]; [sorted] gives the ascending list. *)
Definition _thread_levels_from_results (results : list (string * JSON))
    : Result (list string) :=
  rbind (digit_keys (map fst results)) (fun numbers =>
  let thread_levels := merge_sort Z.le numbers in
  Ok (map str thread_levels)).

(** [thread_results.keys()]: only dicts have the method. *)
Definition keys (d : JSON) : Result (list string) :=
  match d with
  | JObj kv => Ok (map fst kv)
  | _ => Raise AttributeError
  end.

(** [[key for key in thread_results.keys() if "values" not in key]] *)
Definition measurement_names (thread_results : JSON) : Result (list string) :=
  rbind (keys thread_results) (fun ks =>
  Ok (List.filter (fun key => negb (Py.is_substring "values" key)) ks)).

(** The dict [formatted] of a measurement of a thread level. *)
Definition formatted_entry (thread_level : string) (thread_results : JSON)
    (measurement : string) : Result JSON :=
  rbind (Py.getitem thread_results measurement) (fun mean_value =>
  rbind (Py.getitem thread_results (String.append measurement "_values"))
    (fun recorded_values =>
  Ok (JObj [("thread_level", JStr thread_level);
            ("mean_value", mean_value);
            ("recorded_values", recorded_values);
            ("measurement", JStr measurement)]))).

(** [max_copy = copy(formatted); max_copy["thread_level"] = "max"] *)
Definition max_copy (formatted : JSON) : JSON :=
  match formatted with
  | JObj fields => JObj (Dict.setitem "thread_level" (JStr "max") fields)
  | other => other
  end.

(** [maxima[measurement] is None or
     maxima[measurement]["mean_value"] < formatted["mean_value"]] *)
Definition is_new_maximum (current formatted : JSON) : Result bool :=
  match current with
  | JNull => Ok true
  | _ =>
      rbind (Py.getitem current "mean_value") (fun current_mean =>
      rbind (Py.getitem formatted "mean_value") (fun mean_value =>
      lt current_mean mean_value))
  end.

(** The body of the loop over the measurements of a thread level, on the
    list [performance_results] and the dict [maxima]. *)
Definition record_measurement (thread_level : string) (thread_results : JSON)
    (state : list JSON * list (string * JSON)) (measurement : string)
    : Result (list JSON * list (string * JSON)) :=
  let performance_results := fst state in
  let maxima := snd state in
  let maxima :=
    match Py.assoc measurement maxima with
    | Some _ => maxima
    | None => Dict.setitem measurement JNull maxima
    end in
  rbind (formatted_entry thread_level thread_results measurement) (fun formatted =>
  let performance_results := performance_results ++ [formatted] in
  rbind (Py.getitem (JObj maxima) measurement) (fun current =>
  rbind (is_new_maximum current formatted) (fun new_maximum =>
  if (new_maximum : bool)
  then Ok (performance_results, Dict.setitem measurement (max_copy formatted) maxima)
  else Ok (performance_results, maxima)))).

Fixpoint record_measurements (thread_level : string) (thread_results : JSON)
    (state : list JSON * list (string * JSON)) (measurements : list string)
    : Result (list JSON * list (string * JSON)) :=
  match measurements with
  | [] => Ok state
  | measurement :: rest =>
      rbind (record_measurement thread_level thread_results state measurement)
        (fun state' => record_measurements thread_level thread_results state' rest)
  end.

(** The loop over the thread levels. *)
Fixpoint format_thread_levels (results : list (string * JSON))
    (state : list JSON * list (string * JSON)) (thread_levels : list string)
    : Result (list JSON * list (string * JSON)) :=
  match thread_levels with
  | [] => Ok state
  | thread_level :: rest =>
      rbind (Py.getitem (JObj results) thread_level) (fun thread_results =>
      rbind (measurement_names thread_results) (fun names =>
      rbind (record_measurements thread_level thread_results state names)
        (fun state' => format_thread_levels results state' rest)))
  end.

(** [_format_performance_results] *)
Definition _format_performance_results (results : list (string * JSON))
    : Result (list JSON) :=
  rbind (_thread_levels_from_results results) (fun thread_levels =>
  rbind (format_thread_levels results ([], []) thread_levels)
    (fun state => Ok (fst state ++ map snd (snd state)))).

End Builtins.

End PerformanceResults.

(** ** Vocabulary of the endpoints *)

(** The parameters [StatsSpecification.get_params] can produce, and those
    among them whose value is a number, a string or a list. *)
Definition stats_keys : list string :=
  ["after_date"; "before_date"; "group_num_days"; "requesters"; "tests"; "tasks";
   "variants"; "distros"; "group_by"; "sort"].

Definition stats_plain_keys : list string :=
  ["group_num_days"; "tests"; "tasks"; "variants"; "distros"; "group_by"; "sort"].

(** A dict of parameters whose keys are among [keys], the values of the keys
    among [plain] being true. *)
Definition params_within (keys plain : list string) (p : gmap string JSON) : Prop :=
  forall k v, p !! k = Some v ->
    In k keys /\ (In k plain -> Py.truthy v = true).

(** ** Example inputs of the endpoints *)

(** Two pages of test statistics of the project [proj], served by URL. *)
Definition stats_pages : list (string * Response) :=
  [("srv/rest/v2/projects/proj/test_stats",
    ok_page [JObj [("test_file", JStr "a.js")]; JObj [("test_file", JStr "b.js")]]
      (Some "next"));
   ("next", ok_page [JObj [("test_file", JStr "c.js")]] None)].

(** A specification of the statistics of [proj] over [group_num_days] days
    for the tests [tests], with dates as numbers. *)
Definition stats_of_proj (group_num_days : option Z) (tests : option (list string))
    : StatsSpecification.t Z :=
  StatsSpecification.mk "proj" None None group_num_days None tests None None None None None.

(** Dates and requesters as values of a dict of parameters, for the examples. *)
Definition date_as_number (d : Z) : Result JSON := Ok (JNum d).
Definition requester_as_value (r : Requester.t) : JSON := JStr (Requester.value r).

(** The keys [annotate_task] adds to its request after ["task_id"]. *)
Definition annotation_keys : list string :=
  ["task_execution"; "note"; "issues"; "suspected_issues"; "metadata"].

(** The request for the versions of a project that a [requester] created. *)
Definition versions_request (api_server project_id : string) (requester : Requester.t)
    : Request :=
  mkRequest
    (_create_url api_server
       (String.append "/projects/" (String.append project_id "/versions")))
    (Some {["requester" := JStr (Requester.value requester)]}) "GET" None.

(** The items of [items] whose key is [k], in order. *)
Definition with_key {A} (key : A -> string) (k : string) (items : list A) : list A :=
  List.filter (fun x => String.eqb (key x) k) items.

(** The statuses of a version for the build variant [build_variant]. *)
Definition statuses_of_variant (version : Version.t) (build_variant : string)
    : list BuildVariantStatus.t :=
  match Version.build_variants_status version with
  | Some l => with_key BuildVariantStatus.build_variant build_variant l
  | None => []
  end.

(** The request for a task with all its executions. *)
Definition execution_task_request (api_server task_id : string) : Request :=
  mkRequest (_create_url api_server (String.append "/tasks/" task_id))
    (Some {["fetch_all_executions" := JBool true]}) "GET" None.

(** The ids of the execution tasks of a task. *)
Definition execution_task_ids (task : Task.t) : list string :=
  match Task.execution_tasks task with
  | Some ids => ids
  | None => []
  end.

(** The lookups of the tasks [ids] with all their executions, one after the
    other from the log [log] on, all return: they give the tasks [tasks] and
    leave the log [log']. *)
Inductive fetched_in_turn (api_task_by_id : string -> option bool -> Api Task.t)
    : list Request -> list string -> list Task.t -> list Request -> Prop :=
| fetched_none log :
    fetched_in_turn api_task_by_id log [] [] log
| fetched_one log task_id task log1 ids tasks log' :
    api_task_by_id task_id (Some true) log = (Ok task, log1) ->
    fetched_in_turn api_task_by_id log1 ids tasks log' ->
    fetched_in_turn api_task_by_id log (task_id :: ids) (task :: tasks) log'.

(** ** Vocabulary of the performance results *)

(** The value of the field [key] of an entry of the formatted results. *)
Definition entry_field (key : string) (entry : JSON) : option JSON :=
  match entry with
  | JObj fields => Py.assoc key fields
  | _ => None
  end.

(** What [_format_performance_results] needs of a thread level: the
    results have a dict under that very key, and every key of the dict
    without "values" in it comes with its key of recorded values. *)
Definition thread_level_complete (results : list (string * JSON)) (thread_level : string)
    : Prop :=
  exists fields,
    Py.assoc thread_level results = Some (JObj fields)
    /\ forall measurement,
         In measurement (map fst fields) ->
         Py.is_substring "values" measurement = false ->
         is_Some (Py.assoc (String.append measurement "_values") fields).

(** The entry of the formatted results for a measurement of a thread
    level. *)
Definition formatted_as (thread_level measurement : string) (mean_value recorded_values : JSON)
    : JSON :=
  JObj [("thread_level", JStr thread_level);
        ("mean_value", mean_value);
        ("recorded_values", recorded_values);
        ("measurement", JStr measurement)].

(** The state of the loop of [_format_performance_results]: the entries
    formatted so far, for thread levels among [thread_levels], and for each of
    their measurements the copy of one of them, which no entry so far has a
    mean value greater than when [<] is a strict order. *)
Definition entries_formatted (thread_levels : list string) (entries : list JSON) : Prop :=
  forall e, In e entries ->
    exists thread_level measurement mean_value recorded_values,
      e = formatted_as thread_level measurement mean_value recorded_values
      /\ In thread_level thread_levels.

Definition maxima_formatted (entries : list JSON) (maxima : list (string * JSON)) : Prop :=
  forall measurement x, In (measurement, x) maxima ->
    exists thread_level mean_value recorded_values,
      In (formatted_as thread_level measurement mean_value recorded_values) entries
      /\ x = formatted_as "max" measurement mean_value recorded_values.

Definition maxima_cover (entries : list JSON) (maxima : list (string * JSON)) : Prop :=
  forall thread_level measurement mean_value recorded_values,
    In (formatted_as thread_level measurement mean_value recorded_values) entries ->
    exists mean_value' recorded_values',
      Py.assoc measurement maxima
      = Some (formatted_as "max" measurement mean_value' recorded_values').

Definition maxima_greatest (lt : JSON -> JSON -> Result bool) (entries : list JSON)
    (maxima : list (string * JSON)) : Prop :=
  forall thread_level measurement mean_value recorded_values,
    In (formatted_as thread_level measurement mean_value recorded_values) entries ->
    exists mean_value' recorded_values',
      Py.assoc measurement maxima
      = Some (formatted_as "max" measurement mean_value' recorded_values')
      /\ lt mean_value' mean_value <> Ok true.

(** A comparison that holds of no value and itself, and of [a] and [c] when
    it holds of [a] and [b] and of [b] and [c]: so does [<] compare the
    numbers of Python, the float that is not a number included, of which it
    never holds. *)
Definition strict_order (lt : JSON -> JSON -> Result bool) : Prop :=
  (forall a, lt a a <> Ok true)
  /\ (forall a b c, lt a b = Ok true -> lt b c = Ok true -> lt a c = Ok true).

Definition loop_invariant (lt : JSON -> JSON -> Result bool) (thread_levels : list string)
    (state : list JSON * list (string * JSON)) : Prop :=
  entries_formatted thread_levels (fst state)
  /\ NoDup (map fst (snd state))
  /\ maxima_formatted (fst state) (snd state)
  /\ maxima_cover (fst state) (snd state)
  /\ (strict_order lt -> maxima_greatest lt (fst state) (snd state)).


(** The previous executions [get_execution] goes through: those of the
    field, or none without the field. *)
Definition previous_executions_of (task : Task.t) : JSON :=
  match Task.previous_executions task with
  | Some tasks => tasks
  | None => JArr []
  end.

(** A previous execution, as it came, that is (is not) the execution
    [execution]. *)
Definition is_execution (execution : Z) (raw : JSON) : Prop :=
  exists e, Dict.get raw "execution" = Ok e /\ PyCmp.eq e (JNum execution) = true.

Definition is_other_execution (execution : Z) (raw : JSON) : Prop :=
  exists e, Dict.get raw "execution" = Ok e /\ PyCmp.eq e (JNum execution) = false.

(** ** Further example inputs *)

(** Two pages of the tasks of the revision [abc] of [proj]. *)
Definition commit_pages : list (string * Response) :=
  [("srv/rest/v2/projects/proj/revisions/abc/tasks",
    ok_page [JObj [("task_id", JStr "t1")]] (Some "more"));
   ("more", ok_page [JObj [("task_id", JStr "t2")]] None)].

(** A server that answers every request with a page of one version and a
    "next" link. *)
Definition one_version_per_page : Network :=
  always (ok_page [JObj [("version_id", JStr "v1")]] (Some "more")).

(** A task made of the ["task_id"] and the ["previous_executions"] of a
    body, at execution 1. *)
Definition example_task (body : JSON) : Result Task.t :=
  match body with
  | JObj fields =>
      match Py.assoc "task_id" fields with
      | Some (JStr task_id) =>
          Ok (Task.mk task_id 1 "success" (StatusDetails.mk "" false) false None
                (Py.assoc "previous_executions" fields))
      | _ => Raise ValueError
      end
  | _ => Raise TypeError
  end.

(** A display task with two execution tasks. *)
Definition display_task : Task.t :=
  Task.mk "display" 0 "failed" (StatusDetails.mk "test" false) true (Some ["t1"; "t2"]) None.

(** A server that has the task [t1] and, with [both], the task [t2]. *)
Definition execution_tasks_served (both : bool) : list (string * Response) :=
  ("srv/rest/v2/tasks/t1", mkResponse 200 (Some (JObj [("task_id", JStr "t1")])) ∅)
  :: (if both
      then [("srv/rest/v2/tasks/t2", mkResponse 200 (Some (JObj [("task_id", JStr "t2")])) ∅)]
      else []).

(** A task at execution 1 whose execution 0 is kept. *)
Definition restarted_task : Task.t :=
  Task.mk "t" 1 "success" (StatusDetails.mk "" false) false None
    (Some (JArr [JObj [("task_id", JStr "t"); ("execution", JNum 0)]])).

(** A version built on linux twice and on mac once, from the mainline. *)
Definition mainline_version : Version.t :=
  Version.mk "proj_1234" "proj" (Some Requester.GITTER_REQUEST)
    (Some [BuildVariantStatus.mk "linux" "b1"; BuildVariantStatus.mk "mac" "b2";
           BuildVariantStatus.mk "linux" "b3"]).

(** A version of a patch. *)
Definition patch_version : Version.t :=
  Version.mk "5f1e" "proj" (Some Requester.PATCH_REQUEST) None.

Module AsciiDigits.
(** [isdigit], [int] and [str] on the strings of ASCII characters, for the
    examples. *)
Definition isdigit (s : string) : bool :=
  match NilEmpty.uint_of_string s with
  | Some _ => negb (String.eqb s "")
  | None => false
  end.

Definition int (s : string) : Result Z :=
  match NilEmpty.uint_of_string s with
  | Some d => if String.eqb s "" then Raise ValueError else Ok (Z.of_N (N.of_uint d))
  | None => Raise ValueError
  end.

Definition str (n : Z) : string := NilZero.string_of_int (Z.to_int n).
End AsciiDigits.

(** [a < b] for two numbers, for the examples. *)
Definition number_lt (a b : JSON) : Result bool :=
  match PyCmp.as_int a, PyCmp.as_int b with
  | Some m, Some n => Ok (m <? n)
  | _, _ => Raise TypeError
  end.

(** Results of two thread levels and a start time. *)
Definition two_thread_levels : list (string * JSON) :=
  [("16", JObj [("ops", JNum 7); ("ops_values", JArr [JNum 7])]);
   ("8", JObj [("ops", JNum 9); ("ops_values", JArr [JNum 9; JNum 9])]);
   ("start", JStr "2020-01-01")].

(** A page that is a JSON object, with a "next" link, and the page after
    it. *)
Definition object_pages : list (string * Response) :=
  [("srv/plugin/json/task/t/perf",
    mkResponse 200 (Some (JObj [("name", JStr "perf")])) {["next" := "more"]});
   ("more", ok_page [JNum 1] None)].

(** A page by date whose last item has no creation time. *)
Definition undated_page : Network :=
  always (ok_page [created_at 20; JObj [("patch_id", JStr "p")]] None).

(** A host that runs a task of the build [b1]. *)
Definition busy_host : Host.t := Host.mk "h1" (RunningTask.mk (Some "b1") None).

(** * Properties *)

(** ** Python values *)

Lemma chars_has_item (s : string) : s <> EmptyString -> Py.chars s <> [].
Proof. destruct s; [congruence | discriminate]. Qed.

(** [bool(x)] and [for item in x]: a truthy value that can be iterated has
    an item. *)
Lemma iter_truthy_has_item (j : JSON) (items : list JSON) :
  Py.truthy j = true -> Py.iter j = Ok items -> items <> [].
Proof.
  destruct j as [| b | n | s | l | kv]; cbn; try discriminate.
  - intros Ht [= <-]. apply chars_has_item. intros ->. discriminate.
  - intros Ht [= <-]. now destruct l.
  - intros Ht [= <-]. now destruct kv.
Qed.

(** A page that is truthy and can be iterated gives its first item to the
    loop of a lazy strategy: never the fuel marker. *)
Lemma first_of_page_no_fuel_marker (j : JSON) : first_of_page j <> OutOfFuel.
Proof.
  unfold first_of_page. destruct (Py.truthy j) eqn:Ht; [| discriminate].
  destruct (Py.iter j) as [[| item pending] | e |] eqn:Hi; try discriminate.
  - now destruct (iter_truthy_has_item j [] Ht Hi).
  - now destruct j.
Qed.

(** ** The transport wrapper *)

Lemma raise_for_status_below_400 (r : Response) :
  status_code r < 400 -> raise_for_status r = Ok tt.
Proof.
  intros Hlt. unfold raise_for_status.
  destruct (400 <=? status_code r) eqn:E; [apply Z.leb_le in E; lia | reflexivity].
Qed.

Lemma raise_for_status_4xx_5xx (r : Response) :
  400 <= status_code r < 600 ->
  raise_for_status r = Raise (HTTPError (FromStatus (status_code r))).
Proof.
  intros [Hlo Hhi]. unfold raise_for_status.
  apply Z.leb_le in Hlo. apply Z.ltb_lt in Hhi. now rewrite Hlo, Hhi.
Qed.

Lemma base_call_api_eq net url params method data log :
  Base._call_api net url params method data log =
  (attempt_outcome net (mkRequest url params method data) (List.length log),
   log ++ [mkRequest url params method data]).
Proof.
  unfold Base._call_api, attempt_outcome, bind, session_request, lift, ret.
  destruct (net _ _) as [r | e |]; simpl; try reflexivity.
  destruct (_raise_for_status r) as [[] | e |]; reflexivity.
Qed.

Lemma raise_for_status_object_without_error (r : Response) (fields : list (string * JSON)) :
  json r = Some (JObj fields) -> Py.assoc "error" fields = None ->
  _raise_for_status r = raise_for_status r.
Proof.
  intros Hj Hnone. unfold _raise_for_status. rewrite Hj. simpl. rewrite Hnone.
  now destruct (400 <=? status_code r).
Qed.

Lemma raise_for_status_object_with_error (r : Response) (fields : list (string * JSON))
    (msg : JSON) :
  400 <= status_code r -> json r = Some (JObj fields) -> Py.assoc "error" fields = Some msg ->
  _raise_for_status r = Raise (HTTPError (FromBody msg)).
Proof.
  intros Hs Hj Hsome. unfold _raise_for_status. rewrite Hj. simpl. rewrite Hsome.
  apply Z.leb_le in Hs. now rewrite Hs.
Qed.

Lemma raise_for_status_no_body (r : Response) :
  json r = None -> _raise_for_status r = raise_for_status r.
Proof. intros Hj. unfold _raise_for_status. now rewrite Hj. Qed.

Lemma _raise_for_status_below_400 (r : Response) :
  status_code r < 400 -> _raise_for_status r = Ok tt.
Proof.
  intros Hlt. unfold _raise_for_status.
  destruct (400 <=? status_code r) eqn:E; [apply Z.leb_le in E; lia |].
  destruct (json r); now apply raise_for_status_below_400.
Qed.

(** X27.  The failures of the status that [_call_api] raises, after one
    request.  On a response with status >= 400 whose body parses as a JSON
    object with an ["error"] key, it raises an [HTTPError] whose message is
    the value of that key, built from the body and not by
    [raise_for_status]; on a response with a 4xx or 5xx status whose body
    does not parse, or parses as a value the test ["error" in json_data]
    answers false for (an object without the key, a list without the item, a
    string without the word), it raises the [HTTPError] of
    [raise_for_status]. *)
Theorem call_api_error_classification (net : Network) (url : string)
    (params : option (gmap string JSON)) (method : string) (data : option string)
    (log : list Request) (r : Response) :
  net (List.length log) (mkRequest url params method data) = Ok r ->
  400 <= status_code r ->
  (forall fields msg,
      json r = Some (JObj fields) -> Py.assoc "error" fields = Some msg ->
      Base._call_api net url params method data log =
      (Raise (HTTPError (FromBody msg)), log ++ [mkRequest url params method data]))
  /\ (status_code r < 600 ->
      json r = None \/
      (exists json_data, json r = Some json_data /\ Py.contains "error" json_data = Ok false) ->
      Base._call_api net url params method data log =
      (Raise (HTTPError (FromStatus (status_code r))),
       log ++ [mkRequest url params method data])).
Proof.
  intros Hnet Hs. split.
  - intros fields msg Hj Hmsg. rewrite base_call_api_eq. unfold attempt_outcome.
    rewrite Hnet. simpl.
    now rewrite (raise_for_status_object_with_error r fields msg Hs Hj Hmsg).
  - intros Hhi Hbody. rewrite base_call_api_eq. unfold attempt_outcome.
    rewrite Hnet. simpl.
    assert (_raise_for_status r = raise_for_status r) as ->.
    { destruct Hbody as [Hnone | (json_data & Hj & Hno)].
      - now apply raise_for_status_no_body.
      - unfold _raise_for_status. rewrite Hj, Hno. now destruct (400 <=? status_code r). }
    rewrite raise_for_status_4xx_5xx by lia. reflexivity.
Qed.

Lemma attempt_outcome_below_400 (net : Network) (req : Request) (n : nat) (r : Response) :
  net n req = Ok r -> status_code r < 400 -> attempt_outcome net req n = Ok r.
Proof.
  intros Hnet Hs. unfold attempt_outcome. rewrite Hnet. simpl.
  now rewrite _raise_for_status_below_400.
Qed.

(** X1.  On a response of status >= 400 whose body parses as the JSON value
    [null], a boolean or a number, [_raise_for_status] raises a [TypeError]
    from the test ["error" in json_data]: [raise_for_status] is not reached,
    and the failure of the status is not raised. *)
Theorem raise_for_status_not_a_container (r : Response) (j : JSON) :
  json r = Some j ->
  400 <= status_code r ->
  j = JNull \/ (exists b, j = JBool b) \/ (exists n, j = JNum n) ->
  _raise_for_status r = Raise TypeError.
Proof.
  intros Hj Hs Hkind. unfold _raise_for_status. rewrite Hj.
  apply Z.leb_le in Hs. rewrite Hs.
  destruct Hkind as [-> | [[b ->] | [n ->]]]; reflexivity.
Qed.

(** C10.  On a response with status < 400 [_call_api] returns the response
    and raises nothing, whatever the body is, a JSON object with an
    ["error"] key included. *)
Theorem call_api_returns_below_400 (net : Network) (url : string)
    (params : option (gmap string JSON)) (method : string) (data : option string)
    (log : list Request) (r : Response) :
  net (List.length log) (mkRequest url params method data) = Ok r ->
  status_code r < 400 ->
  Base._call_api net url params method data log =
  (Ok r, log ++ [mkRequest url params method data]).
Proof.
  intros Hnet Hs. rewrite base_call_api_eq.
  now rewrite (attempt_outcome_below_400 net _ _ r Hnet Hs).
Qed.

(** ** The retrying variant *)

Lemma retrying_call_api_eq (net : Network) (url : string)
    (params : option (gmap string JSON)) (method : string) (data : option string)
    (log : list Request) :
  Retrying._call_api net url params method data log =
  if negb (retryable_failure
             (attempt_outcome net (mkRequest url params method data) (List.length log)))
  then (attempt_outcome net (mkRequest url params method data) (List.length log),
        log ++ [mkRequest url params method data])
  else if negb (retryable_failure
                  (attempt_outcome net (mkRequest url params method data)
                     (S (List.length log))))
  then (attempt_outcome net (mkRequest url params method data) (S (List.length log)),
        log ++ [mkRequest url params method data; mkRequest url params method data])
  else (attempt_outcome net (mkRequest url params method data) (S (S (List.length log))),
        log ++ [mkRequest url params method data; mkRequest url params method data;
                mkRequest url params method data]).
Proof.
  set (req := mkRequest url params method data).
  unfold Retrying._call_api, Tenacity.retry, MAX_RETRIES.
  cbn [Tenacity.attempts]. rewrite base_call_api_eq. fold req.
  destruct (attempt_outcome net req (List.length log)) as [r | e |] eqn:E1;
    cbn [retryable_failure negb]; try reflexivity.
  destruct (Tenacity.retry_if_exception_type e); cbn [negb]; [| reflexivity].
  cbn [Tenacity.stop_after_attempt]. unfold Tenacity.stop_after_attempt, MAX_RETRIES.
  cbn [Nat.leb]. rewrite base_call_api_eq. fold req.
  rewrite length_app. cbn [List.length]. rewrite Nat.add_1_r.
  destruct (attempt_outcome net req (S (List.length log))) as [r2 | e2 |] eqn:E2;
    cbn [retryable_failure negb]; rewrite <- ?app_assoc; try reflexivity.
  destruct (Tenacity.retry_if_exception_type e2); cbn [negb]; [| reflexivity].
  cbn [Nat.leb]. rewrite base_call_api_eq. fold req.
  rewrite !length_app. cbn [List.length].
  match goal with
  | |- context [attempt_outcome net req ?n] =>
      replace n with (S (S (List.length log))) by lia
  end.
  rewrite <- !app_assoc. cbn [app].
  destruct (attempt_outcome net req (S (S (List.length log)))) as [r3 | e3 |] eqn:E3;
    try reflexivity.
  destruct (Tenacity.retry_if_exception_type e3); reflexivity.
Qed.

(** What [retry_if_exception_type] retries on: an [HTTPError] and a
    [ConnectionError], and no other failure. *)
Lemma retry_on_kinds (e : Exn) :
  (exists arg, e = HTTPError arg) \/ e = ConnectionError ->
  Tenacity.retry_if_exception_type e = true.
Proof. intros [[arg ->] | ->]; reflexivity. Qed.

Lemma no_retry_on_other_kinds (e : Exn) :
  (forall arg, e <> HTTPError arg) -> e <> ConnectionError ->
  Tenacity.retry_if_exception_type e = false.
Proof.
  intros Hhttp Hconn. destruct e as [arg | | | | | | | |]; try reflexivity.
  - now destruct (Hhttp arg).
  - now destruct Hconn.
Qed.

Lemma retryable_failure_kinds (o : Result Response) :
  retryable_failure o = true ->
  (exists arg, o = Raise (HTTPError arg)) \/ o = Raise ConnectionError.
Proof.
  destruct o as [r | e |]; cbn; try discriminate.
  destruct e as [arg | | | | | | | |]; cbn; try discriminate; eauto.
Qed.

Lemma not_retryable_failure_kinds (o : Result Response) :
  retryable_failure o = false ->
  (forall arg, o <> Raise (HTTPError arg)) /\ o <> Raise ConnectionError.
Proof.
  intros Hr. split; [intros arg -> | intros ->]; discriminate.
Qed.

(** C3.  The retrying [_call_api] makes [k] attempts for some [1 <= k <= 3],
    each one request, and its result is the outcome of the last attempt,
    unchanged.  It retries on an [HTTPError] and on a [ConnectionError] only:
    every attempt before the last failed with one of the two, and an attempt
    that ends before the third is a success or a failure of another kind.  In
    particular: two such failures and then a success give the success after
    exactly 3 attempts; two such failures and then a failure, whatever its
    kind, raise that third failure after exactly 3 attempts; a first failure
    that is neither an [HTTPError] nor a [ConnectionError] is raised after
    exactly 1 attempt. *)
Theorem retrying_call_api_attempts (net : Network) (url : string)
    (params : option (gmap string JSON)) (method : string) (data : option string)
    (log : list Request) :
  (exists k : nat,
      (1 <= k <= 3)%nat /\
      Retrying._call_api net url params method data log =
      (attempt_outcome net (mkRequest url params method data) (List.length log + k - 1),
       log ++ repeat (mkRequest url params method data) k) /\
      (forall j : nat, (j < k - 1)%nat ->
         (exists arg,
             attempt_outcome net (mkRequest url params method data) (List.length log + j)
             = Raise (HTTPError arg))
         \/ attempt_outcome net (mkRequest url params method data) (List.length log + j)
            = Raise ConnectionError) /\
      ((k < 3)%nat ->
         (forall arg,
             attempt_outcome net (mkRequest url params method data)
               (List.length log + k - 1) <> Raise (HTTPError arg))
         /\ attempt_outcome net (mkRequest url params method data)
              (List.length log + k - 1) <> Raise ConnectionError))
  /\ (forall e1 e2 r,
        attempt_outcome net (mkRequest url params method data) (List.length log) = Raise e1 ->
        (exists arg, e1 = HTTPError arg) \/ e1 = ConnectionError ->
        attempt_outcome net (mkRequest url params method data) (S (List.length log))
        = Raise e2 ->
        (exists arg, e2 = HTTPError arg) \/ e2 = ConnectionError ->
        attempt_outcome net (mkRequest url params method data) (S (S (List.length log)))
        = Ok r ->
        Retrying._call_api net url params method data log =
        (Ok r, log ++ repeat (mkRequest url params method data) 3))
  /\ (forall e1 e2 e3,
        attempt_outcome net (mkRequest url params method data) (List.length log) = Raise e1 ->
        (exists arg, e1 = HTTPError arg) \/ e1 = ConnectionError ->
        attempt_outcome net (mkRequest url params method data) (S (List.length log))
        = Raise e2 ->
        (exists arg, e2 = HTTPError arg) \/ e2 = ConnectionError ->
        attempt_outcome net (mkRequest url params method data) (S (S (List.length log)))
        = Raise e3 ->
        Retrying._call_api net url params method data log =
        (Raise e3, log ++ repeat (mkRequest url params method data) 3))
  /\ (forall e,
        attempt_outcome net (mkRequest url params method data) (List.length log) = Raise e ->
        (forall arg, e <> HTTPError arg) -> e <> ConnectionError ->
        Retrying._call_api net url params method data log =
        (Raise e, log ++ repeat (mkRequest url params method data) 1)).
Proof.
  set (req := mkRequest url params method data).
  pose proof (retrying_call_api_eq net url params method data log) as Heq.
  fold req in Heq. cbn [repeat].
  split; [| split; [| split]].
  - destruct (retryable_failure (attempt_outcome net req (List.length log))) eqn:R1;
      cbn [negb] in Heq.
    + destruct (retryable_failure (attempt_outcome net req (S (List.length log)))) eqn:R2;
        cbn [negb] in Heq.
      * exists 3%nat. split; [lia |]. split; [| split; [| lia]].
        -- rewrite Heq. f_equal. f_equal. lia.
        -- intros j Hj. apply retryable_failure_kinds.
           assert (j = 0 \/ j = 1)%nat as [-> | ->] by lia.
           ++ now rewrite Nat.add_0_r.
           ++ now rewrite Nat.add_1_r.
      * exists 2%nat. split; [lia |]. split; [| split].
        -- rewrite Heq. f_equal. f_equal. lia.
        -- intros j Hj. apply retryable_failure_kinds.
           assert (j = 0)%nat as -> by lia. now rewrite Nat.add_0_r.
        -- intros _. apply not_retryable_failure_kinds. rewrite <- R2.
           f_equal. f_equal. lia.
    + exists 1%nat. split; [lia |]. split; [| split].
      * rewrite Heq. f_equal. f_equal. lia.
      * intros j Hj. lia.
      * intros _. apply not_retryable_failure_kinds. rewrite <- R1.
        f_equal. f_equal. lia.
  - intros e1 e2 r H1 R1 H2 R2 H3. rewrite Heq, H1, H2, H3. cbn.
    now rewrite (retry_on_kinds e1 R1), (retry_on_kinds e2 R2).
  - intros e1 e2 e3 H1 R1 H2 R2 H3. rewrite Heq, H1, H2, H3. cbn.
    now rewrite (retry_on_kinds e1 R1), (retry_on_kinds e2 R2).
  - intros e H1 Hhttp Hconn. rewrite Heq, H1. cbn.
    now rewrite (no_retry_on_other_kinds e Hhttp Hconn).
Qed.

(** ** Eager pagination: [_paginate] *)

Lemma base_answers (net : Network) : answers (EvergreenApi net) net.
Proof.
  intros url params method data log r Hnet Hs. cbn [_call_api EvergreenApi].
  rewrite base_call_api_eq. now rewrite (attempt_outcome_below_400 net _ _ r Hnet Hs).
Qed.

Lemma retrying_answers (net : Network) : answers (RetryingEvergreenApi net) net.
Proof.
  intros url params method data log r Hnet Hs. cbn [_call_api RetryingEvergreenApi].
  rewrite retrying_call_api_eq.
  now rewrite (attempt_outcome_below_400 net _ _ r Hnet Hs).
Qed.

Lemma limit_reached_no_limit (params : option (gmap string JSON)) (json_data : JSON) :
  limit_of params = None -> limit_reached params json_data = Ok false.
Proof.
  unfold limit_of, limit_reached. destruct params as [p |]; [| reflexivity].
  intros ->. now destruct (negb (params_truthy (Some p))).
Qed.

Lemma limit_reached_limit (params : option (gmap string JSON)) (K : Z) (held : list JSON) :
  limit_of params = Some (JNum K) ->
  limit_reached params (JArr held) = Ok (limit_stop K held).
Proof.
  unfold limit_of, limit_reached. destruct params as [p |]; [| discriminate].
  intros Hl. assert (params_truthy (Some p) = true) as ->.
  { unfold params_truthy. destruct (size p =? 0)%nat eqn:E; [| reflexivity].
    apply Nat.eqb_eq in E. apply map_size_empty_iff in E. subst p.
    rewrite lookup_empty in Hl. discriminate. }
  cbn [negb]. rewrite Hl. reflexivity.
Qed.

Lemma fetched_after_never (held : list JSON) (rest : list (list JSON)) :
  fetched_after (fun _ => false) held rest = rest.
Proof.
  revert held. induction rest as [| page rest IH]; intros held; [reflexivity |].
  cbn. now rewrite IH.
Qed.

Lemma fetched_after_length (stop : list JSON -> bool) (held : list JSON)
    (rest : list (list JSON)) :
  (List.length (fetched_after stop held rest) <= List.length rest)%nat.
Proof.
  revert held. induction rest as [| page rest IH]; intros held; cbn; [lia |].
  destruct (stop held); cbn; [lia |]. specialize (IH (held ++ page)). lia.
Qed.

Lemma extend_page (held page : list JSON) :
  (if Py.truthy (JArr page)
   then rbind (Ok (JArr page)) (Py.extend (JArr held))
   else Ok (JArr held)) = Ok (JArr (held ++ page)).
Proof.
  destruct page as [| item page]; cbn; [now rewrite app_nil_r | reflexivity].
Qed.

(** The loop of [_paginate] over a chain: it fetches the pages
    [fetched_after stop held rest], one request each, and returns what it held
    followed by their items. *)
Lemma paginate_loop_follows (self : Self) (net : Network)
    (params : option (gmap string JSON)) (stop : list JSON -> bool) :
  answers self net ->
  (forall held, limit_reached params (JArr held) = Ok (stop held)) ->
  forall n r rest, follows net n r rest ->
  forall fuel log held,
    List.length log = n -> (List.length rest <= fuel)%nat ->
    exists reqs,
      paginate_loop self fuel params r (JArr held) log =
      (Ok (JArr (held ++ concat (fetched_after stop held rest))), log ++ reqs)
      /\ List.length reqs = List.length (fetched_after stop held rest).
Proof.
  intros Hans Hstop n r rest Hf.
  induction Hf as [n r Hnone | n r next_url r' items rest Hnext Hnet Hs Hj Hf IH];
    intros fuel log held Hlen Hfuel.
  - exists []. cbn [fetched_after concat List.length]. rewrite !app_nil_r.
    destruct fuel; cbn [paginate_loop]; rewrite Hnone; auto.
  - cbn [List.length] in Hfuel. destruct fuel as [| fuel]; [lia |].
    cbn [paginate_loop fetched_after]. rewrite Hnext.
    unfold bind at 1. unfold lift at 1. rewrite Hstop.
    destruct (stop held) eqn:Estop.
    + exists []. cbn [concat List.length]. rewrite !app_nil_r. auto.
    + unfold bind at 1. subst n. rewrite (Hans _ _ _ _ _ r' Hnet Hs).
      unfold bind at 1. unfold lift at 1, response_json at 1. rewrite Hj.
      unfold bind at 1.
      assert ((if Py.truthy (JArr items)
               then lift (rbind (response_json r') (Py.extend (JArr held)))
               else ret (JArr held)) (log ++ [mkRequest next_url None "GET" None])
              = (Ok (JArr (held ++ items)), log ++ [mkRequest next_url None "GET" None]))
        as ->.
      { unfold response_json. rewrite Hj. pose proof (extend_page held items) as He.
        destruct (Py.truthy (JArr items)); unfold lift, ret; now rewrite He. }
      destruct (IH fuel (log ++ [mkRequest next_url None "GET" None]) (held ++ items))
        as (reqs & Heq & Hreqs).
      * rewrite length_app. cbn. lia.
      * lia.
      * exists (mkRequest next_url None "GET" None :: reqs). split.
        -- rewrite Heq. cbn [concat]. rewrite <- !app_assoc. reflexivity.
        -- cbn [List.length]. now rewrite Hreqs.
Qed.

Lemma paginate_chain (self : Self) (net : Network) (url : string)
    (params : option (gmap string JSON)) (stop : list JSON -> bool)
    (log : list Request) (first : list JSON) (rest : list (list JSON)) (fuel : nat) :
  answers self net ->
  (forall held, limit_reached params (JArr held) = Ok (stop held)) ->
  chain net (List.length log) (mkRequest url params "GET" None) (first :: rest) ->
  (List.length rest <= fuel)%nat ->
  exists reqs,
    _paginate self fuel url params log =
    (Ok (JArr (concat (first :: fetched_after stop first rest))), log ++ reqs)
    /\ List.length reqs = S (List.length (fetched_after stop first rest)).
Proof.
  intros Hans Hstop Hchain Hfuel.
  inversion Hchain as [r items rest' Hnet Hs Hj Hf Heq]; subst items rest'.
  unfold _paginate. unfold bind at 1. rewrite (Hans _ _ _ _ _ r Hnet Hs).
  unfold bind at 1. unfold lift at 1, response_json at 1. rewrite Hj.
  destruct (paginate_loop_follows self net params stop Hans Hstop _ _ _ Hf fuel
              (log ++ [mkRequest url params "GET" None]) first)
    as (reqs & Heq & Hreqs).
  - rewrite length_app. cbn. lia.
  - exact Hfuel.
  - exists (mkRequest url params "GET" None :: reqs). split.
    + rewrite Heq. rewrite <- app_assoc. reflexivity.
    + cbn [List.length]. now rewrite Hreqs.
Qed.

Lemma concat_filter_nonempty (pages : list (list JSON)) :
  concat (List.filter nonempty pages) = concat pages.
Proof.
  induction pages as [| page pages IH]; [reflexivity |].
  destruct page as [| item page]; cbn.
  - exact IH.
  - now rewrite <- IH.
Qed.

(** C1.  Without a limit, on a chain of pages linked by "next" links
    [_paginate] issues one request per page of the chain, empty pages
    included, and returns the items of the non-empty pages in the order of
    the server.  With an empty page between the second and the third page the
    result is that of the chain without it, and at least 3 requests are
    issued. *)
Theorem paginate_returns_all_pages (self : Self) (net : Network) (url : string)
    (params : option (gmap string JSON)) (log : list Request)
    (pages : list (list JSON)) (fuel : nat) :
  answers self net ->
  limit_of params = None ->
  chain net (List.length log) (mkRequest url params "GET" None) pages ->
  (List.length pages <= fuel)%nat ->
  exists reqs,
    _paginate self fuel url params log =
    (Ok (JArr (concat (List.filter nonempty pages))), log ++ reqs)
    /\ List.length reqs = List.length pages
    /\ (forall p1 p2 tail,
          pages = p1 :: p2 :: [] :: tail ->
          concat (List.filter nonempty pages)
          = concat (List.filter nonempty (p1 :: p2 :: tail))
          /\ (3 <= List.length reqs)%nat).
Proof.
  intros Hans Hno Hchain Hfuel.
  destruct pages as [| first rest]; [inversion Hchain |].
  destruct (paginate_chain self net url params (fun _ => false) log first rest fuel Hans)
    as (reqs & Heq & Hreqs); auto.
  - intros held. now apply limit_reached_no_limit.
  - cbn [List.length] in Hfuel. lia.
  - rewrite fetched_after_never in Heq, Hreqs. exists reqs. split; [| split].
    + now rewrite concat_filter_nonempty.
    + exact Hreqs.
    + intros p1 p2 tail Hp. split.
      * rewrite Hp, !concat_filter_nonempty. reflexivity.
      * rewrite Hreqs. inversion Hp; subst. cbn [List.length]. lia.
Qed.

Lemma fetched_after_prefix (stop : list JSON -> bool) (held : list JSON)
    (rest : list (list JSON)) :
  exists unfetched, rest = fetched_after stop held rest ++ unfetched.
Proof.
  revert held. induction rest as [| page rest IH]; intros held; cbn.
  - now exists [].
  - destruct (stop held).
    + now exists (page :: rest).
    + destruct (IH (held ++ page)) as (u & Hu). exists u. cbn. now rewrite <- Hu.
Qed.

Lemma fetched_after_reached (K : Z) (held : list JSON) (pre unfetched : list (list JSON)) :
  K <= Z.of_nat (List.length (held ++ concat pre)) ->
  (List.length (fetched_after (limit_stop K) held (pre ++ unfetched)) <= List.length pre)%nat.
Proof.
  revert held. induction pre as [| page pre IH]; intros held Hk.
  - cbn [app List.length]. cbn [concat] in Hk. rewrite app_nil_r in Hk.
    destruct unfetched as [| page rest]; cbn; [lia |].
    unfold limit_stop. apply Z.leb_le in Hk. rewrite Hk. cbn. lia.
  - cbn [app fetched_after List.length]. destruct (limit_stop K held); cbn; [lia |].
    specialize (IH (held ++ page)). cbn [concat] in Hk. rewrite app_assoc in Hk.
    specialize (IH Hk). lia.
Qed.

Lemma fetched_after_below (K : Z) (held : list JSON) (rest init : list (list JSON))
    (last : list JSON) :
  fetched_after (limit_stop K) held rest = init ++ [last] ->
  Z.of_nat (List.length (held ++ concat init)) < K.
Proof.
  revert held init. induction rest as [| page rest IH]; intros held init Hf; cbn in Hf.
  - now destruct init.
  - destruct (limit_stop K held) eqn:Estop; [now destruct init |].
    unfold limit_stop in Estop. apply Z.leb_gt in Estop.
    destruct init as [| page' init]; cbn in Hf.
    + cbn [concat]. now rewrite app_nil_r.
    + inversion Hf as [[Hp Hrest]]. cbn [concat]. rewrite app_assoc.
      now apply IH.
Qed.

(** C7 (as the code has it).  With [limit = K] in [params], on a chain of
    pages [_paginate] fetches a non-empty prefix [fetched] of the chain, one
    request per page, and returns its items.  It follows no "next" link once
    the items held have reached [K]: if the first pages [pre] of the chain
    hold [K] items or more, no page after [pre] is fetched; so, when the pages
    before the last one hold [K] items or more, fewer requests are issued
    than the chain has pages.  The test is made between the fetches of whole
    pages, and the first page is fetched whatever [K] is: the pages fetched
    before the last fetched one hold fewer than [K] items, and for [K >= 0]
    the result exceeds [K] by one page at most: it holds at most [K] items
    and those of the last fetched page. *)
Theorem paginate_stops_at_limit (self : Self) (net : Network) (url : string)
    (params : option (gmap string JSON)) (K : Z) (log : list Request)
    (pages : list (list JSON)) (fuel : nat) :
  answers self net ->
  limit_of params = Some (JNum K) ->
  chain net (List.length log) (mkRequest url params "GET" None) pages ->
  (List.length pages <= fuel)%nat ->
  exists fetched unfetched reqs,
    _paginate self fuel url params log = (Ok (JArr (concat fetched)), log ++ reqs)
    /\ List.length reqs = List.length fetched
    /\ pages = fetched ++ unfetched
    /\ fetched <> []
    /\ (forall pre rest, pages = pre ++ rest -> pre <> [] ->
          K <= Z.of_nat (List.length (concat pre)) ->
          (List.length reqs <= List.length pre)%nat)
    /\ (forall init last, pages = init ++ [last] -> init <> [] ->
          K <= Z.of_nat (List.length (concat init)) ->
          (List.length reqs < List.length pages)%nat)
    /\ (forall init last, fetched = init ++ [last] -> init <> [] ->
          Z.of_nat (List.length (concat init)) < K)
    /\ (0 <= K ->
        forall init last, fetched = init ++ [last] ->
          Z.of_nat (List.length (concat fetched)) <= K + Z.of_nat (List.length last)).
Proof.
  intros Hans Hlim Hchain Hfuel.
  destruct pages as [| first rest]; [inversion Hchain |].
  destruct (paginate_chain self net url params (limit_stop K) log first rest fuel Hans)
    as (reqs & Heq & Hreqs); auto.
  - intros held. now apply limit_reached_limit.
  - cbn [List.length] in Hfuel. lia.
  - destruct (fetched_after_prefix (limit_stop K) first rest) as (unfetched & Hu).
    exists (first :: fetched_after (limit_stop K) first rest), unfetched, reqs.
    assert (Hpre : forall pre rest', first :: rest = pre ++ rest' -> pre <> [] ->
                     K <= Z.of_nat (List.length (concat pre)) ->
                     (List.length reqs <= List.length pre)%nat).
    { intros pre rest' Hp Hne Hk. destruct pre as [| first' pre]; [congruence |].
      cbn [app] in Hp. inversion Hp as [[Hfirst Hrest]]. subst first'.
      cbn [concat] in Hk. rewrite Hreqs, Hrest. cbn [List.length].
      pose proof (fetched_after_reached K first pre rest' Hk). lia. }
    assert (Hbelow : forall init lst,
                       first :: fetched_after (limit_stop K) first rest = init ++ [lst] ->
                       init <> [] ->
                       Z.of_nat (List.length (concat init)) < K).
    { intros init lst Hf Hne. destruct init as [| first' init]; [congruence |].
      cbn [app] in Hf. inversion Hf as [[Hfirst Hrest]]. subst first'.
      exact (fetched_after_below K first rest init lst Hrest). }
    split; [exact Heq |]. split; [exact Hreqs |].
    split; [cbn [app]; now rewrite <- Hu |]. split; [discriminate |].
    split; [exact Hpre |]. split; [| split; [exact Hbelow |]].
    + intros init lst Hp Hne Hk. specialize (Hpre init [lst] Hp Hne Hk).
      rewrite Hp, length_app. cbn [List.length]. lia.
    + intros HK init lst Hf. rewrite Hf, concat_app. cbn [concat].
      rewrite app_nil_r, length_app, Nat2Z.inj_add.
      destruct init as [| first' init]; [cbn; lia |].
      pose proof (Hbelow (first' :: init) lst Hf ltac:(discriminate)). lia.
Qed.

(** ** Lazy pagination: [_lazy_paginate] *)

Lemma attempt_outcome_ok (net : Network) (req : Request) (n : nat) (r : Response) :
  attempt_outcome net req n = Ok r -> net n req = Ok r.
Proof.
  unfold attempt_outcome. destruct (net n req) as [r' | e |]; cbn; try discriminate.
  destruct (_raise_for_status r') as [[] | e |]; cbn; try discriminate. congruence.
Qed.

Lemma lazy_paginate_fetch_eq (net : Network) (next_url : string)
    (params : gmap string JSON) (log : list Request) :
  lazy_paginate_fetch (EvergreenApi net) next_url params log =
  (rbind (attempt_outcome net (mkRequest next_url (Some params) "GET" None)
            (List.length log)) (fun r =>
   rbind (response_json r) (fun j =>
   rbind (first_of_page j) (fun o =>
   match o with
   | Some (item, pending) => Ok (Some item, LP_yielding pending r params)
   | None => Ok (None, LP_finished)
   end))),
   log ++ [mkRequest next_url (Some params) "GET" None]).
Proof.
  unfold lazy_paginate_fetch. cbn [_call_api EvergreenApi].
  unfold bind at 1. rewrite base_call_api_eq.
  destruct (attempt_outcome _ _ _) as [r | e |]; cbn [rbind]; try reflexivity.
  unfold bind at 1. unfold lift at 1.
  destruct (response_json r) as [j | e |]; cbn [rbind]; try reflexivity.
  unfold first_of_page. destruct (Py.truthy j); cbn [negb rbind]; [| reflexivity].
  unfold bind, lift. destruct (Py.iter j) as [[| item pending] | e |]; reflexivity.
Qed.

Lemma lazy_paginate_fetch_cases (net : Network) (next_url : string)
    (params : gmap string JSON) (log : list Request) :
  (exists item pending r j,
      lazy_paginate_fetch (EvergreenApi net) next_url params log =
      (Ok (Some item, LP_yielding pending r params),
       log ++ [mkRequest next_url (Some params) "GET" None])
      /\ net (List.length log) (mkRequest next_url (Some params) "GET" None) = Ok r
      /\ json r = Some j /\ Py.truthy j = true /\ Py.iter j = Ok (item :: pending))
  \/ lazy_paginate_fetch (EvergreenApi net) next_url params log =
     (Ok (None, LP_finished), log ++ [mkRequest next_url (Some params) "GET" None])
  \/ (exists e,
        lazy_paginate_fetch (EvergreenApi net) next_url params log =
        (Raise e, log ++ [mkRequest next_url (Some params) "GET" None]))
  \/ lazy_paginate_fetch (EvergreenApi net) next_url params log =
     (OutOfFuel, log ++ [mkRequest next_url (Some params) "GET" None]).
Proof.
  rewrite lazy_paginate_fetch_eq.
  destruct (attempt_outcome _ _ _) as [r | e |] eqn:Hatt; cbn [rbind];
    [| right; right; left; now exists e | now right; right; right].
  apply attempt_outcome_ok in Hatt. unfold response_json.
  destruct (json r) as [j |] eqn:Hj; cbn [rbind];
    [| right; right; left; now exists JSONDecodeError].
  unfold first_of_page. destruct (Py.truthy j) eqn:Ht; cbn [rbind]; [| now right; left].
  destruct (Py.iter j) as [[| item pending] | e |] eqn:Hi; cbn [rbind];
    [now right; right; right | | right; right; left; now exists e | now right; right; right].
  left. exists item, pending, r, j. auto.
Qed.

Lemma snd_bind_ret {A B} (m : Api A) (f : A -> B) (log : list Request) :
  snd (bind m (fun a => ret (f a)) log) = snd (m log).
Proof. unfold bind, ret. now destruct (m log) as [[a | e |] log']. Qed.

Lemma islice_step {G} `{Generator G} (n : nat) (g : G) (log : list Request) :
  snd (islice (S n) g log) =
  match next g log with
  | (Ok (Some item, g'), log') => snd (islice n g' log')
  | (_, log') => log'
  end.
Proof.
  cbn [islice]. unfold bind at 1.
  destruct (next g log) as [[[[item |] g'] | e |] log']; cbn [fst snd]; try reflexivity.
  apply snd_bind_ret.
Qed.

(** The requests [islice M] makes on a [_lazy_paginate] of the plain client:
    none, or few enough for the items still held and the size of the pages. *)
Lemma islice_lazy_paginate_requests (net : Network) (page_size : nat) :
  page_size_at_least net page_size ->
  forall (M : nat) (g : LazyPaginate) (log : list Request),
  exists reqs,
    snd (@islice _ (lazy_paginate_generator (EvergreenApi net)) M g log) = log ++ reqs
    /\ (reqs = [] \/
        (may_fetch g /\
         (List.length reqs * page_size + pending_items g + 1 <= M + page_size)%nat)).
Proof.
  intros Hsize. induction M as [| M IH]; intros g log.
  - exists []. cbn. rewrite app_nil_r. auto.
  - rewrite islice_step. unfold next, lazy_paginate_generator.
    assert (Hfetch : forall next_url params,
      exists reqs,
        match lazy_paginate_fetch (EvergreenApi net) next_url params log with
        | (Ok (Some item, g'), log') =>
            snd (@islice _ (lazy_paginate_generator (EvergreenApi net)) M g' log')
        | (_, log') => log'
        end = log ++ reqs
        /\ (List.length reqs * page_size + 1 <= S M + page_size)%nat).
    { intros next_url params.
      destruct (lazy_paginate_fetch_cases net next_url params log)
        as [(item & pending & r & j & Heq & Hnet & Hj & Ht & Hi)
           | [Heq | [(e & Heq) | Heq]]]; rewrite Heq.
      - destruct (IH (LP_yielding pending r params)
                    (log ++ [mkRequest next_url (Some params) "GET" None]))
          as (reqs & Hsnd & Hb).
        exists (mkRequest next_url (Some params) "GET" None :: reqs). split.
        + rewrite Hsnd, <- app_assoc. reflexivity.
        + cbn [List.length]. destruct Hb as [-> | [Hmay Hb]]; [cbn; lia |].
          cbn [may_fetch pending_items] in Hmay, Hb.
          pose proof (Hsize _ _ r j _ Hnet Hmay Hj Ht Hi) as Hp.
          cbn [List.length] in Hp. lia.
      - exists [mkRequest next_url (Some params) "GET" None]. split; [reflexivity |].
        cbn. lia.
      - exists [mkRequest next_url (Some params) "GET" None]. split; [reflexivity |].
        cbn. lia.
      - exists [mkRequest next_url (Some params) "GET" None]. split; [reflexivity |].
        cbn. lia. }
    destruct g as [url params | [| item pending] r params |]; cbn [lazy_paginate_next].
    + destruct (Hfetch url (default_params params)) as (reqs & Hsnd & Hb).
      exists reqs. split; [exact Hsnd |]. right. cbn [may_fetch pending_items].
      split; [exact I | lia].
    + destruct (links r !! "next") as [next_url |] eqn:Hnext.
      * destruct (Hfetch next_url params) as (reqs & Hsnd & Hb).
        exists reqs. split; [exact Hsnd |]. right. cbn [may_fetch pending_items].
        rewrite Hnext. split; [now eexists | cbn; lia].
      * exists []. unfold ret. rewrite app_nil_r. auto.
    + unfold ret. destruct (IH (LP_yielding pending r params) log) as (reqs & Hsnd & Hb).
      exists reqs. split; [exact Hsnd |].
      destruct Hb as [-> | [Hmay Hb]]; [now left | right].
      cbn [may_fetch pending_items List.length] in *. split; [exact Hmay | lia].
    + exists []. unfold ret. rewrite app_nil_r. auto.
Qed.

Lemma lazy_paginate_next_requests (net : Network) (g : LazyPaginate) (log : list Request) :
  exists reqs,
    snd (lazy_paginate_next (EvergreenApi net) g log) = log ++ reqs
    /\ (List.length reqs <= 1)%nat.
Proof.
  destruct g as [url params | [| item pending] r params |]; cbn [lazy_paginate_next].
  - rewrite lazy_paginate_fetch_eq. eexists. split; [reflexivity | cbn; lia].
  - destruct (links r !! "next") as [next_url |].
    + rewrite lazy_paginate_fetch_eq. eexists. split; [reflexivity | cbn; lia].
    + exists []. unfold ret. cbn. rewrite app_nil_r. split; [reflexivity | lia].
  - exists []. unfold ret. cbn. rewrite app_nil_r. split; [reflexivity | lia].
  - exists []. unfold ret. cbn. rewrite app_nil_r. split; [reflexivity | lia].
Qed.

Lemma lazy_paginate_next_buffer (net : Network) (g g' : LazyPaginate)
    (log log' : list Request) (item : JSON) :
  lazy_paginate_next (EvergreenApi net) g log = (Ok (Some item, g'), log') ->
  exists pending r params,
    g' = LP_yielding pending r params
    /\ ((S (pending_items g') = pending_items g /\ log' = log)
        \/ (exists j, json r = Some j /\ Py.iter j = Ok (item :: pending))).
Proof.
  assert (Hfetch : forall next_url params,
    lazy_paginate_fetch (EvergreenApi net) next_url params log = (Ok (Some item, g'), log') ->
    exists pending r params',
      g' = LP_yielding pending r params'
      /\ ((S (pending_items g') = pending_items g /\ log' = log)
          \/ (exists j, json r = Some j /\ Py.iter j = Ok (item :: pending)))).
  { intros next_url params Heq.
    destruct (lazy_paginate_fetch_cases net next_url params log)
      as [(item' & pending & r & j & Heq' & Hnet & Hj & Ht & Hi)
         | [Heq' | [(e & Heq') | Heq']]]; rewrite Heq' in Heq; try discriminate.
    inversion Heq; subst. exists pending, r, params. split; [reflexivity |].
    right. now exists j. }
  destruct g as [url params | [| item0 pending] r params |]; cbn [lazy_paginate_next].
  - apply Hfetch.
  - destruct (links r !! "next") as [next_url |]; [apply Hfetch | discriminate].
  - unfold ret. intros Heq. inversion Heq; subst.
    exists pending, r, params. split; [reflexivity |]. left. now cbn.
  - discriminate.
Qed.

(** C4.  [_lazy_paginate] is driven by its consumer.  Creating the sequence
    and asking it for no item issues no request; one [next] issues at most
    one request, and the state it leaves holds the rest of the page it was
    in, or the rest of the one page it has just fetched; and, when every
    page served with a "next" link holds at least [page_size] items, asking
    for the first [M >= 1] items issues at most [ceil(M / page_size)]
    requests. *)
Theorem lazy_paginate_pull_driven (net : Network) (page_size : nat) (url : string)
    (params : option (gmap string JSON)) (log : list Request) :
  (0 < page_size)%nat ->
  page_size_at_least net page_size ->
  @islice _ (lazy_paginate_generator (EvergreenApi net)) 0 (_lazy_paginate url params) log
  = (Ok ([], _lazy_paginate url params), log)
  /\ (forall g log0, exists reqs,
        snd (lazy_paginate_next (EvergreenApi net) g log0) = log0 ++ reqs
        /\ (List.length reqs <= 1)%nat)
  /\ (forall g g' log0 log' item,
        lazy_paginate_next (EvergreenApi net) g log0 = (Ok (Some item, g'), log') ->
        exists pending r params',
          g' = LP_yielding pending r params'
          /\ ((S (pending_items g') = pending_items g /\ log' = log0)
              \/ (exists j, json r = Some j /\ Py.iter j = Ok (item :: pending))))
  /\ (forall M : nat, (1 <= M)%nat ->
        exists reqs,
          snd (@islice _ (lazy_paginate_generator (EvergreenApi net)) M
                 (_lazy_paginate url params) log) = log ++ reqs
          /\ (List.length reqs <= (M + page_size - 1) / page_size)%nat).
Proof.
  intros Hpos Hsize. split; [reflexivity |].
  split; [intros g log0; apply lazy_paginate_next_requests |].
  split; [intros g g' log0 log' item; apply lazy_paginate_next_buffer |].
  intros M HM.
  destruct (islice_lazy_paginate_requests net page_size Hsize M
              (_lazy_paginate url params) log) as (reqs & Hsnd & Hb).
  exists reqs. split; [exact Hsnd |].
  apply Nat.div_le_lower_bound; [lia |].
  destruct Hb as [-> | [_ Hb]]; [cbn; lia |].
  cbn [pending_items _lazy_paginate] in Hb. lia.
Qed.

(** ** Pagination by date: [_lazy_paginate_by_date] *)

Lemma lazy_paginate_by_date_fetch_eq (net : Network) (url : string)
    (params : gmap string JSON) (log : list Request) :
  lazy_paginate_by_date_fetch (EvergreenApi net) url params log =
  (rbind (attempt_outcome net (mkRequest url (Some params) "GET" None)
            (List.length log)) (fun r =>
   rbind (response_json r) (fun data =>
   rbind (first_of_page data) (fun o =>
   match o with
   | Some (item, pending) => Ok (Some item, BD_yielding pending data url params)
   | None => Ok (None, BD_finished)
   end))),
   log ++ [mkRequest url (Some params) "GET" None]).
Proof.
  unfold lazy_paginate_by_date_fetch. cbn [_call_api EvergreenApi].
  unfold bind at 1. rewrite base_call_api_eq.
  destruct (attempt_outcome _ _ _) as [r | e |]; cbn [rbind]; try reflexivity.
  unfold bind at 1. unfold lift at 1.
  destruct (response_json r) as [j | e |]; cbn [rbind]; try reflexivity.
  unfold first_of_page. destruct (Py.truthy j); cbn [negb rbind]; [| reflexivity].
  unfold bind, lift. destruct (Py.iter j) as [[| item pending] | e |]; reflexivity.
Qed.

Lemma last_item_snoc (init : list JSON) (last : JSON) :
  Py.last_item (JArr (init ++ [last])) = Ok last.
Proof.
  unfold Py.last_item. rewrite map_app. cbn [map].
  now rewrite last_last.
Qed.

Lemma advance_start_at_eq (evergreen_input_to_output : JSON -> Result JSON)
    (init : list JSON) (last create_time start_at : JSON) (params : gmap string JSON) :
  Py.getitem last "create_time" = Ok create_time ->
  evergreen_input_to_output create_time = Ok start_at ->
  advance_start_at evergreen_input_to_output (JArr (init ++ [last])) params
  = Ok (<["start_at" := start_at]> params).
Proof.
  intros Hct Hs. unfold advance_start_at. rewrite last_item_snoc. cbn [rbind].
  rewrite Hct. cbn [rbind]. now rewrite Hs.
Qed.

(** Fetching a page of the plain client: a non-empty array gives its first
    item, an empty array ends the iteration; one request either way. *)
Lemma lazy_paginate_by_date_fetch_page (net : Network) (url : string)
    (params : gmap string JSON) (log : list Request) (r : Response) (page : list JSON) :
  net (List.length log) (mkRequest url (Some params) "GET" None) = Ok r ->
  status_code r < 400 ->
  json r = Some (JArr page) ->
  lazy_paginate_by_date_fetch (EvergreenApi net) url params log =
  (Ok match page with
      | [] => (None, BD_finished)
      | item :: pending => (Some item, BD_yielding pending (JArr page) url params)
      end,
   log ++ [mkRequest url (Some params) "GET" None]).
Proof.
  intros Hnet Hs Hj. rewrite lazy_paginate_by_date_fetch_eq.
  rewrite (attempt_outcome_below_400 net _ _ r Hnet Hs). cbn [rbind].
  unfold response_json. rewrite Hj. cbn [rbind].
  destruct page as [| item pending]; reflexivity.
Qed.

Lemma drain_by_date_pending (evergreen_input_to_output : JSON -> Result JSON)
    (net : Network) (url : string) (params params' : gmap string JSON) (data : JSON)
    (r2 : Response) :
  advance_start_at evergreen_input_to_output data params = Ok params' ->
  status_code r2 < 400 ->
  json r2 = Some (JArr []) ->
  forall (pending : list JSON) (log : list Request) (fuel : nat),
    net (List.length log) (mkRequest url (Some params') "GET" None) = Ok r2 ->
    (List.length pending < fuel)%nat ->
    @drain _ (lazy_paginate_by_date_generator evergreen_input_to_output (EvergreenApi net))
      fuel (BD_yielding pending data url params) log
    = (Ok (pending, BD_finished), log ++ [mkRequest url (Some params') "GET" None]).
Proof.
  intros Hadv Hs Hj. induction pending as [| item pending IH]; intros log fuel Hnet Hfuel.
  - destruct fuel as [| fuel]; [cbn in Hfuel; lia |].
    cbn [drain]. unfold next, lazy_paginate_by_date_generator.
    cbn [lazy_paginate_by_date_next]. unfold bind at 1. unfold bind at 1.
    unfold lift at 1. rewrite Hadv.
    rewrite (lazy_paginate_by_date_fetch_page net url params' log r2 [] Hnet Hs Hj).
    reflexivity.
  - destruct fuel as [| fuel]; [cbn in Hfuel; lia |].
    cbn [drain]. unfold next at 1, lazy_paginate_by_date_generator at 1.
    cbn [lazy_paginate_by_date_next]. unfold bind at 1. unfold ret at 1. cbn [fst snd].
    unfold bind at 1. rewrite (IH log fuel Hnet); [reflexivity |].
    cbn [List.length] in Hfuel. lia.
Qed.

Lemma advance_start_at_cursor (evergreen_input_to_output : JSON -> Result JSON)
    (page : list JSON) (params : gmap string JSON) :
  advance_start_at evergreen_input_to_output (JArr page) params
  = rbind (cursor_after evergreen_input_to_output page) (fun start_at =>
    Ok (<["start_at" := start_at]> params)).
Proof.
  unfold advance_start_at, cursor_after.
  destruct (Py.last_item (JArr page)) as [last | e |]; cbn [rbind]; try reflexivity.
  destruct (Py.getitem last "create_time") as [create_time | e |]; reflexivity.
Qed.

Lemma cursor_after_nonempty (evergreen_input_to_output : JSON -> Result JSON)
    (page : list JSON) (start_at : JSON) :
  cursor_after evergreen_input_to_output page = Ok start_at -> page <> [].
Proof. intros Hc ->. discriminate. Qed.

(** From inside a page on: the items of the page still to be yielded, then
    the pages served from the cursor of the page on, one request each, and
    the end at the empty page. *)
Lemma drain_served_by_date (evergreen_input_to_output : JSON -> Result JSON)
    (net : Network) (url : string) (n : nat) (params : gmap string JSON)
    (pages : list (list JSON)) (cursors : list JSON) :
  served_by_date evergreen_input_to_output net url n params pages cursors ->
  forall (pending : list JSON) (data : JSON) (previous : gmap string JSON)
         (log : list Request) (fuel : nat),
    n = List.length log ->
    advance_start_at evergreen_input_to_output data previous = Ok params ->
    (List.length pending + List.length (concat pages) < fuel)%nat ->
    @drain _ (lazy_paginate_by_date_generator evergreen_input_to_output (EvergreenApi net))
      fuel (BD_yielding pending data url previous) log
    = (Ok (pending ++ concat pages, BD_finished),
       log ++ by_date_requests url params cursors).
Proof.
  induction 1 as [n params r Hnet Hs Hj
                 | n params r page start_at pages cursors Hnet Hs Hj Hc Hserved IH];
    intros pending data previous log fuel Hn Hadv Hfuel.
  - subst n. cbn [concat by_date_requests]. rewrite app_nil_r.
    apply (drain_by_date_pending evergreen_input_to_output net url previous params data r);
      auto.
    cbn [concat List.length] in Hfuel. lia.
  - revert log fuel Hn Hfuel.
    induction pending as [| item pending IHp]; intros log fuel Hn Hfuel.
    + destruct fuel as [| fuel]; [lia |].
      cbn [drain]. unfold next at 1, lazy_paginate_by_date_generator at 1.
      cbn [lazy_paginate_by_date_next]. unfold bind at 1. unfold bind at 1.
      unfold lift at 1. rewrite Hadv. rewrite Hn in Hnet.
      rewrite (lazy_paginate_by_date_fetch_page net url params log r page Hnet Hs Hj).
      destruct page as [| first rest];
        [now destruct (cursor_after_nonempty _ _ _ Hc) |].
      cbn [fst snd]. unfold bind at 1.
      rewrite (IH rest (JArr (first :: rest)) params
                 (log ++ [mkRequest url (Some params) "GET" None]) fuel).
      * unfold ret. cbn [concat by_date_requests app]. rewrite <- app_assoc. reflexivity.
      * rewrite length_app. cbn [List.length]. lia.
      * now rewrite advance_start_at_cursor, Hc.
      * cbn [concat] in Hfuel. rewrite length_app in Hfuel. cbn [List.length] in Hfuel. lia.
    + destruct fuel as [| fuel]; [lia |].
      cbn [drain]. unfold next at 1, lazy_paginate_by_date_generator at 1.
      cbn [lazy_paginate_by_date_next]. unfold bind at 1. unfold ret at 1. cbn [fst snd].
      unfold bind at 1. rewrite (IHp log fuel Hn); [reflexivity |].
      cbn [List.length] in Hfuel. lia.
Qed.

Lemma served_by_date_cursors (evergreen_input_to_output : JSON -> Result JSON)
    (net : Network) (url : string) (n : nat) (params : gmap string JSON)
    (pages : list (list JSON)) (cursors : list JSON) :
  served_by_date evergreen_input_to_output net url n params pages cursors ->
  Forall2 (fun page start_at =>
             page <> [] /\ cursor_after evergreen_input_to_output page = Ok start_at)
    pages cursors.
Proof.
  induction 1 as [| n params r page start_at pages cursors Hnet Hs Hj Hc Hserved IH];
    constructor; [| exact IH].
  split; [exact (cursor_after_nonempty _ _ _ Hc) | exact Hc].
Qed.

Lemma by_date_requests_length (url : string) (params : gmap string JSON)
    (cursors : list JSON) :
  List.length (by_date_requests url params cursors) = S (List.length cursors).
Proof.
  revert params. induction cursors as [| start_at cursors IH]; intros params; cbn;
    [reflexivity | now rewrite IH].
Qed.

Lemma by_date_requests_start_at (url : string) (cursors : list JSON) :
  forall (params : gmap string JSON) (i : nat) (start_at : JSON),
    cursors !! i = Some start_at ->
    exists previous,
      by_date_requests url params cursors !! S i
      = Some (mkRequest url (Some (<["start_at" := start_at]> previous)) "GET" None).
Proof.
  induction cursors as [| s cursors IH]; intros params i start_at Hi; [discriminate |].
  destruct i as [| i].
  - injection Hi as ->. exists params. now destruct cursors.
  - exact (IH (<["start_at" := s]> params) i start_at Hi).
Qed.

(** C5.  On the plain client, for [_lazy_paginate_by_date] over an endpoint
    that serves the non-empty pages [pages] and then an empty page:
    - the sequence is the items of all the pages, in order, and it ends with
      the empty page: one request per page and one for the empty page, none
      after it, whatever the server would answer then;
    - the first request carries the parameters of the call, and the request
      after each page the parameters of the request before it with
      ["start_at"] set to the cursor of the page,
      [evergreen_input_to_output(last["create_time"])] for its last item
      [last];
    - so when the first page [P1] is followed by an empty page, the sequence
      is the items of [P1] and exactly two requests are issued;
    - in whatever state the page [data] that ends with the item [last] has
      been consumed, the one request of the following [next] carries
      ["start_at"] set to that cursor; and once the iteration has ended,
      [next] issues no request. *)
Theorem lazy_paginate_by_date_cursor (evergreen_input_to_output : JSON -> Result JSON)
    (net : Network) (url : string) (params0 : option (gmap string JSON))
    (log : list Request) (pages : list (list JSON)) (cursors : list JSON) (fuel : nat) :
  served_by_date evergreen_input_to_output net url (List.length log)
    (default_params params0) pages cursors ->
  (List.length (concat pages) < fuel)%nat ->
  @drain _ (lazy_paginate_by_date_generator evergreen_input_to_output (EvergreenApi net))
    fuel (_lazy_paginate_by_date url params0) log
  = (Ok (concat pages, BD_finished),
     log ++ by_date_requests url (default_params params0) cursors)
  /\ List.length (by_date_requests url (default_params params0) cursors)
     = S (List.length pages)
  /\ Forall2 (fun page start_at =>
                page <> [] /\ cursor_after evergreen_input_to_output page = Ok start_at)
       pages cursors
  /\ (forall (i : nat) (start_at : JSON),
        cursors !! i = Some start_at ->
        exists previous,
          by_date_requests url (default_params params0) cursors !! S i
          = Some (mkRequest url (Some (<["start_at" := start_at]> previous)) "GET" None))
  /\ (forall P1, pages = [P1] ->
        exists start_at,
          cursor_after evergreen_input_to_output P1 = Ok start_at
          /\ @drain _ (lazy_paginate_by_date_generator evergreen_input_to_output
                         (EvergreenApi net))
               fuel (_lazy_paginate_by_date url params0) log
             = (Ok (P1, BD_finished),
                log ++ [mkRequest url (Some (default_params params0)) "GET" None;
                        mkRequest url
                          (Some (<["start_at" := start_at]> (default_params params0)))
                          "GET" None]))
  /\ (forall (params : gmap string JSON) (log0 : list Request) (init' : list JSON)
             (last' create_time' start_at' : JSON),
        Py.getitem last' "create_time" = Ok create_time' ->
        evergreen_input_to_output create_time' = Ok start_at' ->
        snd (lazy_paginate_by_date_next evergreen_input_to_output (EvergreenApi net)
               (BD_yielding [] (JArr (init' ++ [last'])) url params) log0)
        = log0 ++ [mkRequest url (Some (<["start_at" := start_at']> params)) "GET" None])
  /\ (forall log0,
        lazy_paginate_by_date_next evergreen_input_to_output (EvergreenApi net)
          BD_finished log0 = (Ok (None, BD_finished), log0)).
Proof.
  intros Hserved Hfuel.
  assert (Hdrain :
    @drain _ (lazy_paginate_by_date_generator evergreen_input_to_output (EvergreenApi net))
      fuel (_lazy_paginate_by_date url params0) log
    = (Ok (concat pages, BD_finished),
       log ++ by_date_requests url (default_params params0) cursors)).
  { destruct fuel as [| fuel]; [lia |].
    unfold _lazy_paginate_by_date. cbn [drain].
    unfold next at 1, lazy_paginate_by_date_generator at 1.
    cbn [lazy_paginate_by_date_next]. unfold bind at 1.
    inversion Hserved as [n params r Hnet Hs Hj
                         | n params r page start_at pages' cursors' Hnet Hs Hj Hc Hrest];
      subst.
    - rewrite (lazy_paginate_by_date_fetch_page net url _ log r [] Hnet Hs Hj).
      reflexivity.
    - rewrite (lazy_paginate_by_date_fetch_page net url _ log r page Hnet Hs Hj).
      destruct page as [| first rest];
        [now destruct (cursor_after_nonempty _ _ _ Hc) |].
      cbn [fst snd]. unfold bind at 1.
      rewrite (drain_served_by_date evergreen_input_to_output net url _ _ _ _ Hrest rest
                 (JArr (first :: rest)) (default_params params0)
                 (log ++ [mkRequest url (Some (default_params params0)) "GET" None]) fuel).
      + unfold ret. cbn [concat by_date_requests app]. rewrite <- app_assoc. reflexivity.
      + rewrite length_app. cbn [List.length]. lia.
      + now rewrite advance_start_at_cursor, Hc.
      + cbn [concat] in Hfuel. rewrite length_app in Hfuel. cbn [List.length] in Hfuel.
        lia. }
  pose proof (served_by_date_cursors _ _ _ _ _ _ _ Hserved) as Hcursors.
  split; [exact Hdrain |]. split; [| split; [exact Hcursors |]].
  - rewrite by_date_requests_length. f_equal. symmetry. exact (Forall2_length _ _ _ Hcursors).
  - split; [apply by_date_requests_start_at |]. split; [| split].
    + intros P1 ->. inversion Hcursors as [| P1' start_at ps cs [_ Hc] Hnil]; subst.
      inversion Hnil; subst. exists start_at. split; [exact Hc |].
      rewrite Hdrain. cbn [concat by_date_requests]. now rewrite app_nil_r.
    + intros params log0 init' last' ct' s' Hct' Hs'.
      cbn [lazy_paginate_by_date_next]. unfold bind, lift.
      rewrite (advance_start_at_eq _ init' last' ct' s' params Hct' Hs').
      now rewrite lazy_paginate_by_date_fetch_eq.
    + reflexivity.
Qed.

Lemma by_date_next_same_page (evergreen_input_to_output : JSON -> Result JSON)
    (net : Network) (url : string) (r : Response) (init : list JSON)
    (last create_time start_at : JSON) :
  (forall n params, net n (mkRequest url (Some params) "GET" None) = Ok r) ->
  status_code r < 400 ->
  json r = Some (JArr (init ++ [last])) ->
  Py.getitem last "create_time" = Ok create_time ->
  evergreen_input_to_output create_time = Ok start_at ->
  forall g log, in_page url (init ++ [last]) g ->
  exists item g' log',
    lazy_paginate_by_date_next evergreen_input_to_output (EvergreenApi net) g log
    = (Ok (Some item, g'), log')
    /\ in_page url (init ++ [last]) g'.
Proof.
  intros Hnet Hs Hj Hct Hstart g log Hin.
  assert (Hfetch : forall params,
    exists item g' log',
      lazy_paginate_by_date_fetch (EvergreenApi net) url params log
      = (Ok (Some item, g'), log') /\ in_page url (init ++ [last]) g').
  { intros params.
    rewrite (lazy_paginate_by_date_fetch_page net url params log r _ (Hnet _ _) Hs Hj).
    destruct (init ++ [last]) as [| item pending] eqn:Hpage; [now destruct init |].
    do 3 eexists. split; [reflexivity | now cbn]. }
  destruct g as [url' params | [| item pending] data url' params |];
    cbn [in_page] in Hin; cbn [lazy_paginate_by_date_next].
  - subst url'. apply Hfetch.
  - destruct Hin as [-> ->]. unfold bind, lift.
    rewrite (advance_start_at_eq _ init last create_time start_at params Hct Hstart).
    apply Hfetch.
  - destruct Hin as [-> ->].
    exists item, (BD_yielding pending (JArr (init ++ [last])) url params), log.
    split; [reflexivity | now cbn].
  - contradiction.
Qed.

(** C6 (as the code has it).  The cursor follows the pages and nothing else.
    For two successive non-empty pages, the request after the first carries
    as ["start_at"] the normalised creation time [s1] of the last item of the
    first, and the request after the second the normalised creation time
    [s2] of the last item of the second: the later cursor is strictly later
    in time than the earlier one when, and only when, [s2] is strictly later
    than [s1].  Nothing in the client checks it: when the server answers
    every request with the same non-empty page, the iteration never ends,
    whatever the fuel. *)
Theorem lazy_paginate_by_date_progress (evergreen_input_to_output : JSON -> Result JSON)
    (time_of : JSON -> Z) (net : Network) (url : string) (params : gmap string JSON)
    (init1 init2 : list JSON) (last1 last2 ct1 ct2 s1 s2 : JSON) :
  Py.getitem last1 "create_time" = Ok ct1 ->
  evergreen_input_to_output ct1 = Ok s1 ->
  Py.getitem last2 "create_time" = Ok ct2 ->
  evergreen_input_to_output ct2 = Ok s2 ->
  (forall log1 log2,
      exists p1 p2,
        snd (lazy_paginate_by_date_next evergreen_input_to_output (EvergreenApi net)
               (BD_yielding [] (JArr (init1 ++ [last1])) url params) log1)
        = log1 ++ [mkRequest url (Some p1) "GET" None]
        /\ snd (lazy_paginate_by_date_next evergreen_input_to_output (EvergreenApi net)
                  (BD_yielding [] (JArr (init2 ++ [last2])) url p1) log2)
           = log2 ++ [mkRequest url (Some p2) "GET" None]
        /\ p1 !! "start_at" = Some s1
        /\ p2 !! "start_at" = Some s2
        /\ (time_of s1 < time_of s2 <->
            exists a b, p1 !! "start_at" = Some a /\ p2 !! "start_at" = Some b
                        /\ time_of a < time_of b))
  /\ (forall r log fuel params0,
        (forall n ps, net n (mkRequest url (Some ps) "GET" None) = Ok r) ->
        status_code r < 400 ->
        json r = Some (JArr (init1 ++ [last1])) ->
        fst (@drain _ (lazy_paginate_by_date_generator evergreen_input_to_output
                         (EvergreenApi net))
               fuel (_lazy_paginate_by_date url params0) log) = OutOfFuel).
Proof.
  intros Hct1 Hs1 Hct2 Hs2. split.
  - intros log1 log2.
    exists (<["start_at" := s1]> params), (<["start_at" := s2]> (<["start_at" := s1]> params)).
    cbn [lazy_paginate_by_date_next]. unfold bind, lift.
    rewrite (advance_start_at_eq _ init1 last1 ct1 s1 params Hct1 Hs1).
    rewrite (advance_start_at_eq _ init2 last2 ct2 s2 _ Hct2 Hs2).
    rewrite !lazy_paginate_by_date_fetch_eq. cbn [snd].
    rewrite !lookup_insert_eq.
    split; [reflexivity |]. split; [reflexivity |].
    split; [reflexivity |]. split; [reflexivity |]. split.
    + intros Hlt. now exists s1, s2.
    + intros (a & b & Ha & Hb & Hlt). congruence.
  - intros r log fuel params0 Hnet Hs Hj.
    assert (Hloop : forall fuel' g log',
              in_page url (init1 ++ [last1]) g ->
              fst (@drain _ (lazy_paginate_by_date_generator evergreen_input_to_output
                               (EvergreenApi net)) fuel' g log') = OutOfFuel).
    { induction fuel' as [| fuel' IH]; intros g log' Hin; [reflexivity |].
      cbn [drain]. unfold next at 1, lazy_paginate_by_date_generator at 1.
      destruct (by_date_next_same_page evergreen_input_to_output net url r init1 last1
                  ct1 s1 Hnet Hs Hj Hct1 Hs1 g log' Hin)
        as (item & g' & log'' & Heq & Hin').
      unfold bind at 1. rewrite Heq. cbn [fst snd]. unfold bind at 1.
      specialize (IH g' log'' Hin').
      destruct (drain fuel' g' log'') as [[res | e |] log3]; cbn in IH;
        try discriminate. reflexivity. }
    apply Hloop. now cbn.
Qed.

(** ** The cached variant *)

Module LruCacheFacts.
Import LruCache.

Lemma lookup_touch {V} (key : string) (v : V) (c : t V) :
  lookup key (touch key v c) = Some v.
Proof. unfold touch. cbn. now rewrite String.eqb_refl. Qed.

Lemma lookup_store {V} (maxsize : Z) (key : string) (v : V) (c : t V) :
  lookup key (store maxsize key v c) = Some v.
Proof. unfold store. destruct (maxsize <=? _); cbn; now rewrite String.eqb_refl. Qed.

Lemma length_drop {V} (key : string) (c : t V) :
  (List.length (drop key c) <= List.length c)%nat.
Proof.
  unfold drop. induction c as [| [k v] c IH]; cbn; [lia |].
  destruct (negb (String.eqb k key)); cbn; lia.
Qed.

Lemma length_drop_found {V} (key : string) (v : V) (c : t V) :
  lookup key c = Some v -> (List.length (drop key c) < List.length c)%nat.
Proof.
  unfold drop. induction c as [| [k w] c IH]; cbn; [discriminate |].
  destruct (String.eqb k key); cbn.
  - intros _. pose proof (length_drop key c). unfold drop in *. lia.
  - intros H. specialize (IH H). lia.
Qed.

Lemma length_removelast {V} (c : t V) :
  List.length (removelast c) = pred (List.length c).
Proof.
  induction c as [| kv c IH]; [reflexivity |].
  destruct c as [| kv' c]; [reflexivity |].
  cbn [removelast List.length] in *. now rewrite IH.
Qed.

Lemma length_touch {V} (key : string) (v : V) (c : t V) :
  lookup key c = Some v -> (List.length (touch key v c) <= List.length c)%nat.
Proof. intros H. unfold touch. cbn. pose proof (length_drop_found key v c H). lia. Qed.

Lemma length_store {V} (maxsize : Z) (key : string) (v : V) (c : t V) :
  1 <= maxsize -> Z.of_nat (List.length c) <= maxsize ->
  Z.of_nat (List.length (store maxsize key v c)) <= maxsize.
Proof.
  intros Hmax Hlen. unfold store.
  destruct (maxsize <=? Z.of_nat (List.length c)) eqn:E.
  - apply Z.leb_le in E. cbn [List.length]. rewrite length_removelast.
    destruct c; cbn in *; lia.
  - apply Z.leb_gt in E. cbn [List.length]. lia.
Qed.

(** A miss on a full table drops the entry used least recently, the last
    one, and no other. *)
Lemma store_full {V} (maxsize : Z) (key : string) (v : V) (c : t V) (oldest : string * V) :
  maxsize <= Z.of_nat (List.length (c ++ [oldest])) ->
  store maxsize key v (c ++ [oldest]) = (key, v) :: c.
Proof.
  intros Hfull. unfold store. apply Z.leb_le in Hfull. rewrite Hfull.
  now rewrite removelast_last.
Qed.

Lemma store_not_full {V} (maxsize : Z) (key : string) (v : V) (c : t V) :
  Z.of_nat (List.length c) < maxsize ->
  store maxsize key v c = (key, v) :: c.
Proof. intros H. unfold store. apply Z.leb_gt in H. now rewrite H. Qed.
End LruCacheFacts.

Section CachedFacts.

Context {Build Version Project : Type}.
Variable new_Build : JSON -> Result Build.
Variable new_Version : JSON -> Result Version.
Variable new_Project : JSON -> Result Project.
Variable api_server : string.
Variable net : Network.

Lemma build_by_id_requests (id : string) (log : list Request) :
  snd (build_by_id new_Build api_server (EvergreenApi net) id log)
  = log ++ [lookup_request api_server "/builds/" id].
Proof.
  unfold build_by_id. cbn [_call_api EvergreenApi]. unfold bind at 1.
  rewrite base_call_api_eq.
  destruct (attempt_outcome _ _ _) as [r | e |]; try reflexivity.
  unfold bind, lift. destruct (response_json r) as [j | e |]; reflexivity.
Qed.

Lemma version_by_id_requests (id : string) (log : list Request) :
  snd (version_by_id new_Version api_server (EvergreenApi net) id log)
  = log ++ [lookup_request api_server "/versions/" id].
Proof.
  unfold version_by_id. cbn [_call_api EvergreenApi]. unfold bind at 1.
  rewrite base_call_api_eq.
  destruct (attempt_outcome _ _ _) as [r | e |]; try reflexivity.
  unfold bind, lift. destruct (response_json r) as [j | e |]; reflexivity.
Qed.

Lemma project_by_id_requests (id : string) (log : list Request) :
  snd (project_by_id new_Project api_server (EvergreenApi net) id log)
  = log ++ [lookup_request api_server "/projects/" id].
Proof.
  unfold project_by_id. cbn [_call_api EvergreenApi]. unfold bind at 1.
  rewrite base_call_api_eq.
  destruct (attempt_outcome _ _ _) as [r | e |]; try reflexivity.
  unfold bind, lift. destruct (response_json r) as [j | e |]; reflexivity.
Qed.

(** What [lru_cache] makes of a lookup [f] that issues [req key] at every
    call: a call that returns [v] leaves [v] under [key]; the same call
    again returns [v] and issues nothing; on an empty table the call issues
    the request; the table never outgrows [maxsize]. *)
Lemma lru_call_memoizes {V} (maxsize : Z) (f : string -> Api V) (req : string -> Request)
    (key : string) (c c1 : LruCache.t V) (log log1 : list Request) (v : V) :
  (forall k l, snd (f k l) = l ++ [req k]) ->
  LruCache.call maxsize f key c log = (Ok v, c1, log1) ->
  LruCache.lookup key c1 = Some v
  /\ LruCache.call maxsize f key c1 log1 = (Ok v, LruCache.touch key v c1, log1)
  /\ (LruCache.lookup key c = None -> log1 = log ++ [req key])
  /\ (LruCache.lookup key c = Some v -> log1 = log).
Proof.
  intros Hreq Hcall. unfold LruCache.call in Hcall.
  destruct (LruCache.lookup key c) as [v0 |] eqn:Hl.
  - inversion Hcall; subst. split; [| split; [| split]].
    + apply LruCacheFacts.lookup_touch.
    + unfold LruCache.call. now rewrite LruCacheFacts.lookup_touch.
    + discriminate.
    + reflexivity.
  - pose proof (Hreq key log) as Hsnd.
    destruct (f key log) as [[v0 | e |] log'] eqn:Hf; inversion Hcall; subst.
    cbn [snd] in Hsnd. split; [| split; [| split]].
    + apply LruCacheFacts.lookup_store.
    + unfold LruCache.call. now rewrite LruCacheFacts.lookup_store.
    + intros _. exact Hsnd.
    + discriminate.
Qed.

Lemma lru_call_miss_requests {V} (maxsize : Z) (f : string -> Api V)
    (req : string -> Request) (key : string) (c : LruCache.t V) (log : list Request) :
  (forall k l, snd (f k l) = l ++ [req k]) ->
  LruCache.lookup key c = None ->
  snd (LruCache.call maxsize f key c log) = log ++ [req key].
Proof.
  intros Hreq Hl. unfold LruCache.call. rewrite Hl. pose proof (Hreq key log) as Hsnd.
  now destruct (f key log) as [[v | e |] log'].
Qed.

Lemma lru_call_bounded {V} (maxsize : Z) (f : string -> Api V) (key : string)
    (c : LruCache.t V) (log : list Request) :
  1 <= maxsize ->
  Z.of_nat (List.length c) <= maxsize ->
  Z.of_nat (List.length (snd (fst (LruCache.call maxsize f key c log)))) <= maxsize.
Proof.
  intros Hmax Hlen. unfold LruCache.call.
  destruct (LruCache.lookup key c) as [v |] eqn:Hl.
  - cbn [fst snd]. pose proof (LruCacheFacts.length_touch key v c Hl). lia.
  - destruct (f key log) as [[v | e |] log']; cbn [fst snd]; try lia.
    now apply LruCacheFacts.length_store.
Qed.

End CachedFacts.

Section CachedTheorem.

Context {Build Version Project : Type}.
Variable new_Build : JSON -> Result Build.
Variable new_Version : JSON -> Result Version.
Variable new_Project : JSON -> Result Project.
Variable api_server : string.
Variable net : Network.


End CachedTheorem.

(** ** The time-window filter *)

Section TimeWindowFacts.

Variable time_attr : JSON -> Z.
Variables before after : Z.

Lemma window_step_shorter (items rest : list JSON) (item : JSON) (b : bool) :
  window_step time_attr before after items = (Some item, rest, b) ->
  (List.length rest < List.length items)%nat /\ b = false
  /\ window_run time_attr before after items
     = (item :: fst (window_run time_attr before after rest),
        snd (window_run time_attr before after rest)).
Proof.
  induction items as [| x items IH]; cbn; [discriminate |].
  destruct (time_attr x <? after); [discriminate |].
  destruct (before <=? time_attr x).
  - intros H. destruct (IH H) as (Hlen & Hb & Hrun). repeat split; [lia | | ]; auto.
  - intros H. inversion H; subst. repeat split; lia.
Qed.

Lemma window_step_end (items rest : list JSON) (b : bool) :
  window_step time_attr before after items = (None, rest, b) ->
  b = true /\ window_run time_attr before after items = ([], rest).
Proof.
  induction items as [| x items IH]; cbn.
  - intros H. now inversion H.
  - destruct (time_attr x <? after); [intros H; now inversion H |].
    destruct (before <=? time_attr x); [exact IH | discriminate].
Qed.

Lemma iterate_by_time_window_next_list (fuel : nat) (items : list JSON)
    (log : list Request) :
  (List.length items < fuel)%nat ->
  iterate_by_time_window_next time_attr fuel before after (mkTimeWindow items false) log
  = (Ok (fst (fst (window_step time_attr before after items)),
         mkTimeWindow (snd (fst (window_step time_attr before after items)))
           (snd (window_step time_attr before after items))),
     log).
Proof.
  revert items. induction fuel as [| fuel IH]; intros items Hlen; [lia |].
  cbn [iterate_by_time_window_next stopped upstream].
  unfold next at 1, list_iterator at 1.
  destruct items as [| item rest]; [reflexivity |].
  unfold bind at 1, ret at 1. cbn [fst snd window_step].
  destruct (time_attr item <? after); [reflexivity |].
  destruct (before <=? time_attr item); [| reflexivity].
  apply IH. cbn [List.length] in Hlen. lia.
Qed.

Lemma iterate_by_time_window_next_stopped {G} `{Generator G} (fuel : nat) (g : G)
    (log : list Request) :
  iterate_by_time_window_next time_attr fuel before after (mkTimeWindow g true) log
  = (Ok (None, mkTimeWindow g true), log).
Proof. now destruct fuel. Qed.

Lemma drain_time_window_list (inner : nat) (log : list Request) :
  forall (n : nat) (items : list JSON) (fuel : nat),
    (List.length items <= n)%nat ->
    (List.length items < inner)%nat ->
    (n < fuel)%nat ->
    @drain _ (time_window_generator time_attr inner before after) fuel
      (mkTimeWindow items false) log
    = (Ok (fst (window_run time_attr before after items),
           mkTimeWindow (snd (window_run time_attr before after items)) true),
       log).
Proof.
  induction n as [| n IH]; intros items fuel Hn Hinner Hfuel;
    (destruct fuel as [| fuel]; [lia |]);
    cbn [drain]; unfold next at 1, time_window_generator at 1; unfold bind at 1;
    rewrite (iterate_by_time_window_next_list inner items log Hinner);
    destruct (window_step time_attr before after items) as [[[item |] rest] b] eqn:Hstep;
    cbn [fst snd].
  - apply window_step_shorter in Hstep. lia.
  - apply window_step_end in Hstep as [-> ->]. reflexivity.
  - apply window_step_shorter in Hstep as (Hlen & -> & ->).
    unfold bind at 1. rewrite (IH rest fuel); [reflexivity | lia | lia | lia].
  - apply window_step_end in Hstep as [-> ->]. reflexivity.
Qed.

Lemma window_run_descending (items : list JSON) :
  descending time_attr items ->
  fst (window_run time_attr before after items)
  = List.filter (in_window time_attr before after) items.
Proof.
  unfold descending. induction items as [| item rest IH]; intros Hd; [reflexivity |].
  apply StronglySorted_inv in Hd as [Hrest Hall]. cbn [window_run List.filter].
  unfold in_window at 1.
  destruct (time_attr item <? after) eqn:Hlow.
  - apply Z.ltb_lt in Hlow.
    assert ((after <=? time_attr item) = false) as -> by (apply Z.leb_gt; lia).
    cbn [andb fst]. symmetry. clear IH Hrest.
    induction Hall as [| y rest Hy Hall IHall]; [reflexivity |].
    cbn [List.filter]. unfold in_window at 1.
    assert ((after <=? time_attr y) = false) as -> by (apply Z.leb_gt; lia).
    exact IHall.
  - apply Z.ltb_ge in Hlow.
    assert ((after <=? time_attr item) = true) as -> by (apply Z.leb_le; lia).
    cbn [andb]. destruct (before <=? time_attr item) eqn:Hhigh.
    + apply Z.leb_le in Hhigh.
      assert ((time_attr item <? before) = false) as -> by (apply Z.ltb_ge; lia).
      now apply IH.
    + apply Z.leb_gt in Hhigh.
      assert ((time_attr item <? before) = true) as -> by (apply Z.ltb_lt; lia).
      cbn [fst]. now rewrite IH.
Qed.

Lemma window_run_unconsumed (pre post : list JSON) (item : JSON) :
  Forall (fun y => after <= time_attr y) pre ->
  time_attr item < after ->
  snd (window_run time_attr before after (pre ++ item :: post)) = post.
Proof.
  intros Hpre Hitem. induction Hpre as [| y pre Hy Hpre IH]; cbn [app window_run].
  - assert ((time_attr item <? after) = true) as -> by (apply Z.ltb_lt; lia).
    reflexivity.
  - assert ((time_attr y <? after) = false) as -> by (apply Z.ltb_ge; lia).
    destruct (before <=? time_attr y); [exact IH | exact IH].
Qed.

End TimeWindowFacts.

(** C8.  Over a sequence whose items arrive from the latest to the earliest,
    the time-window filter yields exactly the items whose time [t] satisfies
    [after <= t < before], in their order; it asks the sequence for no item
    after the first one strictly before [after]; and once it has stopped it
    asks whatever sequence it filters for nothing more, so that no further
    page is fetched. *)
Theorem time_window_filter (time_attr : JSON -> Z) (before after : Z)
    (items : list JSON) (inner fuel : nat) (log : list Request) :
  descending time_attr items ->
  (List.length items < inner)%nat ->
  (List.length items < fuel)%nat ->
  (exists unconsumed,
      @drain _ (time_window_generator time_attr inner before after) fuel
        (iterate_by_time_window items) log
      = (Ok (List.filter (in_window time_attr before after) items,
             mkTimeWindow unconsumed true),
         log)
      /\ (forall pre item post,
            items = pre ++ item :: post ->
            Forall (fun y => after <= time_attr y) pre ->
            time_attr item < after ->
            unconsumed = post))
  /\ (forall (G : Type) (H : Generator G) (n : nat) (g : G) (log0 : list Request),
        iterate_by_time_window_next time_attr n before after (mkTimeWindow g true) log0
        = (Ok (None, mkTimeWindow g true), log0)).
Proof.
  intros Hdesc Hinner Hfuel. split.
  - exists (snd (window_run time_attr before after items)). split.
    + unfold iterate_by_time_window.
      rewrite (drain_time_window_list time_attr before after inner log
                 (List.length items) items fuel); [| lia | lia | lia].
      now rewrite window_run_descending.
    + intros pre item post -> Hpre Hitem. now apply window_run_unconsumed.
  - intros G H n g log0. apply iterate_by_time_window_next_stopped.
Qed.

(** ** The requests of the pagination strategies *)

Lemma base_issues_own_request (net : Network) : issues_own_request (EvergreenApi net).
Proof.
  intros url ps method data log. exists 1%nat. cbn [_call_api EvergreenApi].
  now rewrite base_call_api_eq.
Qed.

Lemma retrying_issues_own_request (net : Network) :
  issues_own_request (RetryingEvergreenApi net).
Proof.
  intros url ps method data log. cbn [_call_api RetryingEvergreenApi].
  rewrite retrying_call_api_eq.
  destruct (negb _); [now exists 1%nat |].
  destruct (negb _); [now exists 2%nat | now exists 3%nat].
Qed.

Lemma Forall_repeat {A} (P : A -> Prop) (x : A) (k : nat) :
  P x -> Forall P (repeat x k).
Proof. intros Hx. induction k as [| k IH]; cbn; now constructor. Qed.

Lemma paginate_loop_requests (self : Self) (ps : option (gmap string JSON)) :
  issues_own_request self ->
  forall fuel r j log,
  exists rest,
    snd (paginate_loop self fuel ps r j log) = log ++ rest /\ Forall follows_link rest.
Proof.
  intros Hown. induction fuel as [| fuel IH]; intros r j log.
  - exists []. rewrite app_nil_r. split; [| constructor].
    cbn [paginate_loop]. destruct (links r !! "next"); [| reflexivity].
    unfold bind, lift, ret. now destruct (limit_reached ps j) as [[] | e |].
  - cbn [paginate_loop]. destruct (links r !! "next") as [next_url |];
      [| exists []; rewrite app_nil_r; split; [reflexivity | constructor]].
    unfold bind at 1. unfold lift at 1.
    destruct (limit_reached ps j) as [[] | e |];
      try (exists []; rewrite app_nil_r; split; [reflexivity | constructor]).
    destruct (Hown next_url None "GET" None log) as (k & Hk).
    assert (Hlinks : Forall follows_link (repeat (mkRequest next_url None "GET" None) k)).
    { apply Forall_repeat. repeat split. }
    unfold bind at 1.
    destruct (_call_api self next_url None "GET" None log) as [[r' | e |] log1];
      cbn [snd] in Hk; subst log1; try (eexists; split; [reflexivity | exact Hlinks]).
    unfold bind at 1. unfold lift at 1.
    destruct (response_json r') as [page | e |];
      try (eexists; split; [reflexivity | exact Hlinks]).
    unfold bind at 1.
    destruct (Py.truthy page).
    + unfold lift at 1.
      destruct (rbind (Ok page) (Py.extend j)) as [j' | e |];
        try (eexists; split; [reflexivity | exact Hlinks]).
      cbv beta iota.
      destruct (IH r' j' (log ++ repeat (mkRequest next_url None "GET" None) k))
        as (rest & Hrest & Hf).
      eexists. rewrite Hrest, <- app_assoc. split; [reflexivity |].
      now apply Forall_app.
    + unfold ret at 1. cbv beta iota.
      destruct (IH r' j (log ++ repeat (mkRequest next_url None "GET" None) k))
        as (rest & Hrest & Hf).
      eexists. rewrite Hrest, <- app_assoc. split; [reflexivity |].
      now apply Forall_app.
Qed.

(** The requests of [_paginate]: those of its first call, then GETs of
    "next" links. *)
Lemma paginate_requests (self : Self) (fuel : nat) (url : string)
    (ps : option (gmap string JSON)) (log : list Request) :
  issues_own_request self ->
  exists (k : nat) (rest : list Request),
    snd (_paginate self fuel url ps log)
    = log ++ repeat (mkRequest url ps "GET" None) k ++ rest
    /\ Forall follows_link rest.
Proof.
  intros Hown. destruct (Hown url ps "GET" None log) as (k & Hk). exists k.
  assert (Hloop : forall r j, exists rest,
            snd (paginate_loop self fuel ps r j
                   (log ++ repeat (mkRequest url ps "GET" None) k))
            = log ++ repeat (mkRequest url ps "GET" None) k ++ rest
            /\ Forall follows_link rest).
  { intros r j. destruct (paginate_loop_requests self ps Hown fuel r j
                            (log ++ repeat (mkRequest url ps "GET" None) k))
      as (rest & Hrest & Hf).
    exists rest. now rewrite Hrest, <- app_assoc. }
  unfold _paginate, bind, lift.
  destruct (_call_api self url ps "GET" None log) as [[r | e |] log1];
    cbn [snd] in Hk; subst log1;
    try (exists []; rewrite app_nil_r; split; [reflexivity | constructor]).
  destruct (response_json r) as [j | e |];
    try (exists []; rewrite app_nil_r; split; [reflexivity | constructor]).
  apply Hloop.
Qed.

(** X2.  [_paginate] sends [params] with its first request only: every
    request it issues after that one is a GET of a "next" link without
    parameters, whatever the server answers and whatever the outcome is.  The
    plain client issues the first request once. *)
Theorem paginate_sends_params_once (self : Self) (net : Network) (fuel : nat)
    (url : string) (ps : option (gmap string JSON)) (log : list Request) :
  issues_own_request self ->
  (exists (k : nat) (rest : list Request),
      snd (_paginate self fuel url ps log)
      = log ++ repeat (mkRequest url ps "GET" None) k ++ rest
      /\ Forall follows_link rest)
  /\ (exists rest : list Request,
        snd (_paginate (EvergreenApi net) fuel url ps log)
        = log ++ mkRequest url ps "GET" None :: rest
        /\ Forall follows_link rest).
Proof.
  intros Hown. split; [now apply paginate_requests |].
  unfold _paginate, bind, lift. cbn [_call_api EvergreenApi]. rewrite base_call_api_eq.
  destruct (attempt_outcome _ _ _) as [r | e |];
    try (exists []; split; [reflexivity | constructor]).
  destruct (response_json r) as [j | e |];
    try (exists []; split; [reflexivity | constructor]).
  destruct (paginate_loop_requests (EvergreenApi net) ps (base_issues_own_request net)
              fuel r j (log ++ [mkRequest url ps "GET" None])) as (rest & Hrest & Hf).
  exists rest. split; [| exact Hf].
  change (paginate_loop (mkSelf (Base._call_api net)))
    with (paginate_loop (EvergreenApi net)).
  now rewrite Hrest, <- app_assoc.
Qed.

Lemma default_params_falsy (ps : option (gmap string JSON)) :
  params_truthy ps = false -> default_params ps = {["limit" := JNum 100]}.
Proof.
  unfold default_params. destruct ps as [p |]; [| reflexivity]. now intros ->.
Qed.

Lemma default_params_truthy (p : gmap string JSON) :
  params_truthy (Some p) = true -> default_params (Some p) = p.
Proof. unfold default_params. now intros ->. Qed.

Lemma lazy_paginate_fetch_requests (self : Self) (next_url : string)
    (p : gmap string JSON) (log : list Request) :
  issues_own_request self ->
  exists reqs,
    snd (lazy_paginate_fetch self next_url p log) = log ++ reqs
    /\ Forall (carries p) reqs
    /\ (forall item g' log',
          lazy_paginate_fetch self next_url p log = (Ok (Some item, g'), log') ->
          sends p g').
Proof.
  intros Hown. destruct (Hown next_url (Some p) "GET" None log) as (k & Hk).
  exists (repeat (mkRequest next_url (Some p) "GET" None) k).
  assert (Hc : Forall (carries p) (repeat (mkRequest next_url (Some p) "GET" None) k)).
  { apply Forall_repeat. repeat split. }
  unfold lazy_paginate_fetch, bind, lift, ret.
  destruct (_call_api self next_url (Some p) "GET" None log) as [[r | e |] log1];
    cbn [snd] in Hk; subst log1; try (split; [reflexivity | split; [exact Hc | discriminate]]).
  destruct (response_json r) as [j | e |];
    try (split; [reflexivity | split; [exact Hc | discriminate]]).
  destruct (Py.truthy j); cbn [negb];
    [| split; [reflexivity | split; [exact Hc | discriminate]]].
  destruct (Py.iter j) as [[| item pending] | e |];
    try (split; [reflexivity | split; [exact Hc | discriminate]]).
  split; [reflexivity |]. split; [exact Hc |].
  intros item' g' log' [= _ <- _]. reflexivity.
Qed.

Lemma lazy_paginate_next_sends (self : Self) (p : gmap string JSON) (g : LazyPaginate)
    (log : list Request) :
  issues_own_request self ->
  sends p g ->
  exists reqs,
    snd (lazy_paginate_next self g log) = log ++ reqs
    /\ Forall (carries p) reqs
    /\ (forall item g' log',
          lazy_paginate_next self g log = (Ok (Some item, g'), log') -> sends p g').
Proof.
  intros Hown Hs.
  destruct g as [url ps | [| item pending] r p' |]; cbn [lazy_paginate_next sends] in *.
  - subst p. now apply lazy_paginate_fetch_requests.
  - subst p'. destruct (links r !! "next") as [next_url |].
    + now apply lazy_paginate_fetch_requests.
    + exists []. rewrite app_nil_r. split; [reflexivity |]. split; [constructor | discriminate].
  - subst p'. exists []. rewrite app_nil_r. split; [reflexivity |].
    split; [constructor |]. intros item' g' log' [= _ <- _]. reflexivity.
  - exists []. rewrite app_nil_r. split; [reflexivity |]. split; [constructor | discriminate].
Qed.

Lemma islice_lazy_paginate_sends (self : Self) (p : gmap string JSON) :
  issues_own_request self ->
  forall (n : nat) (g : LazyPaginate) (log : list Request),
  sends p g ->
  exists reqs,
    snd (@islice _ (lazy_paginate_generator self) n g log) = log ++ reqs
    /\ Forall (carries p) reqs.
Proof.
  intros Hown. induction n as [| n IH]; intros g log Hs.
  - exists []. rewrite app_nil_r. split; [reflexivity | constructor].
  - rewrite islice_step.
    change (@next _ (lazy_paginate_generator self) g log)
      with (lazy_paginate_next self g log).
    destruct (lazy_paginate_next_sends self p g log Hown Hs) as (reqs & Hsnd & Hc & Hg').
    destruct (lazy_paginate_next self g log) as [[[[item |] g'] | e |] log'];
      cbn [snd] in Hsnd; subst log'; try (now exists reqs).
    destruct (IH g' (log ++ reqs) (Hg' _ _ _ eq_refl)) as (reqs' & Hsnd' & Hc').
    exists (reqs ++ reqs'). rewrite Hsnd', <- app_assoc. split; [reflexivity |].
    now apply Forall_app.
Qed.

(** X3.  [_lazy_paginate] sends its parameters with every request, the
    requests of the "next" links included: all the requests issued while the
    first [n] items are asked for are GETs that carry [params], or
    [{"limit": 100}] when [params] is [None] or the empty dict. *)
Theorem lazy_paginate_sends_params_always (self : Self) (url : string)
    (ps : option (gmap string JSON)) (n : nat) (log : list Request) :
  issues_own_request self ->
  exists reqs,
    snd (@islice _ (lazy_paginate_generator self) n (_lazy_paginate url ps) log)
    = log ++ reqs
    /\ Forall (carries (default_params ps)) reqs
    /\ (forall p, ps = Some p -> params_truthy ps = true -> Forall (carries p) reqs)
    /\ (params_truthy ps = false -> Forall (carries {["limit" := JNum 100]}) reqs).
Proof.
  intros Hown.
  destruct (islice_lazy_paginate_sends self (default_params ps) Hown n
              (_lazy_paginate url ps) log eq_refl) as (reqs & Hsnd & Hc).
  exists reqs. split; [exact Hsnd |]. split; [exact Hc |]. split.
  - intros p -> Ht. now rewrite default_params_truthy in Hc.
  - intros Hf. now rewrite default_params_falsy in Hc.
Qed.

Lemma params_truthy_lookup (p : gmap string JSON) (key : string) :
  is_Some (p !! key) -> params_truthy (Some p) = true.
Proof.
  intros [v Hv]. unfold params_truthy. apply negb_true_iff, Nat.eqb_neq. intros Hsize.
  apply map_size_empty_iff in Hsize. subst p. now rewrite lookup_empty in Hv.
Qed.

(** ** Edges of the pagination strategies *)

(** X4.  [_paginate] tests the limit as [len(json_data) >= params["limit"]]:
    with a limit that is not a number (the string ["10"], say) it raises a
    [TypeError] as soon as the first response has a "next" link, after that
    one request; without a "next" link the limit is not looked at. *)
Theorem paginate_limit_not_a_number (net : Network) (fuel : nat) (url : string)
    (p : gmap string JSON) (limit : JSON) (log : list Request) (r : Response)
    (items : list JSON) :
  p !! "limit" = Some limit ->
  PyCmp.as_int limit = None ->
  net (List.length log) (mkRequest url (Some p) "GET" None) = Ok r ->
  status_code r < 400 ->
  json r = Some (JArr items) ->
  (is_Some (links r !! "next") ->
   _paginate (EvergreenApi net) fuel url (Some p) log
   = (Raise TypeError, log ++ [mkRequest url (Some p) "GET" None]))
  /\ (links r !! "next" = None ->
      _paginate (EvergreenApi net) fuel url (Some p) log
      = (Ok (JArr items), log ++ [mkRequest url (Some p) "GET" None])).
Proof.
  intros Hlimit Hnum Hnet Hs Hj.
  assert (Hfirst : _paginate (EvergreenApi net) fuel url (Some p) log
                   = paginate_loop (EvergreenApi net) fuel (Some p) r (JArr items)
                       (log ++ [mkRequest url (Some p) "GET" None])).
  { unfold _paginate. unfold bind at 1. rewrite (base_answers net _ _ _ _ _ r Hnet Hs).
    unfold bind, lift, response_json. now rewrite Hj. }
  rewrite Hfirst. split.
  - intros [next_url Hnext].
    assert (Hreached : limit_reached (Some p) (JArr items) = Raise TypeError).
    { unfold limit_reached. rewrite (params_truthy_lookup p "limit") by (now exists limit).
      cbn [negb]. rewrite Hlimit. cbn [Py.len rbind].
      destruct limit; try reflexivity; discriminate. }
    destruct fuel; cbn [paginate_loop]; rewrite Hnext; unfold bind, lift;
      now rewrite Hreached.
  - intros Hnone. destruct fuel; cbn [paginate_loop]; now rewrite Hnone.
Qed.

(** X5.  [json_by_task] returns the body of one page as it is, a JSON
    object included; when that page is not a list and has a "next" link to a
    page that is not empty, it raises an [AttributeError] after the two
    requests, for only a list can be extended. *)
Theorem json_by_task_single_page (api_server : string) (net : Network) (fuel : nat)
    (task_id json_key : string) (log : list Request) (r : Response) (body : JSON) :
  net (List.length log)
    (mkRequest
       (_create_plugin_url api_server
          (String.append "/task/" (String.append task_id (String.append "/" json_key))))
       None "GET" None) = Ok r ->
  status_code r < 400 ->
  json r = Some body ->
  (links r !! "next" = None ->
   json_by_task api_server (EvergreenApi net) fuel task_id json_key log
   = (Ok body,
      log ++ [mkRequest
                (_create_plugin_url api_server
                   (String.append "/task/"
                      (String.append task_id (String.append "/" json_key))))
                None "GET" None]))
  /\ (forall next_url r' page,
        links r !! "next" = Some next_url ->
        (forall items, body <> JArr items) ->
        net (S (List.length log)) (mkRequest next_url None "GET" None) = Ok r' ->
        status_code r' < 400 ->
        json r' = Some page ->
        Py.truthy page = true ->
        json_by_task api_server (EvergreenApi net) (S fuel) task_id json_key log
        = (Raise AttributeError,
           log ++ [mkRequest
                     (_create_plugin_url api_server
                        (String.append "/task/"
                           (String.append task_id (String.append "/" json_key))))
                     None "GET" None;
                   mkRequest next_url None "GET" None])).
Proof.
  intros Hnet Hs Hj. unfold json_by_task, _paginate.
  split.
  - intros Hnone. unfold bind at 1. rewrite (base_answers net _ _ _ _ _ r Hnet Hs).
    unfold bind, lift, response_json. rewrite Hj.
    destruct fuel; cbn [paginate_loop]; now rewrite Hnone.
  - intros next_url r' page Hnext Hbody Hnet' Hs' Hj' Hpage.
    unfold bind at 1. rewrite (base_answers net _ _ _ _ _ r Hnet Hs).
    unfold bind at 1. unfold lift at 1, response_json at 1. rewrite Hj.
    cbn [paginate_loop]. rewrite Hnext. cbn [limit_reached].
    unfold bind at 1. unfold lift at 1. unfold bind at 1.
    rewrite (base_answers net next_url None "GET" None _ r').
    + unfold bind, lift, response_json. rewrite Hj', Hpage. cbn [rbind].
      rewrite <- app_assoc. destruct body; try reflexivity. now destruct (Hbody items).
    + rewrite length_app. cbn [List.length]. now rewrite Nat.add_1_r.
    + exact Hs'.
Qed.

Lemma islice_by_date_pending (evergreen_input_to_output : JSON -> Result JSON)
    (self : Self) (data : JSON) (url : string) (p : gmap string JSON)
    (pending : list JSON) (log : list Request) :
  @islice _ (lazy_paginate_by_date_generator evergreen_input_to_output self)
    (List.length pending) (BD_yielding pending data url p) log
  = (Ok (pending, BD_yielding [] data url p), log).
Proof.
  induction pending as [| item pending IH]; [reflexivity |].
  cbn [List.length islice]. unfold bind at 1.
  change (@next _ (lazy_paginate_by_date_generator evergreen_input_to_output self)
            (BD_yielding (item :: pending) data url p) log)
    with (Ok (Some item, BD_yielding pending data url p), log).
  cbn [fst snd]. unfold bind. rewrite IH. reflexivity.
Qed.

(** X6.  [_lazy_paginate_by_date] reads the creation time of the last item
    of a page only when the consumer asks for an item after the page: a page
    whose last item has no ["create_time"] (or is not a dict) yields all its
    items, and the [next] after them raises the [KeyError] (the [TypeError])
    without a request; so does a creation time that cannot be converted. *)
Theorem lazy_paginate_by_date_undated_page
    (evergreen_input_to_output : JSON -> Result JSON) (net : Network) (url : string)
    (ps : option (gmap string JSON)) (log : list Request) (r : Response)
    (init : list JSON) (last : JSON) (e : Exn) :
  net (List.length log) (mkRequest url (Some (default_params ps)) "GET" None) = Ok r ->
  status_code r < 400 ->
  json r = Some (JArr (init ++ [last])) ->
  rbind (Py.getitem last "create_time") evergreen_input_to_output = Raise e ->
  @islice _ (lazy_paginate_by_date_generator evergreen_input_to_output (EvergreenApi net))
    (List.length (init ++ [last])) (_lazy_paginate_by_date url ps) log
  = (Ok (init ++ [last],
         BD_yielding [] (JArr (init ++ [last])) url (default_params ps)),
     log ++ [mkRequest url (Some (default_params ps)) "GET" None])
  /\ (forall log',
        lazy_paginate_by_date_next evergreen_input_to_output (EvergreenApi net)
          (BD_yielding [] (JArr (init ++ [last])) url (default_params ps)) log'
        = (Raise e, log')).
Proof.
  intros Hnet Hs Hj Hraise. split.
  - destruct (init ++ [last]) as [| item pending] eqn:Hpage; [now destruct init |].
    cbn [List.length islice]. unfold bind at 1.
    change (@next _ (lazy_paginate_by_date_generator evergreen_input_to_output
                       (EvergreenApi net)) (_lazy_paginate_by_date url ps) log)
      with (lazy_paginate_by_date_fetch (EvergreenApi net) url (default_params ps) log).
    rewrite (lazy_paginate_by_date_fetch_page net url _ log r (item :: pending) Hnet Hs Hj).
    cbn [fst snd]. unfold bind. rewrite islice_by_date_pending. reflexivity.
  - intros log'. cbn [lazy_paginate_by_date_next]. unfold bind, lift, advance_start_at.
    rewrite last_item_snoc. cbn [rbind].
    destruct (Py.getitem last "create_time") as [create_time | e' |]; cbn [rbind] in *.
    + rewrite Hraise. reflexivity.
    + now injection Hraise as ->.
    + discriminate.
Qed.

(** ** Failures of the status and the retrying variant *)

Lemma attempt_outcome_http_failure (net : Network) (req : Request) (n : nat)
    (r : Response) :
  net n req = Ok r -> http_failure r ->
  attempt_outcome net req n = Raise (HTTPError (http_error_of r)).
Proof.
  intros Hnet [Hs Hbody]. unfold attempt_outcome, http_error_of. rewrite Hnet. cbn [rbind].
  destruct Hbody as [Hnone | (fields & Hj)].
  - rewrite raise_for_status_no_body by exact Hnone. rewrite Hnone.
    now rewrite raise_for_status_4xx_5xx.
  - rewrite Hj. destruct (Py.assoc "error" fields) as [msg |] eqn:Hmsg.
    + rewrite (raise_for_status_object_with_error r fields msg); [reflexivity | lia | | ];
        assumption.
    + rewrite (raise_for_status_object_without_error r fields Hj Hmsg).
      now rewrite raise_for_status_4xx_5xx.
Qed.

(** X7.  The retrying variant retries on every failure of the status, those
    of the client included (a 404, say): when the server answers the three
    attempts with responses of a 4xx or 5xx status, the request is issued
    exactly three times and the [HTTPError] of the third response is
    raised. *)
Theorem retrying_retries_status_failures (net : Network) (url : string)
    (ps : option (gmap string JSON)) (method : string) (data : option string)
    (log : list Request) (r1 r2 r3 : Response) :
  net (List.length log) (mkRequest url ps method data) = Ok r1 ->
  net (S (List.length log)) (mkRequest url ps method data) = Ok r2 ->
  net (S (S (List.length log))) (mkRequest url ps method data) = Ok r3 ->
  http_failure r1 -> http_failure r2 -> http_failure r3 ->
  Retrying._call_api net url ps method data log =
  (Raise (HTTPError (http_error_of r3)), log ++ repeat (mkRequest url ps method data) 3).
Proof.
  intros H1 H2 H3 F1 F2 F3. rewrite retrying_call_api_eq.
  rewrite (attempt_outcome_http_failure net _ _ r1 H1 F1).
  rewrite (attempt_outcome_http_failure net _ _ r2 H2 F2).
  rewrite (attempt_outcome_http_failure net _ _ r3 H3 F3).
  reflexivity.
Qed.

(** ** Statistics: [StatsSpecification.get_params] and the three endpoints *)

Lemma params_within_empty (keys plain : list string) : params_within keys plain ∅.
Proof. intros k v Hk. now rewrite lookup_empty in Hk. Qed.

Lemma params_within_insert (keys plain : list string) (p : gmap string JSON)
    (key : string) (value : JSON) :
  In key keys -> (In key plain -> Py.truthy value = true) ->
  params_within keys plain p -> params_within keys plain (<[key := value]> p).
Proof.
  intros Hkey Hval Hp k v Hk. apply lookup_insert_Some in Hk as [[<- <-] | [_ Hk]].
  - auto.
  - now apply Hp.
Qed.

Lemma params_within_set_int (keys plain : list string) (p : gmap string JSON)
    (key : string) (value : option Z) :
  In key keys -> params_within keys plain p ->
  params_within keys plain (Params.set_int key value p).
Proof.
  intros Hkey Hp. unfold Params.set_int. destruct value as [n |]; [| exact Hp].
  destruct (Truthy.int n) eqn:Hn; [| exact Hp].
  apply params_within_insert; auto.
Qed.

Lemma params_within_set_str (keys plain : list string) (p : gmap string JSON)
    (key : string) (value : option string) :
  In key keys -> params_within keys plain p ->
  params_within keys plain (Params.set_str key value p).
Proof.
  intros Hkey Hp. unfold Params.set_str. destruct value as [s |]; [| exact Hp].
  destruct (Truthy.str s) eqn:Hs; [| exact Hp].
  apply params_within_insert; auto.
Qed.

Lemma params_within_set_list (keys plain : list string) (p : gmap string JSON)
    (key : string) (value : option (list string)) :
  In key keys -> params_within keys plain p ->
  params_within keys plain (Params.set_list key value p).
Proof.
  intros Hkey Hp. unfold Params.set_list. destruct value as [l |]; [| exact Hp].
  destruct l as [| s l]; [exact Hp |].
  apply params_within_insert; auto.
Qed.

Lemma params_within_set_date {datetime} (fmt : datetime -> Result JSON)
    (keys plain : list string) (p p' : gmap string JSON) (key : string)
    (value : option datetime) :
  In key keys -> ~ In key plain -> params_within keys plain p ->
  StatsSpecification.set_date fmt key value p = Ok p' ->
  params_within keys plain p'.
Proof.
  intros Hkey Hplain Hp. unfold StatsSpecification.set_date.
  destruct value as [d |]; [| now intros [= <-]].
  destruct (fmt d) as [s | e |]; cbn [rbind]; try discriminate.
  intros [= <-].
  apply params_within_insert; [exact Hkey | intros H; now destruct Hplain | exact Hp].
Qed.

Ltac in_list := cbn; repeat (first [left; reflexivity | right]).

Ltac not_in_list :=
  cbn; intros H; repeat (destruct H as [H | H]; [discriminate H |]); destruct H.

Lemma get_params_within {datetime} (fmt : datetime -> Result JSON)
    (rp : Requester.t -> JSON) (spec : StatsSpecification.t datetime)
    (p : gmap string JSON) :
  StatsSpecification.get_params fmt rp spec = Ok p ->
  params_within stats_keys stats_plain_keys p.
Proof.
  unfold StatsSpecification.get_params.
  destruct (StatsSpecification.set_date fmt "after_date" _ ∅) as [p1 | e |] eqn:H1;
    cbn [rbind]; try discriminate.
  destruct (StatsSpecification.set_date fmt "before_date" _ p1) as [p2 | e |] eqn:H2;
    cbn [rbind]; try discriminate.
  intros [= <-].
  apply params_within_set_str; [in_list |].
  apply params_within_set_str; [in_list |].
  apply params_within_set_list; [in_list |].
  apply params_within_set_list; [in_list |].
  apply params_within_set_list; [in_list |].
  apply params_within_set_list; [in_list |].
  assert (Hp2 : params_within stats_keys stats_plain_keys p2).
  { eapply params_within_set_date; [| | | exact H2]; [in_list | not_in_list |].
    eapply params_within_set_date; [| | | exact H1]; [in_list | not_in_list |].
    apply params_within_empty. }
  destruct (StatsSpecification.requesters spec) as [r |].
  - apply params_within_insert; [in_list | not_in_list |].
    apply params_within_set_int; [in_list | exact Hp2].
  - apply params_within_set_int; [in_list | exact Hp2].
Qed.

(** X8.  The dict of parameters of a [StatsSpecification] holds no key but
    the ten of the options, and an option that is false is left out as one
    that is [None]: [group_num_days = 0], an empty list of tests, tasks,
    variants or distros, an empty [group_by] or [sort].  The dict never holds
    a ["limit"] nor the [project_id]. *)
Theorem get_params_leaves_out_false_options {datetime} (fmt : datetime -> Result JSON)
    (rp : Requester.t -> JSON) (spec : StatsSpecification.t datetime)
    (p : gmap string JSON) :
  StatsSpecification.get_params fmt rp spec = Ok p ->
  (forall k v, p !! k = Some v ->
     In k stats_keys /\ (In k stats_plain_keys -> Py.truthy v = true))
  /\ p !! "limit" = None
  /\ p !! "project_id" = None.
Proof.
  intros Hp. pose proof (get_params_within fmt rp spec p Hp) as Hw.
  split; [exact Hw |]. split.
  - destruct (p !! "limit") as [v |] eqn:Hl; [| reflexivity].
    destruct (Hw _ _ Hl) as [Hin _]. exfalso. revert Hin. not_in_list.
  - destruct (p !! "project_id") as [v |] eqn:Hl; [| reflexivity].
    destruct (Hw _ _ Hl) as [Hin _]. exfalso. revert Hin. not_in_list.
Qed.

Lemma comprehension_array {A} (new : JSON -> Result A) (items : list JSON) :
  comprehension new (JArr items) = construct_each new items.
Proof. reflexivity. Qed.

(** A paginated endpoint of statistics over a chain of pages. *)
Lemma stats_pages_chain {datetime A : Type} (fmt : datetime -> Result JSON)
    (rp : Requester.t -> JSON) (new : JSON -> Result A) (self : Self) (net : Network)
    (spec : StatsSpecification.t datetime) (p : gmap string JSON) (url : string)
    (log : list Request) (pages : list (list JSON)) (fuel : nat) :
  answers self net ->
  StatsSpecification.get_params fmt rp spec = Ok p ->
  chain net (List.length log) (mkRequest url (Some p) "GET" None) pages ->
  (List.length pages <= fuel)%nat ->
  exists reqs,
    (let* items := _paginate self fuel url (Some p) in lift (comprehension new items)) log
    = (construct_each new (concat pages), log ++ reqs)
    /\ List.length reqs = List.length pages.
Proof.
  intros Hans Hp Hchain Hfuel.
  destruct pages as [| first rest]; [inversion Hchain |].
  assert (Hstop : forall held, limit_reached (Some p) (JArr held) = Ok false).
  { intros held. apply limit_reached_no_limit. cbn [limit_of].
    destruct (p !! "limit") as [v |] eqn:Hl; [| reflexivity].
    destruct (get_params_within fmt rp spec p Hp _ _ Hl) as [Hin _].
    exfalso. revert Hin. not_in_list. }
  assert (Hfuel' : (List.length rest <= fuel)%nat) by (cbn [List.length] in Hfuel; lia).
  destruct (paginate_chain self net _ (Some p) (fun _ => false) log first rest fuel Hans
              Hstop Hchain Hfuel') as (reqs & Heq & Hreqs).
  rewrite fetched_after_never in Heq, Hreqs. exists reqs. split; [| exact Hreqs].
  unfold bind. rewrite Heq. unfold lift. now rewrite comprehension_array.
Qed.

(** X9.  The statistics are never cut by a limit: the parameters of a
    [StatsSpecification] hold no ["limit"], so on a chain of pages
    [test_stats_by_project] issues one request per page, the first one with
    the parameters of the specification, and returns the statistics of the
    items of all the pages, in order. *)
Theorem test_stats_by_project_fetches_all_pages {datetime TestStats : Type}
    (api_server : string) (fmt : datetime -> Result JSON) (rp : Requester.t -> JSON)
    (new_TestStats : JSON -> Result TestStats) (self : Self) (net : Network)
    (spec : StatsSpecification.t datetime) (p : gmap string JSON)
    (log : list Request) (pages : list (list JSON)) (fuel : nat) :
  answers self net ->
  StatsSpecification.get_params fmt rp spec = Ok p ->
  chain net (List.length log)
    (mkRequest
       (_create_url api_server
          (String.append "/projects/"
             (String.append (StatsSpecification.project_id spec) "/test_stats")))
       (Some p) "GET" None) pages ->
  (List.length pages <= fuel)%nat ->
  exists reqs,
    test_stats_by_project api_server fmt rp new_TestStats self fuel spec log
    = (construct_each new_TestStats (concat pages), log ++ reqs)
    /\ List.length reqs = List.length pages.
Proof.
  intros Hans Hp Hchain Hfuel.
  destruct (stats_pages_chain fmt rp new_TestStats self net spec p _ log pages fuel
              Hans Hp Hchain Hfuel) as (reqs & Heq & Hreqs).
  exists reqs. split; [| exact Hreqs].
  unfold test_stats_by_project. unfold bind at 1. unfold lift at 1. rewrite Hp.
  exact Heq.
Qed.

(** X10.  [task_stats_by_project] and [task_reliability_by_project] raise a
    [ValueError] before any request when the specification has [tests], an
    empty list of tests included (which [get_params] would leave out);
    without [tests] they fetch all the pages of their endpoint, as
    [test_stats_by_project] does. *)
Theorem task_stats_reject_tests {datetime TaskStats TaskReliability : Type}
    (api_server : string) (fmt : datetime -> Result JSON) (rp : Requester.t -> JSON)
    (new_TaskStats : JSON -> Result TaskStats)
    (new_TaskReliability : JSON -> Result TaskReliability) (self : Self) (net : Network)
    (fuel : nat) (spec : StatsSpecification.t datetime) (log : list Request) :
  (forall tests,
      StatsSpecification.tests spec = Some tests ->
      task_stats_by_project api_server fmt rp new_TaskStats self fuel spec log
      = (Raise ValueError, log)
      /\ task_reliability_by_project api_server fmt rp new_TaskReliability self fuel spec log
         = (Raise ValueError, log))
  /\ (StatsSpecification.tests spec = None ->
      answers self net ->
      forall p pages,
        StatsSpecification.get_params fmt rp spec = Ok p ->
        (List.length pages <= fuel)%nat ->
        (chain net (List.length log)
           (mkRequest
              (_create_url api_server
                 (String.append "/projects/"
                    (String.append (StatsSpecification.project_id spec) "/task_stats")))
              (Some p) "GET" None) pages ->
         exists reqs,
           task_stats_by_project api_server fmt rp new_TaskStats self fuel spec log
           = (construct_each new_TaskStats (concat pages), log ++ reqs)
           /\ List.length reqs = List.length pages)
        /\ (chain net (List.length log)
              (mkRequest
                 (_create_url api_server
                    (String.append "/projects/"
                       (String.append (StatsSpecification.project_id spec)
                          "/task_reliability")))
                 (Some p) "GET" None) pages ->
            exists reqs,
              task_reliability_by_project api_server fmt rp new_TaskReliability self fuel
                spec log
              = (construct_each new_TaskReliability (concat pages), log ++ reqs)
              /\ List.length reqs = List.length pages)).
Proof.
  split.
  - intros tests Ht. unfold task_stats_by_project, task_reliability_by_project.
    rewrite Ht. split; reflexivity.
  - intros Ht Hans p pages Hp Hfuel.
    unfold task_stats_by_project, task_reliability_by_project. rewrite Ht. split.
    + intros Hchain.
      destruct (stats_pages_chain fmt rp new_TaskStats self net spec p _ log pages fuel
                  Hans Hp Hchain Hfuel) as (reqs & Heq & Hreqs).
      exists reqs. split; [| exact Hreqs].
      unfold bind at 1. unfold lift at 1. rewrite Hp. exact Heq.
    + intros Hchain.
      destruct (stats_pages_chain fmt rp new_TaskReliability self net spec p _ log pages
                  fuel Hans Hp Hchain Hfuel) as (reqs & Heq & Hreqs).
      exists reqs. split; [| exact Hreqs].
      unfold bind at 1. unfold lift at 1. rewrite Hp. exact Heq.
Qed.

(** ** Updates: [configure_task], [configure_patch], [annotate_task] *)

Lemma call_and_return_requests (net : Network) (url : string)
    (ps : option (gmap string JSON)) (method : string) (data : option string)
    (log : list Request) :
  snd ((let* _ := _call_api (EvergreenApi net) url ps method data in ret tt) log)
  = log ++ [mkRequest url ps method data].
Proof.
  unfold bind, ret. cbn [_call_api EvergreenApi]. rewrite base_call_api_eq.
  now destruct (attempt_outcome _ _ _).
Qed.

(** X11.  [configure_task] issues one PATCH whose body is the dict of the
    options that are true: the body holds ["activated"] only with the value
    [true] and ["priority"] only with a number other than 0, so
    [activated=False] and [priority=0] send what no option sends.
    [configure_patch] does the same with an empty list of variants and an
    empty description. *)
Theorem configure_task_sends_true_options_only (api_server : string)
    (json_dumps : JSON -> string) (self : Self) (net : Network) (task_id : string)
    (activated : option bool) (priority : option Z) (log : list Request) :
  (exists body,
      snd (configure_task api_server json_dumps (EvergreenApi net) task_id activated
             priority log)
      = log ++ [mkRequest (_create_url api_server (String.append "/tasks/" task_id)) None
                  "PATCH" (Some (json_dumps (JObj body)))]
      /\ (forall k v, In (k, v) body ->
            (k = "activated" /\ v = JBool true /\ activated = Some true)
            \/ (k = "priority" /\ exists p, v = JNum p /\ p <> 0 /\ priority = Some p)))
  /\ configure_task api_server json_dumps self task_id (Some false) priority
     = configure_task api_server json_dumps self task_id None priority
  /\ configure_task api_server json_dumps self task_id activated (Some 0)
     = configure_task api_server json_dumps self task_id activated None
  /\ configure_patch api_server json_dumps self task_id [] (Some "")
     = configure_patch api_server json_dumps self task_id [] None
  /\ snd (configure_patch api_server json_dumps (EvergreenApi net) task_id [] None log)
     = log ++ [mkRequest
                 (_create_url api_server
                    (String.append "/patches/" (String.append task_id "/configure")))
                 None "POST" (Some (json_dumps (JObj [])))].
Proof.
  split; [| repeat split; apply call_and_return_requests].
  unfold configure_task.
  destruct activated as [[|] |]; destruct priority as [p |];
    try (destruct (Truthy.int p) eqn:Hp;
         [apply negb_true_iff, Z.eqb_neq in Hp |]);
    cbn [Dict.setitem String.eqb Ascii.eqb Bool.eqb];
    (eexists; split; [apply call_and_return_requests |]);
    intros k v Hin; cbn [In] in Hin;
    repeat (destruct Hin as [[= <- <-] | Hin]); try (now destruct Hin);
    try (left; repeat split; reflexivity);
    right; (split; [reflexivity |]); exists p; auto.
Qed.

Ltac distinct_keys :=
  repeat (apply NoDup_cons_2;
          [rewrite ?not_elem_of_cons; repeat split;
           first [discriminate | apply not_elem_of_nil] |]);
  apply NoDup_nil_2.

(** X12.  [annotate_task] issues one PUT whose body is a dict that starts
    with the ["task_id"] and goes on with the options that are true, each
    once: ["task_execution"] is there only for an execution other than 0.
    So [execution=0] sends what no execution sends, and [Task.annotate] on a
    task at execution 0 names no execution. *)
Theorem annotate_task_sends_true_options_only (api_server : string)
    (json_dumps : JSON -> string) (self : Self) (net : Network) (task_id : string)
    (execution : option Z) (message : option string)
    (issues suspected_issues : option (list IssueLinkRequest.t))
    (metadata : option (list (string * JSON))) (log : list Request) :
  (exists request,
      snd (annotate_task api_server json_dumps (EvergreenApi net) task_id execution message
             issues suspected_issues metadata log)
      = log ++ [mkRequest
                  (_create_url api_server
                     (String.append "/tasks/" (String.append task_id "/annotation")))
                  None "PUT"
                  (Some (json_dumps (JObj (("task_id", JStr task_id) :: request))))]
      /\ NoDup (map fst request)
      /\ (forall k v, In (k, v) request -> In k annotation_keys /\ Py.truthy v = true)
      /\ (forall v, In ("task_execution", v) request ->
            exists e, v = JNum e /\ e <> 0 /\ execution = Some e))
  /\ annotate_task api_server json_dumps self task_id (Some 0) message issues
       suspected_issues metadata
     = annotate_task api_server json_dumps self task_id None message issues
         suspected_issues metadata
  /\ (forall task : Task.t,
        Task.execution task = 0 ->
        Task.annotate (annotate_task api_server json_dumps self) task message issues
          suspected_issues metadata
        = annotate_task api_server json_dumps self (Task.task_id task) None message issues
            suspected_issues metadata).
Proof.
  split; [| split; [reflexivity | intros task He; unfold Task.annotate; now rewrite He]].
  unfold annotate_task.
  destruct execution as [e |];
    [destruct (Truthy.int e) eqn:He;
     [pose proof He as He'; apply negb_true_iff, Z.eqb_neq in He' |] |];
    (destruct message as [m |]; [destruct (Truthy.str m) eqn:Hm |]);
    (destruct issues as [[| i1 il] |]);
    (destruct suspected_issues as [[| s1 sl] |]);
    (destruct metadata as [[| m1 ml] |]);
    cbn [Truthy.list Dict.setitem String.eqb Ascii.eqb Bool.eqb];
    (eexists; split; [apply call_and_return_requests |]);
    (split; [cbn [map fst]; distinct_keys |]);
    (split;
     [intros k v Hin; cbn [In] in Hin;
      repeat (destruct Hin as [[= <- <-] | Hin]); try (now destruct Hin);
      (split; [in_list | cbn; try reflexivity; try exact He])
     | intros v Hin; cbn [In] in Hin;
       repeat (destruct Hin as [[= <-] | Hin]); try (now destruct Hin);
       try discriminate; eauto]).
Qed.

(** ** Lazy endpoints: [patches_by_user], [versions_by_project] *)

Lemma params_truthy_insert (p : gmap string JSON) (key : string) (value : JSON) :
  params_truthy (Some (<[key := value]> p)) = true.
Proof.
  unfold params_truthy. apply negb_true_iff, Nat.eqb_neq. intros Hsize.
  apply map_size_empty_iff in Hsize. now apply insert_non_empty in Hsize.
Qed.

Lemma params_truthy_singleton (key : string) (value : JSON) :
  params_truthy (Some {[key := value]}) = true.
Proof. rewrite <- insert_empty. apply params_truthy_insert. Qed.

Lemma genexpr_next_sends {A} (self : Self) (p : gmap string JSON)
    (g : GenExpr LazyPaginate A) (log : list Request) :
  issues_own_request self ->
  sends p (source g) ->
  exists reqs,
    snd (@genexpr_next _ (lazy_paginate_generator self) _ g log) = log ++ reqs
    /\ Forall (carries p) reqs
    /\ (forall a g' log',
          @genexpr_next _ (lazy_paginate_generator self) _ g log = (Ok (Some a, g'), log') ->
          sends p (source g')).
Proof.
  intros Hown Hs. unfold genexpr_next.
  destruct (exhausted g).
  - exists []. rewrite app_nil_r. split; [reflexivity |]. split; [constructor | discriminate].
  - change (@next _ (lazy_paginate_generator self) (source g))
      with (lazy_paginate_next self (source g)).
    destruct (lazy_paginate_next_sends self p (source g) log Hown Hs)
      as (reqs & Hsnd & Hc & Hg').
    exists reqs. unfold bind, lift, ret.
    destruct (lazy_paginate_next self (source g) log) as [[[[item |] g1] | e |] log1];
      cbn [snd fst] in *; subst log1;
      try (split; [reflexivity | split; [exact Hc | discriminate]]).
    destruct (element g item) as [a | e |];
      try (split; [reflexivity | split; [exact Hc | discriminate]]).
    split; [reflexivity |]. split; [exact Hc |].
    intros a' g' log' Heq. injection Heq as _ <- _. cbn [source].
    exact (Hg' _ _ _ eq_refl).
Qed.

Lemma genexpr_islice_sends {A} (self : Self) (p : gmap string JSON) :
  issues_own_request self ->
  forall (n : nat) (g : GenExpr LazyPaginate A) (log : list Request),
  sends p (source g) ->
  exists reqs,
    snd (@genexpr_islice _ (lazy_paginate_generator self) _ n g log) = log ++ reqs
    /\ Forall (carries p) reqs.
Proof.
  intros Hown. induction n as [| n IH]; intros g log Hs.
  - exists []. rewrite app_nil_r. split; [reflexivity | constructor].
  - cbn [genexpr_islice]. unfold bind at 1.
    destruct (genexpr_next_sends self p g log Hown Hs) as (reqs & Hsnd & Hc & Hg').
    destruct (@genexpr_next _ (lazy_paginate_generator self) _ g log)
      as [[[[a |] g'] | e |] log'];
      cbn [snd fst] in *; subst log'; try (now exists reqs).
    destruct (IH g' (log ++ reqs) (Hg' _ _ _ eq_refl)) as (reqs' & Hsnd' & Hc').
    exists (reqs ++ reqs'). rewrite snd_bind_ret, Hsnd', <- app_assoc.
    split; [reflexivity |]. now apply Forall_app.
Qed.

(** X13.  All the requests of [patches_by_user] carry the same parameters.
    Without [start_at] and without [limit] (or with [limit=0]) they are
    [{"limit": 100}], the default of [_lazy_paginate] for an empty dict; with
    [start_at] alone they are [{"start_at": start_at}], and no limit is sent;
    a [limit] other than 0 is sent as it is. *)
Theorem patches_by_user_parameters {datetime Patch : Type} (api_server : string)
    (datetime_param : datetime -> JSON) (new_Patch : JSON -> Result Patch) (self : Self)
    (user_id : string) (start_at : option datetime) (limit : option Z) (n : nat)
    (log : list Request) :
  issues_own_request self ->
  exists reqs,
    snd (@genexpr_islice _ (lazy_paginate_generator self) _ n
           (patches_by_user api_server datetime_param new_Patch user_id start_at limit) log)
    = log ++ reqs
    /\ (start_at = None -> limit = None \/ limit = Some 0 ->
        Forall (carries {["limit" := JNum 100]}) reqs)
    /\ (forall d, start_at = Some d -> limit = None \/ limit = Some 0 ->
        Forall (carries {["start_at" := datetime_param d]}) reqs)
    /\ (forall l, limit = Some l -> l <> 0 ->
        Forall (fun q => exists p, carries p q /\ p !! "limit" = Some (JNum l)) reqs).
Proof.
  intros Hown.
  destruct (genexpr_islice_sends self _ Hown n
              (patches_by_user api_server datetime_param new_Patch user_id start_at limit)
              log eq_refl) as (reqs & Hsnd & Hc).
  exists reqs. split; [exact Hsnd |]. cbn [patches_by_user source _lazy_paginate] in Hc.
  split; [| split].
  - intros -> Hl. revert Hc.
    assert (Params.set_int "limit" limit (∅ : gmap string JSON) = ∅) as ->
      by (destruct Hl as [-> | ->]; reflexivity).
    now rewrite default_params_falsy by reflexivity.
  - intros d -> Hl. revert Hc.
    assert (Params.set_int "limit" limit (<["start_at" := datetime_param d]> ∅)
            = ({["start_at" := datetime_param d]} : gmap string JSON)) as ->
      by (destruct Hl as [-> | ->]; cbn; now rewrite insert_empty).
    now rewrite default_params_truthy by apply params_truthy_singleton.
  - intros l -> Hl. revert Hc. unfold Params.set_int, Truthy.int.
    apply Z.eqb_neq in Hl. rewrite Hl. cbn [negb].
    rewrite default_params_truthy by apply params_truthy_insert.
    intros Hc. eapply Forall_impl; [exact Hc |].
    intros q Hq. eexists. split; [exact Hq |]. apply lookup_insert_eq.
Qed.

Lemma requester_name_lower (requester : Requester.t) :
  PyStr.lower (Requester.name requester) = Requester.value requester.
Proof. now destruct requester. Qed.

Lemma most_recent_version_eq {Version : Type} (api_server : string)
    (new_Version : JSON -> Result Version) (net : Network) (project : Project.t)
    (log : list Request) :
  Project.most_recent_version (versions_by_project api_server new_Version)
    (EvergreenApi net) project log
  = (rbind (attempt_outcome net
              (versions_request api_server (Project.identifier project)
                 Requester.GITTER_REQUEST) (List.length log)) (fun r =>
     rbind (response_json r) (fun j =>
     rbind (first_of_page j) (fun o =>
     match o with
     | Some (item, _) => rbind (new_Version item) (fun version => Ok (Some version))
     | None => Ok None
     end))),
     log ++ [versions_request api_server (Project.identifier project)
               Requester.GITTER_REQUEST]).
Proof.
  unfold Project.most_recent_version, versions_by_project, genexpr_next, versions_request.
  cbn [exhausted source element].
  change (@next _ (lazy_paginate_generator (EvergreenApi net)))
    with (lazy_paginate_next (EvergreenApi net)).
  cbn [lazy_paginate_next _lazy_paginate].
  rewrite default_params_truthy by apply params_truthy_singleton.
  rewrite requester_name_lower. cbn [Requester.value].
  unfold bind. rewrite lazy_paginate_fetch_eq.
  destruct (attempt_outcome _ _ _) as [r | e |]; cbn [rbind]; try reflexivity.
  destruct (response_json r) as [j | e |]; cbn [rbind]; try reflexivity.
  destruct (first_of_page j) as [[[item pending] |] | e |]; cbn [rbind fst snd];
    try reflexivity.
  unfold lift, ret. now destruct (new_Version item).
Qed.

(** X14.  [Project.most_recent_version] issues exactly one request, the
    request for the versions of the project that [gitter_request] created,
    with no limit; it returns the version of the first item of that page, and
    leaves the "next" link of the page alone.  On an empty page it ends as
    [next] on a sequence without an item does. *)
Theorem most_recent_version_one_request {Version : Type} (api_server : string)
    (new_Version : JSON -> Result Version) (net : Network) (project : Project.t)
    (log : list Request) :
  snd (Project.most_recent_version (versions_by_project api_server new_Version)
         (EvergreenApi net) project log)
  = log ++ [versions_request api_server (Project.identifier project)
              Requester.GITTER_REQUEST]
  /\ (forall r item items,
        net (List.length log)
          (versions_request api_server (Project.identifier project)
             Requester.GITTER_REQUEST) = Ok r ->
        status_code r < 400 ->
        json r = Some (JArr (item :: items)) ->
        fst (Project.most_recent_version (versions_by_project api_server new_Version)
               (EvergreenApi net) project log)
        = rbind (new_Version item) (fun version => Ok (Some version)))
  /\ (forall r,
        net (List.length log)
          (versions_request api_server (Project.identifier project)
             Requester.GITTER_REQUEST) = Ok r ->
        status_code r < 400 ->
        json r = Some (JArr []) ->
        fst (Project.most_recent_version (versions_by_project api_server new_Version)
               (EvergreenApi net) project log)
        = Ok None).
Proof.
  rewrite most_recent_version_eq. split; [reflexivity |]. cbn [fst]. split.
  - intros r item items Hnet Hs Hj.
    rewrite (attempt_outcome_below_400 net _ _ r Hnet Hs). cbn [rbind].
    unfold response_json. rewrite Hj. reflexivity.
  - intros r Hnet Hs Hj.
    rewrite (attempt_outcome_below_400 net _ _ r Hnet Hs). cbn [rbind].
    unfold response_json. rewrite Hj. reflexivity.
Qed.

(** ** Entities *)

(** X15.  The score of the status of a task: [SUCCESS] exactly for the
    status ["success"]; [UNDISPATCHED] exactly for the status
    ["undispatched"], whatever its details say; otherwise [FAILURE_TIMEOUT]
    when the details say it timed out, a system failure that timed out
    included; otherwise [FAILURE_SYSTEM] when the details are of the type
    ["system"]; and [FAILURE] in every other case. *)
Theorem status_score_classification (task : Task.t) :
  (Task.get_status_score task = StatusScore.SUCCESS <-> Task.status task = "success")
  /\ (Task.get_status_score task = StatusScore.UNDISPATCHED
      <-> Task.status task = "undispatched")
  /\ (Task.get_status_score task = StatusScore.FAILURE_TIMEOUT
      <-> Task.status task <> "success" /\ Task.status task <> "undispatched"
          /\ StatusDetails.timed_out (Task.status_details task) = true)
  /\ (Task.get_status_score task = StatusScore.FAILURE_SYSTEM
      <-> Task.status task <> "success" /\ Task.status task <> "undispatched"
          /\ StatusDetails.timed_out (Task.status_details task) = false
          /\ StatusDetails.type (Task.status_details task) = "system")
  /\ (Task.get_status_score task = StatusScore.FAILURE
      <-> Task.status task <> "success" /\ Task.status task <> "undispatched"
          /\ StatusDetails.timed_out (Task.status_details task) = false
          /\ StatusDetails.type (Task.status_details task) <> "system").
Proof.
  unfold Task.get_status_score, Task.get_task_status_score, Task.is_timeout,
    Task.is_system_failure, Task.is_success, Task.is_undispatched,
    Task.EVG_SUCCESS_STATUS, Task.EVG_UNDISPATCHED_STATUS, Task.EVG_SYSTEM_FAILURE_STATUS,
    Truthy.str.
  destruct (String.eqb_spec (Task.status task) "success") as [Hs | Hs].
  - rewrite Hs. cbn. repeat split; intros; try discriminate; intuition congruence.
  - destruct (String.eqb_spec (Task.status task) "undispatched") as [Hu | Hu].
    + repeat split; intros; try discriminate; intuition congruence.
    + cbn [negb andb].
      destruct (StatusDetails.timed_out (Task.status_details task)).
      * repeat split; intros; try discriminate; intuition congruence.
      * destruct (String.eqb_spec (StatusDetails.type (Task.status_details task)) "system")
          as [Ht | Ht].
        -- rewrite Ht. cbn. repeat split; intros; try discriminate; intuition congruence.
        -- destruct (negb _); repeat split; intros; try discriminate; intuition congruence.
Qed.

Lemma dict_comprehension_snoc {A V} (key : A -> string) (value : A -> V)
    (items : list A) (x : A) :
  dict_comprehension key value (items ++ [x])
  = <[key x := value x]> (dict_comprehension key value items).
Proof. unfold dict_comprehension. now rewrite foldl_app. Qed.

(** A dict comprehension keeps, for a key, the value of the last item with
    that key. *)
Lemma dict_comprehension_lookup {A V} (key : A -> string) (value : A -> V)
    (items : list A) (k : string) :
  dict_comprehension key value items !! k = value <$> last (with_key key k items).
Proof.
  induction items as [| x items IH] using rev_ind.
  - unfold dict_comprehension. cbn. apply lookup_empty.
  - rewrite dict_comprehension_snoc. unfold with_key in *. rewrite List.filter_app.
    cbn [List.filter]. destruct (String.eqb_spec (key x) k) as [Hk | Hk].
    + rewrite Hk, lookup_insert_eq, last_snoc. reflexivity.
    + rewrite lookup_insert_ne by exact Hk. now rewrite app_nil_r.
Qed.

Lemma with_key_in {A} (key : A -> string) (k : string) (items : list A) :
  with_key key k items <> [] <-> In k (map key items).
Proof.
  unfold with_key. induction items as [| x items IH]; cbn; [tauto |].
  destruct (String.eqb_spec (key x) k) as [Hk | Hk].
  - split; [now left | discriminate].
  - split.
    + intros Hne. right. now apply IH.
    + intros [Heq | Hin]; [congruence | now apply IH].
Qed.

Lemma dict_comprehension_size {A V} (key : A -> string) (value : A -> V)
    (items : list A) :
  (size (dict_comprehension key value items) <= List.length items)%nat.
Proof.
  induction items as [| x items IH] using rev_ind.
  - unfold dict_comprehension. cbn. now rewrite map_size_empty.
  - rewrite dict_comprehension_snoc, length_app. cbn [List.length].
    destruct (dict_comprehension key value items !! key x) as [v |] eqn:Hx.
    + rewrite map_size_insert_Some by (now exists v). lia.
    + rewrite map_size_insert_None by exact Hx. lia.
Qed.

(** X16.  The dict of the expansions of a distro gives, for a key, the value
    of the last expansion of the list with that key; it has a value for the
    keys of the expansions and for no other key, and so no more items than
    the distro has expansions. *)
Theorem distro_expansion_last_wins (distro : Distro.t) (k : string) :
  Distro.expansion distro !! k
  = DistroExpansion.value <$> last (with_key DistroExpansion.key k (Distro.expansions distro))
  /\ (is_Some (Distro.expansion distro !! k)
      <-> In k (map DistroExpansion.key (Distro.expansions distro)))
  /\ (size (Distro.expansion distro) <= List.length (Distro.expansions distro))%nat.
Proof.
  unfold Distro.expansion, Distro._expansion_map.
  rewrite dict_comprehension_lookup. split; [reflexivity |]. split.
  - rewrite <- with_key_in.
    destruct (with_key DistroExpansion.key k (Distro.expansions distro))
      as [| x l] eqn:Hl using rev_ind.
    + cbn. split; [intros [v Hv]; discriminate | congruence].
    + rewrite last_snoc. cbn. split; [intros _ Hnil; now destruct l | now eexists].
  - apply dict_comprehension_size.
Qed.

Lemma build_variants_map_lookup (version : Version.t) (build_variant : string) :
  Version._build_variants_map version !! build_variant
  = BuildVariantStatus.build_id <$> last (statuses_of_variant version build_variant).
Proof.
  unfold Version._build_variants_map, statuses_of_variant.
  destruct (Version.build_variants_status version) as [[| s l] |];
    [reflexivity | | reflexivity].
  cbn [Truthy.list]. apply dict_comprehension_lookup.
Qed.

(** X17.  [Version.build_by_variant] raises a [KeyError] without a request
    when the version has no status for the build variant (or no statuses at
    all); otherwise it is the lookup of the build of the last status of the
    list for that variant, and nothing else. *)
Theorem build_by_variant_lookup {Build : Type} (api_build_by_id : string -> Api Build)
    (version : Version.t) (build_variant : string) (log : list Request) :
  (statuses_of_variant version build_variant = [] ->
   Version.build_by_variant api_build_by_id version build_variant log = (Raise KeyError, log))
  /\ (forall s,
        last (statuses_of_variant version build_variant) = Some s ->
        Version.build_by_variant api_build_by_id version build_variant log
        = api_build_by_id (BuildVariantStatus.build_id s) log).
Proof.
  unfold Version.build_by_variant. rewrite build_variants_map_lookup. split.
  - now intros ->.
  - now intros s ->.
Qed.

Lemma patch_by_id_requests {Patch : Type} (api_server : string)
    (new_Patch : JSON -> Result Patch) (net : Network) (patch_id : string)
    (ps : option (gmap string JSON)) (log : list Request) :
  snd (patch_by_id api_server new_Patch (EvergreenApi net) patch_id ps log)
  = log ++ [mkRequest (_create_url api_server (String.append "/patches/" patch_id)) ps
              "GET" None].
Proof.
  unfold patch_by_id, bind, lift. cbn [_call_api EvergreenApi]. rewrite base_call_api_eq.
  destruct (attempt_outcome _ _ _) as [r | e |]; try reflexivity.
  now destruct (response_json r) as [j | e |].
Qed.

(** X18.  [Version.get_patch] looks for the patch of a version only when
    [is_patch] holds: otherwise it returns [None] without a request, and when
    it holds it issues the one request of the patch whose id is the id of the
    version.  A requester other than [UNKNOWN] decides [is_patch] alone (the
    three patch requesters are patches, the others are not); without one, a
    version is a patch when its id does not start with the name of the
    project, "-" turned into "_". *)
Theorem get_patch_only_for_patches {Patch : Type} (api_server : string)
    (new_Patch : JSON -> Result Patch) (net : Network) (version : Version.t)
    (log : list Request) :
  (Version.is_patch version = false ->
   forall api_patch_by_id : string -> option (gmap string JSON) -> Api Patch,
     Version.get_patch api_patch_by_id version log = (Ok None, log))
  /\ (Version.is_patch version = true ->
      snd (Version.get_patch (patch_by_id api_server new_Patch (EvergreenApi net))
             version log)
      = log ++ [mkRequest
                  (_create_url api_server
                     (String.append "/patches/" (Version.version_id version)))
                  None "GET" None])
  /\ (forall r, Version.requester version = Some r -> r <> Requester.UNKNOWN ->
        (Version.is_patch version = true <-> In r Requester.PATCH_REQUESTERS))
  /\ (Version.requester version = None \/ Version.requester version = Some Requester.UNKNOWN ->
      Version.is_patch version
      = negb (PyStr.startswith (Version.version_id version)
                (PyStr.replace (Version.project version) "-" "_"))).
Proof.
  split; [| split; [| split]].
  - intros Hp api_patch_by_id. unfold Version.get_patch. now rewrite Hp.
  - intros Hp. unfold Version.get_patch. rewrite Hp. rewrite snd_bind_ret.
    apply patch_by_id_requests.
  - intros r Hr Hu. unfold Version.is_patch. rewrite Hr.
    destruct r; try congruence; cbn; intuition discriminate.
  - unfold Version.is_patch, Version.named_as_patch. now intros [-> | ->].
Qed.

Lemma base_call_api_chain (net : Network) (url : string)
    (ps : option (gmap string JSON)) (log : list Request) (first : list JSON)
    (rest : list (list JSON)) :
  chain net (List.length log) (mkRequest url ps "GET" None) (first :: rest) ->
  exists r,
    _call_api (EvergreenApi net) url ps "GET" None log
    = (Ok r, log ++ [mkRequest url ps "GET" None])
    /\ json r = Some (JArr first).
Proof.
  intros Hchain. inversion Hchain as [r items rest' Hnet Hs Hj Hf Heq]; subst items rest'.
  exists r. split; [| exact Hj]. now apply base_answers.
Qed.

(** X19.  [tasks_by_project_and_commit] reads the first page only: on a
    chain of pages it issues one request and returns the tasks of the items
    of the first page, the "next" link of that page being left alone. *)
Theorem tasks_by_project_and_commit_first_page_only {Task : Type} (api_server : string)
    (new_Task : JSON -> Result Task) (net : Network) (project_id commit_hash : string)
    (ps : option (gmap string JSON)) (log : list Request) (first : list JSON)
    (rest : list (list JSON)) :
  chain net (List.length log)
    (mkRequest
       (_create_url api_server
          (String.append "/projects/"
             (String.append project_id
                (String.append "/revisions/" (String.append commit_hash "/tasks")))))
       ps "GET" None) (first :: rest) ->
  tasks_by_project_and_commit api_server new_Task (EvergreenApi net) project_id commit_hash
    ps log
  = (construct_each new_Task first,
     log ++ [mkRequest
               (_create_url api_server
                  (String.append "/projects/"
                     (String.append project_id
                        (String.append "/revisions/" (String.append commit_hash "/tasks")))))
               ps "GET" None]).
Proof.
  intros Hchain. destruct (base_call_api_chain net _ ps log first rest Hchain)
    as (r & Hcall & Hj).
  unfold tasks_by_project_and_commit. unfold bind at 1. rewrite Hcall.
  unfold bind, lift, response_json. now rewrite Hj.
Qed.

(** X20.  [tests_by_task] sends its parameters with the first request only,
    and they name an execution only when it is other than 0 and a status only
    when it is not empty.  So [Task.get_tests] on a task at execution 0 names
    no execution. *)
Theorem tests_by_task_leaves_out_execution_zero {Tst : Type} (api_server : string)
    (new_Tst : JSON -> Result Tst) (self : Self) (fuel : nat) (task_id : string)
    (status : option string) (execution : option Z) (log : list Request) :
  issues_own_request self ->
  (exists (p : gmap string JSON) (k : nat) (rest : list Request),
      snd (tests_by_task api_server new_Tst self fuel task_id status execution log)
      = log ++ repeat (mkRequest
                         (_create_url api_server
                            (String.append "/tasks/" (String.append task_id "/tests")))
                         (Some p) "GET" None) k ++ rest
      /\ Forall follows_link rest
      /\ (forall v, p !! "execution" = Some v ->
            exists e, v = JNum e /\ e <> 0 /\ execution = Some e)
      /\ (forall v, p !! "status" = Some v ->
            exists s, v = JStr s /\ s <> "" /\ status = Some s))
  /\ (forall task : Task.t,
        Task.execution task = 0 ->
        Task.get_tests (tests_by_task api_server new_Tst self fuel) task status None
        = tests_by_task api_server new_Tst self fuel (Task.task_id task) status None).
Proof.
  intros Hown. split.
  - unfold tests_by_task.
    match goal with
    | |- context [_paginate self fuel ?u (Some ?p)] =>
        exists p; destruct (paginate_requests self fuel u (Some p) log Hown)
          as (k & rest & Hsnd & Hrest)
    end.
    exists k, rest. split; [| split; [exact Hrest |]].
    + unfold bind at 1.
      destruct (_paginate self fuel _ _ log) as [[j | e |] log']; cbn [snd] in *;
        subst log'; reflexivity.
    + split.
      * intros v. unfold Params.set_int.
        destruct execution as [e |].
        -- destruct (Truthy.int e) eqn:He.
           ++ rewrite lookup_insert_eq. intros [= <-]. exists e.
              apply negb_true_iff, Z.eqb_neq in He. auto.
           ++ unfold Params.set_str. destruct status as [s |];
                [destruct (Truthy.str s) |]; rewrite ?lookup_insert_ne by discriminate;
                rewrite lookup_empty; discriminate.
        -- unfold Params.set_str. destruct status as [s |];
             [destruct (Truthy.str s) |]; rewrite ?lookup_insert_ne by discriminate;
             rewrite lookup_empty; discriminate.
      * intros v. unfold Params.set_int.
        assert (Hs : Params.set_str "status" status (∅ : gmap string JSON) !! "status"
                     = Some v ->
                     exists s, v = JStr s /\ s <> "" /\ status = Some s).
        { unfold Params.set_str. destruct status as [s |];
            [destruct (Truthy.str s) eqn:Hs |]; rewrite ?lookup_empty; try discriminate.
          rewrite lookup_insert_eq. intros [= <-]. exists s.
          apply negb_true_iff, String.eqb_neq in Hs. auto. }
        destruct execution as [e |]; [destruct (Truthy.int e) |]; try exact Hs.
        rewrite lookup_insert_ne by discriminate. exact Hs.
  - intros task He. unfold Task.get_tests. now rewrite He.
Qed.

Lemma find_execution_found (new_Task : JSON -> Result Task.t) (execution : Z)
    (raws : list JSON) (found : Task.t) :
  Task.find_execution new_Task execution raws = Ok (Some found) ->
  exists before raw after,
    raws = before ++ raw :: after
    /\ Forall (is_other_execution execution) before
    /\ is_execution execution raw
    /\ new_Task raw = Ok found.
Proof.
  induction raws as [| raw raws IH]; cbn; [discriminate |].
  destruct (Dict.get raw "execution") as [e | err |] eqn:He; cbn [rbind]; try discriminate.
  destruct (PyCmp.eq e (JNum execution)) eqn:Heq.
  - destruct (new_Task raw) as [t | err |] eqn:Hnew; cbn [rbind]; try discriminate.
    intros [= ->]. exists [], raw, raws. split; [reflexivity |].
    split; [constructor |]. split; [now exists e | exact Hnew].
  - intros Hrest. destruct (IH Hrest) as (before & raw' & after & -> & Hb & Hr & Hn).
    exists (raw :: before), raw', after. split; [reflexivity |].
    split; [constructor; [now exists e | exact Hb] |]. now split.
Qed.

Lemma find_execution_none (new_Task : JSON -> Result Task.t) (execution : Z)
    (raws : list JSON) :
  Task.find_execution new_Task execution raws = Ok None ->
  Forall (is_other_execution execution) raws.
Proof.
  induction raws as [| raw raws IH]; cbn; [constructor |].
  destruct (Dict.get raw "execution") as [e | err |] eqn:He; cbn [rbind]; try discriminate.
  destruct (PyCmp.eq e (JNum execution)) eqn:Heq.
  - destruct (new_Task raw) as [t | err |]; cbn [rbind]; discriminate.
  - intros Hrest. constructor; [now exists e | now apply IH].
Qed.

(** X21.  [Task.get_execution] is a search: for the execution of the task
    itself it returns the task without a look at the previous executions;
    otherwise it returns the task of the first previous execution with that
    number, all those before it having another number, or [None] when every
    previous execution has another number.  [get_execution_or_self] returns
    the task itself in that last case. *)
Theorem get_execution_finds_first (new_Task : JSON -> Result Task.t) (task : Task.t)
    (execution : Z) :
  (Task.execution task = execution ->
   Task.get_execution new_Task task execution = Ok (Some task))
  /\ (Task.execution task <> execution ->
      forall found,
        Task.get_execution new_Task task execution = Ok (Some found) ->
        exists before raw after,
          Py.iter (previous_executions_of task) = Ok (before ++ raw :: after)
          /\ Forall (is_other_execution execution) before
          /\ is_execution execution raw
          /\ new_Task raw = Ok found)
  /\ (Task.get_execution new_Task task execution = Ok None ->
      Task.execution task <> execution
      /\ exists raws,
           Py.iter (previous_executions_of task) = Ok raws
           /\ Forall (is_other_execution execution) raws)
  /\ (Task.get_execution new_Task task execution = Ok None ->
      Task.get_execution_or_self new_Task task execution = Ok task).
Proof.
  unfold Task.get_execution_or_self, Task.get_execution.
  fold (previous_executions_of task).
  destruct (Z.eqb_spec (Task.execution task) execution) as [He | He].
  - split; [reflexivity |]. split; [congruence |]. split; discriminate.
  - split; [congruence |]. split; [| split].
    + intros _ found.
      destruct (Py.iter (previous_executions_of task)) as [raws | e |]; cbn [rbind];
        try discriminate.
      intros Hfound. destruct (find_execution_found _ _ _ _ Hfound)
        as (before & raw & after & -> & Hrest).
      now exists before, raw, after.
    + destruct (Py.iter (previous_executions_of task)) as [raws | e |]; cbn [rbind];
        try discriminate.
      intros Hnone. split; [exact He |]. exists raws. split; [reflexivity |].
      now apply find_execution_none in Hnone.
    + now intros ->.
Qed.

Lemma task_by_id_all_executions (api_server : string) (new_Task : JSON -> Result Task.t)
    (net : Network) (task_id : string) (log : list Request) :
  snd (task_by_id api_server new_Task (EvergreenApi net) task_id (Some true) log)
  = log ++ [execution_task_request api_server task_id].
Proof.
  unfold task_by_id, execution_task_request, bind, lift.
  cbn [_call_api EvergreenApi]. rewrite base_call_api_eq.
  destruct (attempt_outcome _ _ _) as [r | e |]; try reflexivity.
  now destruct (response_json r) as [j | e |].
Qed.

Lemma fetch_each_requests (api_server : string) (new_Task : JSON -> Result Task.t)
    (net : Network) (ids : list string) (log : list Request) :
  exists n : nat,
    (n <= List.length ids)%nat
    /\ snd (Task.fetch_each (task_by_id api_server new_Task (EvergreenApi net)) ids log)
       = log ++ map (execution_task_request api_server) (take n ids)
    /\ (forall tasks,
          fst (Task.fetch_each (task_by_id api_server new_Task (EvergreenApi net)) ids log)
          = Ok tasks ->
          n = List.length ids /\ List.length tasks = List.length ids).
Proof.
  revert log. induction ids as [| task_id ids IH]; intros log.
  - exists 0%nat. cbn. rewrite app_nil_r. split; [lia |]. split; [reflexivity |].
    now intros tasks [= <-].
  - cbn [Task.fetch_each]. unfold bind, ret.
    pose proof (task_by_id_all_executions api_server new_Task net task_id log) as Hone.
    destruct (task_by_id api_server new_Task (EvergreenApi net) task_id (Some true) log)
      as [[task | e |] log1]; cbn [snd] in Hone; subst log1.
    + destruct (IH (log ++ [execution_task_request api_server task_id]))
        as (n & Hn & Hsnd & Hok).
      exists (S n). split; [cbn; lia |].
      destruct (Task.fetch_each _ ids _) as [[l | e |] log2]; cbn [fst snd] in *;
        subst log2; rewrite <- app_assoc; (split; [reflexivity |]); try discriminate.
      intros tasks [= <-]. destruct (Hok l eq_refl) as [-> Hlen].
      cbn [List.length]. auto.
    + exists 1%nat. split; [cbn; lia |].
      split; [cbn; now rewrite take_0 | discriminate].
    + exists 1%nat. split; [cbn; lia |].
      split; [cbn; now rewrite take_0 | discriminate].
Qed.

Lemma executions_or_selves_length (new_Task : JSON -> Result Task.t) (execution : Z)
    (tasks found : list Task.t) :
  Task.executions_or_selves new_Task execution tasks = Ok found ->
  List.length found = List.length tasks.
Proof.
  revert found. induction tasks as [| task tasks IH]; intros found; cbn.
  - now intros [= <-].
  - destruct (Task.get_execution_or_self new_Task task execution) as [t | e |];
      cbn [rbind]; try discriminate.
    destruct (Task.executions_or_selves new_Task execution tasks) as [l | e |];
      cbn [rbind]; try discriminate.
    intros [= <-]. cbn. now rewrite (IH l).
Qed.

Lemma filter_tasks_length (filter_fn : Task.t -> Result bool) (tasks kept : list Task.t) :
  Task.filter_tasks filter_fn tasks = Ok kept ->
  (List.length kept <= List.length tasks)%nat.
Proof.
  revert kept. induction tasks as [| task tasks IH]; intros kept; cbn.
  - intros [= <-]. cbn. lia.
  - destruct (filter_fn task) as [keep | e |]; cbn [rbind]; try discriminate.
    destruct (Task.filter_tasks filter_fn tasks) as [l | e |]; cbn [rbind];
      try discriminate.
    intros [= <-]. specialize (IH l eq_refl). destruct keep; cbn; lia.
Qed.

Lemma fetched_in_turn_fetch_each (api_task_by_id : string -> option bool -> Api Task.t)
    (log : list Request) (ids : list string) (tasks : list Task.t) (log' : list Request) :
  fetched_in_turn api_task_by_id log ids tasks log' ->
  Task.fetch_each api_task_by_id ids log = (Ok tasks, log').
Proof.
  induction 1 as [log | log task_id task log1 ids tasks log' Hone Hrest IH];
    [reflexivity |].
  cbn [Task.fetch_each]. unfold bind at 1. rewrite Hone.
  unfold bind at 1. now rewrite IH.
Qed.

Lemma fetched_in_turn_failure (api_task_by_id : string -> option bool -> Api Task.t)
    (log : list Request) (before : list string) (tasks : list Task.t)
    (log' : list Request) (bad : string) (after : list string) (e : Exn)
    (log'' : list Request) :
  fetched_in_turn api_task_by_id log before tasks log' ->
  api_task_by_id bad (Some true) log' = (Raise e, log'') ->
  Task.fetch_each api_task_by_id (before ++ bad :: after) log = (Raise e, log'').
Proof.
  intros Hbefore Hbad.
  induction Hbefore as [log | log task_id task log1 ids tasks log' Hone Hrest IH].
  - cbn [app Task.fetch_each]. unfold bind at 1. now rewrite Hbad.
  - cbn [app Task.fetch_each]. unfold bind at 1. rewrite Hone.
    unfold bind at 1. now rewrite (IH Hbad).
Qed.

Lemma fetched_in_turn_requests (api_server : string) (new_Task : JSON -> Result Task.t)
    (net : Network) (log : list Request) (ids : list string) (tasks : list Task.t)
    (log' : list Request) :
  fetched_in_turn (task_by_id api_server new_Task (EvergreenApi net)) log ids tasks log' ->
  log' = log ++ map (execution_task_request api_server) ids.
Proof.
  induction 1 as [log | log task_id task log1 ids tasks log' Hone Hrest IH].
  - cbn. now rewrite app_nil_r.
  - pose proof (task_by_id_all_executions api_server new_Task net task_id log) as Hreq.
    rewrite Hone in Hreq. cbn [snd] in Hreq. subst log1.
    rewrite IH, <- app_assoc. reflexivity.
Qed.

(** X22.  For a task that is not a display task [Task.get_execution_tasks]
    returns [None] without a request, and for a display task without
    execution tasks the empty list without a request.  Otherwise it looks up
    the execution tasks in the order of their ids, each with all its
    executions, one request each:
    - when every lookup returns, the log is one request per id, and the
      result is the execution of the display task (or the task itself) for
      each task found, filtered by [filter_fn] if there is one;
    - when the lookups of the ids [before] return and the lookup of the next
      id [bad] fails, that failure is raised after the requests of [before]
      and of [bad], and no id after [bad] is asked for;
    - so when it returns a list, every id has been asked for, once and in
      order, and the list has at most one task per id. *)
Theorem get_execution_tasks_requests (api_server : string)
    (new_Task : JSON -> Result Task.t) (net : Network) (task : Task.t)
    (filter_fn : option (Task.t -> Result bool)) (log : list Request) :
  (Task.display_only task = false ->
   Task.get_execution_tasks new_Task (task_by_id api_server new_Task (EvergreenApi net))
     task filter_fn log = (Ok None, log))
  /\ (Task.display_only task = true -> execution_task_ids task = [] ->
      Task.get_execution_tasks new_Task (task_by_id api_server new_Task (EvergreenApi net))
        task filter_fn log = (Ok (Some []), log))
  /\ (Task.display_only task = true ->
      forall (tasks : list Task.t) (log' : list Request),
        fetched_in_turn (task_by_id api_server new_Task (EvergreenApi net)) log
          (execution_task_ids task) tasks log' ->
        log' = log ++ map (execution_task_request api_server) (execution_task_ids task)
        /\ Task.get_execution_tasks new_Task
             (task_by_id api_server new_Task (EvergreenApi net)) task filter_fn log
           = (rbind (Task.executions_or_selves new_Task (Task.execution task) tasks)
                (fun found =>
                   match filter_fn with
                   | Some f => rbind (Task.filter_tasks f found) (fun kept => Ok (Some kept))
                   | None => Ok (Some found)
                   end),
              log'))
  /\ (Task.display_only task = true ->
      forall (before : list string) (bad : string) (after : list string)
             (tasks : list Task.t) (log' : list Request) (e : Exn),
        execution_task_ids task = before ++ bad :: after ->
        fetched_in_turn (task_by_id api_server new_Task (EvergreenApi net)) log
          before tasks log' ->
        fst (task_by_id api_server new_Task (EvergreenApi net) bad (Some true) log')
        = Raise e ->
        Task.get_execution_tasks new_Task
          (task_by_id api_server new_Task (EvergreenApi net)) task filter_fn log
        = (Raise e, log ++ map (execution_task_request api_server) (before ++ [bad])))
  /\ (Task.display_only task = true ->
      forall tasks : list Task.t,
        fst (Task.get_execution_tasks new_Task
               (task_by_id api_server new_Task (EvergreenApi net)) task filter_fn log)
        = Ok (Some tasks) ->
        snd (Task.get_execution_tasks new_Task
               (task_by_id api_server new_Task (EvergreenApi net)) task filter_fn log)
        = log ++ map (execution_task_request api_server) (execution_task_ids task)
        /\ (List.length tasks <= List.length (execution_task_ids task))%nat).
Proof.
  unfold Task.get_execution_tasks, execution_task_ids.
  split; [| split; [| split; [| split]]].
  - now intros ->.
  - intros -> Hids. destruct (Task.execution_tasks task) as [[| id ids] |];
      [reflexivity | discriminate | reflexivity].
  - intros -> tasks log' Hfetched.
    split; [exact (fetched_in_turn_requests _ _ _ _ _ _ _ Hfetched) |].
    apply fetched_in_turn_fetch_each in Hfetched.
    destruct (Task.execution_tasks task) as [[| id ids] |].
    + injection Hfetched as <- <-. now destruct filter_fn.
    + unfold bind at 1. rewrite Hfetched. unfold bind, lift, ret.
      destruct (Task.executions_or_selves new_Task (Task.execution task) tasks)
        as [found | e |]; cbn [rbind]; try reflexivity.
      destruct filter_fn as [f |]; [| reflexivity].
      now destruct (Task.filter_tasks f found).
    + injection Hfetched as <- <-. now destruct filter_fn.
  - intros -> before bad after tasks log' e Hids Hbefore Hbad.
    pose proof (fetched_in_turn_requests _ _ _ _ _ _ _ Hbefore) as Hlog.
    pose proof (task_by_id_all_executions api_server new_Task net bad log') as Hreq.
    destruct (task_by_id api_server new_Task (EvergreenApi net) bad (Some true) log')
      as [o log''] eqn:Hone. cbn [fst snd] in Hbad, Hreq. subst o log''.
    pose proof (fetched_in_turn_failure _ _ _ _ _ _ after _ _ Hbefore Hone) as Hfail.
    destruct (Task.execution_tasks task) as [[| id ids] |];
      [now destruct before | | now destruct before].
    rewrite Hids. unfold bind at 1. rewrite Hfail.
    rewrite Hlog, map_app, <- app_assoc. reflexivity.
  - intros -> tasks. destruct (Task.execution_tasks task) as [[| id ids] |].
    + intros [= <-]. cbn. rewrite app_nil_r. split; [reflexivity | lia].
    + destruct (fetch_each_requests api_server new_Task net (id :: ids) log)
        as (n & Hn & Hsnd & Hok).
      unfold bind, lift, ret.
      destruct (Task.fetch_each _ (id :: ids) log) as [[fetched | e |] log1];
        cbn [snd fst] in *; subst log1; try discriminate.
      destruct (Hok fetched eq_refl) as [-> Hlen]. rewrite firstn_all.
      destruct (Task.executions_or_selves new_Task (Task.execution task) fetched)
        as [found | e |] eqn:Hfound; try discriminate.
      apply executions_or_selves_length in Hfound.
      destruct filter_fn as [f |].
      * destruct (Task.filter_tasks f found) as [kept | e |] eqn:Hkept; try discriminate.
        apply filter_tasks_length in Hkept.
        intros [= <-]. split; [reflexivity | lia].
      * intros [= <-]. split; [reflexivity | lia].
    + intros [= <-]. cbn. rewrite app_nil_r. split; [reflexivity | lia].
Qed.

(** ** Performance results *)

Lemma digit_keys_ok (isdigit : string -> bool) (int : string -> Result Z)
    (keys : list string) (numbers : list Z) :
  Forall2 (fun key n => int key = Ok n) (List.filter isdigit keys) numbers ->
  PerformanceResults.digit_keys isdigit int keys = Ok numbers.
Proof.
  revert numbers. induction keys as [| key keys IH]; intros numbers Hall; cbn in *.
  - now inversion Hall.
  - destruct (isdigit key); [| now apply IH].
    inversion Hall as [| k n ks ns Hk Hrest]; subst. rewrite Hk. cbn [rbind].
    now rewrite (IH ns Hrest).
Qed.

Lemma digit_keys_numbers (isdigit : string -> bool) (int : string -> Result Z)
    (keys : list string) (numbers : list Z) :
  PerformanceResults.digit_keys isdigit int keys = Ok numbers ->
  Forall2 (fun key n => int key = Ok n) (List.filter isdigit keys) numbers.
Proof.
  revert numbers. induction keys as [| key keys IH]; intros numbers; cbn.
  - intros [= <-]. constructor.
  - destruct (isdigit key); [| now apply IH].
    destruct (int key) as [n | e |] eqn:Hn; cbn [rbind]; try discriminate.
    destruct (PerformanceResults.digit_keys isdigit int keys) as [l | e |];
      cbn [rbind]; try discriminate.
    intros [= <-]. constructor; [exact Hn | now apply IH].
Qed.

Lemma digit_keys_raise (isdigit : string -> bool) (int : string -> Result Z)
    (before : list string) (key : string) (after : list string) (e : Exn) :
  Forall (fun k => isdigit k = true -> exists n, int k = Ok n) before ->
  isdigit key = true -> int key = Raise e ->
  PerformanceResults.digit_keys isdigit int (before ++ key :: after) = Raise e.
Proof.
  intros Hbefore Hdigit Hraise.
  induction before as [| k before IH]; cbn.
  - now rewrite Hdigit, Hraise.
  - apply Forall_cons in Hbefore as [Hk Hbefore].
    destruct (isdigit k); [| now apply IH].
    destruct (Hk eq_refl) as (n & Hn). rewrite Hn. cbn [rbind].
    now rewrite (IH Hbefore).
Qed.

Lemma Forall2_in_left {A B} (P : A -> B -> Prop) (l : list A) (l' : list B) (x : A) :
  Forall2 P l l' -> In x l -> exists y, In y l' /\ P x y.
Proof.
  induction 1 as [| a b l l' Hab Hrest IH]; [intros [] |].
  intros [<- | Hin].
  - exists b. split; [now left | exact Hab].
  - destruct (IH Hin) as (y & Hy & Hxy). exists y. split; [now right | exact Hxy].
Qed.

(** X23.  [_thread_levels_from_results] reads the keys [isdigit] holds of as
    numbers and returns these numbers written by [str], in ascending order of
    the numbers (2 before 16); the other keys are left out.  It returns when
    [int] reads every such key, and only then: at the first such key that
    [int] rejects, it raises what [int] raises. *)
Theorem thread_levels_ascending (isdigit : string -> bool) (int : string -> Result Z)
    (str : Z -> string) (results : list (string * JSON)) :
  (forall numbers,
      Forall2 (fun key n => int key = Ok n) (List.filter isdigit (map fst results)) numbers ->
      exists sorted,
        PerformanceResults._thread_levels_from_results isdigit int str results
        = Ok (map str sorted)
        /\ Sorted Z.le sorted
        /\ sorted ≡ₚ numbers)
  /\ (forall thread_levels,
        PerformanceResults._thread_levels_from_results isdigit int str results
        = Ok thread_levels ->
        exists numbers,
          Forall2 (fun key n => int key = Ok n) (List.filter isdigit (map fst results))
            numbers)
  /\ (forall before key after e,
        map fst results = before ++ key :: after ->
        Forall (fun k => isdigit k = true -> exists n, int k = Ok n) before ->
        isdigit key = true -> int key = Raise e ->
        PerformanceResults._thread_levels_from_results isdigit int str results = Raise e).
Proof.
  unfold PerformanceResults._thread_levels_from_results. split; [| split].
  - intros numbers Hall. exists (merge_sort Z.le numbers).
    rewrite (digit_keys_ok _ _ _ _ Hall). cbn [rbind].
    split; [reflexivity |]. split; [| apply merge_sort_Permutation].
    apply Sorted_merge_sort. apply _.
  - intros thread_levels.
    destruct (PerformanceResults.digit_keys isdigit int (map fst results))
      as [numbers | e |] eqn:Hkeys; cbn [rbind]; try discriminate.
    intros _. exists numbers. now apply digit_keys_numbers.
  - intros before key after e Hkeys Hbefore Hdigit Hraise.
    now rewrite Hkeys, (digit_keys_raise _ _ _ _ after _ Hbefore Hdigit Hraise).
Qed.

Lemma formatted_entry_ok (thread_level : string) (thread_results : JSON)
    (measurement : string) (formatted : JSON) :
  PerformanceResults.formatted_entry thread_level thread_results measurement = Ok formatted ->
  exists mean_value recorded_values,
    Py.getitem thread_results measurement = Ok mean_value
    /\ Py.getitem thread_results (String.append measurement "_values") = Ok recorded_values
    /\ formatted = JObj [("thread_level", JStr thread_level);
                         ("mean_value", mean_value);
                         ("recorded_values", recorded_values);
                         ("measurement", JStr measurement)].
Proof.
  unfold PerformanceResults.formatted_entry.
  destruct (Py.getitem thread_results measurement) as [mean_value | e |]; cbn [rbind];
    try discriminate.
  destruct (Py.getitem thread_results _) as [recorded_values | e |]; cbn [rbind];
    try discriminate.
  intros [= <-]. now exists mean_value, recorded_values.
Qed.

Lemma record_measurement_formatted (lt : JSON -> JSON -> Result bool)
    (thread_level : string) (thread_results : JSON)
    (state state' : list JSON * list (string * JSON)) (measurement : string) :
  PerformanceResults.record_measurement lt thread_level thread_results state measurement
  = Ok state' ->
  exists formatted,
    PerformanceResults.formatted_entry thread_level thread_results measurement = Ok formatted
    /\ fst state' = fst state ++ [formatted].
Proof.
  unfold PerformanceResults.record_measurement.
  destruct (PerformanceResults.formatted_entry _ _ _) as [formatted | e |]; cbn [rbind];
    try discriminate.
  destruct (Py.getitem (JObj _) measurement) as [current | e |]; cbn [rbind];
    try discriminate.
  destruct (PerformanceResults.is_new_maximum lt current formatted) as [[|] | e |];
    cbn [rbind]; try discriminate; intros [= <-]; now exists formatted.
Qed.

Lemma getitem_object (fields : list (string * JSON)) (key : string) (v : JSON) :
  Py.getitem (JObj fields) key = Ok v -> Py.assoc key fields = Some v.
Proof. cbn. destruct (Py.assoc key fields); [now intros [= ->] | discriminate]. Qed.

Lemma record_measurements_complete (lt : JSON -> JSON -> Result bool)
    (thread_level : string) (fields : list (string * JSON)) (measurements : list string) :
  forall state state',
  PerformanceResults.record_measurements lt thread_level (JObj fields) state measurements
  = Ok state' ->
  Forall (fun measurement =>
            is_Some (Py.assoc (String.append measurement "_values") fields)) measurements.
Proof.
  induction measurements as [| measurement rest IH]; intros state state'; cbn;
    [constructor |].
  destruct (PerformanceResults.record_measurement lt _ _ state measurement)
    as [state1 | e |] eqn:Hone; cbn [rbind]; try discriminate.
  intros Hrest. constructor; [| exact (IH _ _ Hrest)].
  destruct (record_measurement_formatted _ _ _ _ _ _ Hone) as (formatted & Hf & _).
  destruct (formatted_entry_ok _ _ _ _ Hf) as (mean_value & recorded & _ & Hv & _).
  apply getitem_object in Hv. now rewrite Hv.
Qed.

Lemma format_thread_levels_complete (lt : JSON -> JSON -> Result bool)
    (results : list (string * JSON)) (thread_levels : list string) :
  forall state state',
  PerformanceResults.format_thread_levels lt results state thread_levels = Ok state' ->
  Forall (thread_level_complete results) thread_levels.
Proof.
  induction thread_levels as [| thread_level rest IH]; intros state state'; cbn;
    [constructor |].
  destruct (Py.assoc thread_level results) as [thread_results |] eqn:Hlevel;
    cbn [rbind]; try discriminate.
  unfold PerformanceResults.measurement_names.
  destruct thread_results as [| b | n | s | l | fields]; cbn [PerformanceResults.keys rbind];
    try discriminate.
  destruct (PerformanceResults.record_measurements lt _ _ state _) as [state1 | e |] eqn:Hone;
    cbn [rbind]; try discriminate.
  intros Hrest. constructor; [| exact (IH _ _ Hrest)].
  exists fields. split; [exact Hlevel |]. intros measurement Hin Hsub.
  apply record_measurements_complete in Hone.
  rewrite List.Forall_forall in Hone. apply Hone.
  apply List.filter_In. split; [exact Hin | now rewrite Hsub].
Qed.

Lemma thread_level_of_key (isdigit : string -> bool) (int : string -> Result Z)
    (str : Z -> string) (results : list (string * JSON)) (thread_levels : list string)
    (key : string) :
  PerformanceResults._thread_levels_from_results isdigit int str results = Ok thread_levels ->
  In key (map fst results) -> isdigit key = true ->
  exists n, int key = Ok n /\ In (str n) thread_levels.
Proof.
  unfold PerformanceResults._thread_levels_from_results.
  destruct (PerformanceResults.digit_keys isdigit int (map fst results))
    as [numbers | e |] eqn:Hkeys; cbn [rbind]; try discriminate.
  intros [= <-] Hin Hdigit. apply digit_keys_numbers in Hkeys.
  destruct (Forall2_in_left _ _ _ key Hkeys) as (n & Hn & Hkey).
  { apply List.filter_In. auto. }
  exists n. split; [exact Hkey |]. apply List.in_map.
  eapply Permutation_in; [symmetry; apply merge_sort_Permutation | exact Hn].
Qed.

(** X24.  [_format_performance_results] returns only when the results are
    complete for every key [isdigit] holds of: [int] reads the key as a
    number, under that number written by [str] the results have a dict, and
    every key of that dict without "values" in it comes with its key of
    recorded values.  So a key that [int] and [str] do not give back as it is
    (["08"], read as 8 and written ["8"]) without a key for what they give, a
    thread level that is not a dict or a measurement without its recorded
    values make it raise. *)
Theorem format_performance_results_requirements (isdigit : string -> bool)
    (int : string -> Result Z) (str : Z -> string) (lt : JSON -> JSON -> Result bool)
    (results : list (string * JSON)) (out : list JSON) :
  PerformanceResults._format_performance_results isdigit int str lt results = Ok out ->
  forall key,
    In key (map fst results) -> isdigit key = true ->
    exists n, int key = Ok n /\ thread_level_complete results (str n).
Proof.
  unfold PerformanceResults._format_performance_results.
  destruct (PerformanceResults._thread_levels_from_results isdigit int str results)
    as [thread_levels | e |] eqn:Hlevels; cbn [rbind]; try discriminate.
  destruct (PerformanceResults.format_thread_levels lt results ([], []) thread_levels)
    as [state | e |] eqn:Hloop; cbn [rbind]; try discriminate.
  intros _ key Hin Hdigit.
  destruct (thread_level_of_key _ _ _ _ _ key Hlevels Hin Hdigit) as (n & Hn & Hlevel).
  exists n. split; [exact Hn |]. apply format_thread_levels_complete in Hloop.
  rewrite List.Forall_forall in Hloop. now apply Hloop.
Qed.

Lemma setitem_absent (key : string) (v : JSON) (d : list (string * JSON)) :
  Py.assoc key d = None -> Dict.setitem key v d = d ++ [(key, v)].
Proof.
  induction d as [| [k v'] d IH]; cbn; [reflexivity |].
  destruct (String.eqb k key); [discriminate |]. intros Hd. now rewrite IH.
Qed.

Lemma setitem_present (key : string) (v x : JSON) (d : list (string * JSON)) :
  Py.assoc key d = Some x -> map fst (Dict.setitem key v d) = map fst d.
Proof.
  induction d as [| [k v'] d IH]; cbn; [discriminate |].
  destruct (String.eqb k key); [reflexivity |]. intros Hd. cbn. now rewrite IH.
Qed.

Lemma setitem_twice (key : string) (v v' : JSON) (d : list (string * JSON)) :
  Dict.setitem key v (Dict.setitem key v' d) = Dict.setitem key v d.
Proof.
  induction d as [| [k x] d IH]; cbn.
  - now rewrite String.eqb_refl.
  - destruct (String.eqb k key) eqn:Hk; cbn; rewrite Hk; [reflexivity | now rewrite IH].
Qed.

Lemma assoc_setitem_eq (key : string) (v : JSON) (d : list (string * JSON)) :
  Py.assoc key (Dict.setitem key v d) = Some v.
Proof.
  induction d as [| [k x] d IH]; cbn.
  - now rewrite String.eqb_refl.
  - destruct (String.eqb k key) eqn:Hk; cbn; rewrite Hk; [reflexivity | exact IH].
Qed.

Lemma assoc_setitem_ne (key key' : string) (v : JSON) (d : list (string * JSON)) :
  key' <> key -> Py.assoc key' (Dict.setitem key v d) = Py.assoc key' d.
Proof.
  intros Hne. induction d as [| [k x] d IH]; cbn.
  - destruct (String.eqb_spec key key'); [congruence | reflexivity].
  - destruct (String.eqb_spec k key) as [-> | Hk]; cbn.
    + destruct (String.eqb_spec key key'); [congruence | reflexivity].
    + destruct (String.eqb k key'); [reflexivity | exact IH].
Qed.

Lemma in_setitem (key : string) (v : JSON) (d : list (string * JSON)) (k : string)
    (x : JSON) :
  In (k, x) (Dict.setitem key v d) -> (k = key /\ x = v) \/ In (k, x) d.
Proof.
  induction d as [| [k' x'] d IH]; cbn.
  - intros [[= <- <-] | []]. now left.
  - destruct (String.eqb_spec k' key) as [-> | Hk]; cbn.
    + intros [[= <- <-] | Hin]; [now left | right; now right].
    + intros [Heq | Hin]; [right; now left |].
      destruct (IH Hin) as [Hnew | Hold]; [now left | right; now right].
Qed.

Lemma assoc_in (key : string) (x : JSON) (d : list (string * JSON)) :
  Py.assoc key d = Some x -> In (key, x) d.
Proof.
  induction d as [| [k x'] d IH]; cbn; [discriminate |].
  destruct (String.eqb_spec k key) as [-> | Hk].
  - intros [= ->]. now left.
  - intros Hd. right. now apply IH.
Qed.

Lemma assoc_app_absent (key : string) (d d' : list (string * JSON)) :
  Py.assoc key d = None -> Py.assoc key (d ++ d') = Py.assoc key d'.
Proof.
  induction d as [| [k x] d IH]; cbn; [reflexivity |].
  destruct (String.eqb k key); [discriminate | exact IH].
Qed.

Lemma assoc_app_present (key : string) (x : JSON) (d d' : list (string * JSON)) :
  Py.assoc key d = Some x -> Py.assoc key (d ++ d') = Some x.
Proof.
  induction d as [| [k x'] d IH]; cbn; [discriminate |].
  destruct (String.eqb k key); [now intros [= ->] | exact IH].
Qed.

Lemma assoc_absent_keys (key : string) (d : list (string * JSON)) :
  Py.assoc key d = None -> key ∉ map fst d.
Proof.
  induction d as [| [k x] d IH]; cbn; [intros _; apply not_elem_of_nil |].
  destruct (String.eqb_spec k key) as [-> | Hk]; [discriminate |].
  intros Hd. apply not_elem_of_cons. split; [congruence | now apply IH].
Qed.

Lemma formatted_as_inj (l1 l2 m1 m2 : string) (v1 v2 r1 r2 : JSON) :
  formatted_as l1 m1 v1 r1 = formatted_as l2 m2 v2 r2 ->
  l1 = l2 /\ m1 = m2 /\ v1 = v2 /\ r1 = r2.
Proof. unfold formatted_as. intros [= -> -> -> ->]. auto. Qed.

(** One turn of the loop over the measurements keeps the invariant. *)
Lemma record_measurement_invariant (lt : JSON -> JSON -> Result bool)
    (thread_levels : list string) (thread_level : string)
    (thread_results : JSON) (state state' : list JSON * list (string * JSON))
    (measurement : string) :
  In thread_level thread_levels ->
  loop_invariant lt thread_levels state ->
  PerformanceResults.record_measurement lt thread_level thread_results state measurement
  = Ok state' ->
  loop_invariant lt thread_levels state'.
Proof.
  intros Hlevel (Hentries & Hnodup & Hformatted & Hcover & Hgreatest).
  destruct state as [entries maxima]. cbn [fst snd] in *.
  unfold PerformanceResults.record_measurement. cbn [fst snd].
  destruct (PerformanceResults.formatted_entry thread_level thread_results measurement)
    as [formatted | e |] eqn:Hf; cbn [rbind]; try discriminate.
  destruct (formatted_entry_ok _ _ _ _ Hf) as (mean_value & recorded & _ & _ & ->).
  fold (formatted_as thread_level measurement mean_value recorded).
  assert (Hentries' : entries_formatted thread_levels
                        (entries ++ [formatted_as thread_level measurement mean_value
                                       recorded])).
  { intros e Hin. apply in_app_or in Hin as [Hin | [<- | []]]; [now apply Hentries |].
    now exists thread_level, measurement, mean_value, recorded. }
  destruct (Py.assoc measurement maxima) as [x |] eqn:Hx.
  - (* the measurement has a greatest entry so far *)
    cbn [Py.getitem]. rewrite Hx. cbn [rbind].
    destruct (Hformatted _ _ (assoc_in _ _ _ Hx)) as (level0 & mean0 & recorded0 & Hin0 & ->).
    cbn [PerformanceResults.is_new_maximum formatted_as Py.getitem Py.assoc String.eqb
           Ascii.eqb Bool.eqb rbind].
    destruct (lt mean0 mean_value) as [[|] | e |] eqn:Hlt; cbn [rbind];
      try discriminate; intros [= <-]; unfold loop_invariant; cbn [fst snd].
    + (* a new greatest entry *)
      split; [exact Hentries' |]. split; [| split; [| split]].
      * now rewrite (setitem_present _ _ _ _ Hx).
      * intros m x Hin. apply in_setitem in Hin as [[-> ->] | Hin].
        -- exists thread_level, mean_value, recorded. split; [| reflexivity].
           apply in_or_app. right. now left.
        -- destruct (Hformatted _ _ Hin) as (l & v & r & Hl & ->).
           exists l, v, r. split; [| reflexivity]. apply in_or_app. now left.
      * intros l m v r Hin.
        destruct (String.eqb_spec m measurement) as [-> | Hm].
        -- exists mean_value, recorded. apply assoc_setitem_eq.
        -- rewrite assoc_setitem_ne by exact Hm.
           apply in_app_or in Hin as [Hin | [Heq | []]]; [exact (Hcover _ _ _ _ Hin) |].
           apply formatted_as_inj in Heq as (_ & <- & _). congruence.
      * intros Horder. specialize (Hgreatest Horder). destruct Horder as [Hirr Htrans].
        intros l m v r Hin.
        destruct (String.eqb_spec m measurement) as [-> | Hm].
        -- exists mean_value, recorded. split; [apply assoc_setitem_eq |].
           apply in_app_or in Hin as [Hin | [Heq | []]].
           ++ destruct (Hgreatest _ _ _ _ Hin) as (v' & r' & Hassoc & Hle).
              rewrite Hx in Hassoc. injection Hassoc as -> ->.
              intros Hgreater. apply Hle. exact (Htrans _ _ _ Hlt Hgreater).
           ++ apply formatted_as_inj in Heq as (_ & _ & <- & _). apply Hirr.
        -- rewrite assoc_setitem_ne by exact Hm.
           apply in_app_or in Hin as [Hin | [Heq | []]]; [exact (Hgreatest _ _ _ _ Hin) |].
           apply formatted_as_inj in Heq as (_ & <- & _). congruence.
    + (* the greatest entry stays *)
      split; [exact Hentries' |]. split; [exact Hnodup |]. split; [| split].
      * intros m x Hin. destruct (Hformatted _ _ Hin) as (l & v & r & Hl & ->).
        exists l, v, r. split; [| reflexivity]. apply in_or_app. now left.
      * intros l m v r Hin.
        apply in_app_or in Hin as [Hin | [Heq | []]]; [exact (Hcover _ _ _ _ Hin) |].
        apply formatted_as_inj in Heq as (_ & <- & _).
        exists mean0, recorded0. exact Hx.
      * intros Horder. specialize (Hgreatest Horder). intros l m v r Hin.
        apply in_app_or in Hin as [Hin | [Heq | []]]; [exact (Hgreatest _ _ _ _ Hin) |].
        apply formatted_as_inj in Heq as (_ & <- & <- & _).
        exists mean0, recorded0. split; [exact Hx |]. rewrite Hlt. discriminate.
  - (* the first entry of the measurement *)
    cbn [Py.getitem]. rewrite assoc_setitem_eq. cbn [rbind PerformanceResults.is_new_maximum].
    rewrite setitem_twice, (setitem_absent _ _ _ Hx).
    intros [= <-]. unfold loop_invariant. cbn [fst snd].
    split; [exact Hentries' |]. split; [| split; [| split]].
    + rewrite map_app. cbn [map fst]. apply NoDup_app. split; [exact Hnodup |].
      split; [| apply NoDup_singleton].
      intros k Hk Hk'. apply list_elem_of_singleton in Hk'. subst k.
      now apply (assoc_absent_keys _ _ Hx).
    + intros m x Hin. apply in_app_or in Hin as [Hin | [[= <- <-] | []]].
      * destruct (Hformatted _ _ Hin) as (l & v & r & Hl & ->).
        exists l, v, r. split; [| reflexivity]. apply in_or_app. now left.
      * exists thread_level, mean_value, recorded. split; [| reflexivity].
        apply in_or_app. right. now left.
    + intros l m v r Hin. apply in_app_or in Hin as [Hin | [Heq | []]].
      * destruct (Hcover _ _ _ _ Hin) as (v' & r' & Hassoc).
        exists v', r'. now apply assoc_app_present.
      * apply formatted_as_inj in Heq as (_ & <- & _).
        exists mean_value, recorded.
        rewrite (assoc_app_absent _ _ _ Hx). cbn. now rewrite String.eqb_refl.
    + intros Horder. specialize (Hgreatest Horder). destruct Horder as [Hirr _].
      intros l m v r Hin. apply in_app_or in Hin as [Hin | [Heq | []]].
      * destruct (Hgreatest _ _ _ _ Hin) as (v' & r' & Hassoc & Hle).
        exists v', r'. split; [| exact Hle]. now apply assoc_app_present.
      * apply formatted_as_inj in Heq as (_ & <- & <- & <-).
        exists mean_value, recorded. split; [| apply Hirr].
        rewrite (assoc_app_absent _ _ _ Hx). cbn. now rewrite String.eqb_refl.
Qed.

Lemma record_measurements_invariant (lt : JSON -> JSON -> Result bool)
    (thread_levels : list string) (thread_level : string)
    (thread_results : JSON) (measurements : list string) :
  In thread_level thread_levels ->
  forall state state',
  loop_invariant lt thread_levels state ->
  PerformanceResults.record_measurements lt thread_level thread_results state measurements
  = Ok state' ->
  loop_invariant lt thread_levels state'.
Proof.
  intros Hlevel. induction measurements as [| measurement rest IH];
    intros state state' Hinv; cbn.
  - now intros [= <-].
  - destruct (PerformanceResults.record_measurement lt _ _ state measurement)
      as [state1 | e |] eqn:Hone; cbn [rbind]; try discriminate.
    apply (IH state1). exact (record_measurement_invariant _ _ _ _ _ _ _ Hlevel Hinv Hone).
Qed.

Lemma format_thread_levels_invariant (lt : JSON -> JSON -> Result bool)
    (results : list (string * JSON)) (thread_levels todo : list string) :
  (forall thread_level, In thread_level todo -> In thread_level thread_levels) ->
  forall state state',
  loop_invariant lt thread_levels state ->
  PerformanceResults.format_thread_levels lt results state todo = Ok state' ->
  loop_invariant lt thread_levels state'.
Proof.
  induction todo as [| thread_level rest IH]; intros Htodo state state' Hinv; cbn.
  - now intros [= <-].
  - destruct (Py.assoc thread_level results) as [thread_results |]; cbn [rbind];
      try discriminate.
    destruct (PerformanceResults.measurement_names thread_results) as [names | e |];
      cbn [rbind]; try discriminate.
    destruct (PerformanceResults.record_measurements lt _ _ state names)
      as [state1 | e |] eqn:Hone; cbn [rbind]; try discriminate.
    apply (IH (fun l Hl => Htodo l (or_intror Hl)) state1).
    exact (record_measurements_invariant lt thread_levels thread_level thread_results names
             (Htodo thread_level (or_introl eq_refl)) state state1 Hinv Hone).
Qed.

Lemma loop_invariant_start (lt : JSON -> JSON -> Result bool) (thread_levels : list string) :
  loop_invariant lt thread_levels ([], []).
Proof.
  split; [intros e [] |]. split; [apply NoDup_nil_2 |].
  split; [intros m x [] |]. split; [intros l m v r [] | intros _ l m v r []].
Qed.

(** X25.  When [_format_performance_results] returns, its result is the
    entries of the thread levels followed by the entries of the maxima: one
    entry of thread level ["max"] per measurement, which is the copy of an
    entry of that measurement.  When [<] is a strict order on the values, as
    it is on the numbers, no entry of the measurement has a mean value
    greater than that of its maximum: [<] does not hold of the mean value of
    the maximum and that of the entry. *)
Theorem format_performance_results_maxima (isdigit : string -> bool)
    (int : string -> Result Z) (str : Z -> string) (lt : JSON -> JSON -> Result bool)
    (results : list (string * JSON)) (out : list JSON) :
  PerformanceResults._format_performance_results isdigit int str lt results = Ok out ->
  exists thread_levels entries maxes,
    PerformanceResults._thread_levels_from_results isdigit int str results = Ok thread_levels
    /\ out = entries ++ maxes
    /\ (forall e, In e entries ->
          exists thread_level,
            entry_field "thread_level" e = Some (JStr thread_level)
            /\ In thread_level thread_levels)
    /\ NoDup (map (entry_field "measurement") maxes)
    /\ (forall x, In x maxes ->
          entry_field "thread_level" x = Some (JStr "max")
          /\ exists e, In e entries /\ x = PerformanceResults.max_copy e)
    /\ (forall e, In e entries ->
          exists x,
            In x maxes /\ entry_field "measurement" x = entry_field "measurement" e)
    /\ (strict_order lt ->
        forall e, In e entries ->
          exists x mean_e mean_x,
            In x maxes
            /\ entry_field "measurement" x = entry_field "measurement" e
            /\ entry_field "mean_value" e = Some mean_e
            /\ entry_field "mean_value" x = Some mean_x
            /\ lt mean_x mean_e <> Ok true).
Proof.
  unfold PerformanceResults._format_performance_results.
  destruct (PerformanceResults._thread_levels_from_results isdigit int str results)
    as [thread_levels | e |] eqn:Hlevels; cbn [rbind]; try discriminate.
  destruct (PerformanceResults.format_thread_levels lt results ([], []) thread_levels)
    as [[entries maxima] | e |] eqn:Hloop; cbn [rbind]; try discriminate.
  intros [= <-]. cbn [fst snd].
  destruct (format_thread_levels_invariant lt results _ _ (fun l H => H) _ _
              (loop_invariant_start lt _) Hloop)
    as (Hentries & Hnodup & Hformatted & Hcover & Hgreatest). cbn [fst snd] in *.
  exists thread_levels, entries, (map snd maxima).
  split; [reflexivity |]. split; [reflexivity |]. split; [| split; [| split; [| split]]].
  - intros e Hin. destruct (Hentries e Hin) as (l & m & v & r & -> & Hl). now exists l.
  - rewrite List.map_map.
    rewrite (List.map_ext_in _ (fun p => Some (JStr (fst p)))).
    + rewrite <- (List.map_map fst (fun k => Some (JStr k))).
      assert (Hinj : Inj eq eq (fun k : string => Some (JStr k)))
        by (intros k k' [= ->]; reflexivity).
      apply (NoDup_fmap_2 (fun k => Some (JStr k))), Hnodup.
    + intros [m x] Hin. destruct (Hformatted m x Hin) as (l & v & r & _ & ->).
      reflexivity.
  - intros x Hin. apply List.in_map_iff in Hin as ([m x'] & <- & Hin).
    destruct (Hformatted m x' Hin) as (l & v & r & He & ->). split; [reflexivity |].
    exists (formatted_as l m v r). split; [exact He | reflexivity].
  - intros e Hin. destruct (Hentries e Hin) as (l & m & v & r & -> & _).
    destruct (Hcover l m v r Hin) as (v' & r' & Hassoc).
    exists (formatted_as "max" m v' r'). split; [| reflexivity].
    apply List.in_map_iff. exists (m, formatted_as "max" m v' r').
    split; [reflexivity | now apply assoc_in].
  - intros Horder e Hin. destruct (Hentries e Hin) as (l & m & v & r & -> & _).
    destruct (Hgreatest Horder l m v r Hin) as (v' & r' & Hassoc & Hle).
    exists (formatted_as "max" m v' r'), v, v'.
    split; [| split; [reflexivity | split; [reflexivity | split; [reflexivity | exact Hle]]]].
    apply List.in_map_iff. exists (m, formatted_as "max" m v' r').
    split; [reflexivity | now apply assoc_in].
Qed.

(** X26.  [Host.get_build] and [Host.get_version] look nothing up for a host
    whose running task names no build (no version), [None] and the empty
    string alike: they return [None] without a request.  Otherwise they issue
    the one request of the lookup by that id. *)
Theorem host_lookups_only_when_running {Build Version : Type} (api_server : string)
    (new_Build : JSON -> Result Build) (new_Version : JSON -> Result Version)
    (net : Network) (host : Host.t) (log : list Request) :
  (RunningTask.build_id (Host.running_task host) = None
   \/ RunningTask.build_id (Host.running_task host) = Some "" ->
   forall api_build_by_id : string -> Api Build,
     Host.get_build api_build_by_id host log = (Ok None, log))
  /\ (RunningTask.version_id (Host.running_task host) = None
      \/ RunningTask.version_id (Host.running_task host) = Some "" ->
      forall api_version_by_id : string -> Api Version,
        Host.get_version api_version_by_id host log = (Ok None, log))
  /\ (forall build_id,
        RunningTask.build_id (Host.running_task host) = Some build_id ->
        build_id <> "" ->
        snd (Host.get_build (build_by_id new_Build api_server (EvergreenApi net)) host log)
        = log ++ [lookup_request api_server "/builds/" build_id])
  /\ (forall version_id,
        RunningTask.version_id (Host.running_task host) = Some version_id ->
        version_id <> "" ->
        snd (Host.get_version (version_by_id new_Version api_server (EvergreenApi net))
               host log)
        = log ++ [lookup_request api_server "/versions/" version_id]).
Proof.
  unfold Host.get_build, Host.get_version. split; [| split; [| split]].
  - now intros [-> | ->] api_build_by_id.
  - now intros [-> | ->] api_version_by_id.
  - intros build_id -> Hne. apply String.eqb_neq in Hne. unfold Truthy.str.
    rewrite Hne. cbn [negb]. rewrite snd_bind_ret. apply build_by_id_requests.
  - intros version_id -> Hne. apply String.eqb_neq in Hne. unfold Truthy.str.
    rewrite Hne. cbn [negb]. rewrite snd_bind_ret. apply version_by_id_requests.
Qed.

(** * Examples *)

Ltac solve_chain := repeat (first [reflexivity | econstructor]).

Lemma serve_page_size (table : list (string * Response)) (page_size : nat) :
  Forall (fun entry =>
            forall j items,
              json (snd entry) = Some j -> Py.iter j = Ok items ->
              (page_size <= List.length items)%nat) table ->
  page_size_at_least (serve table) page_size.
Proof.
  intros Hall n req r j items Hnet _ Hj _ Hi. unfold serve in Hnet.
  destruct (find_url (url req) table) as [r' |] eqn:Hfind; [| discriminate].
  injection Hnet as ->. revert Hfind.
  induction Hall as [| [u r''] table Hentry Hall IH]; cbn; [discriminate |].
  destruct (String.eqb u (url req)).
  - intros [= ->]. now apply (Hentry j items).
  - exact IH.
Qed.

Lemma three_pages_size : page_size_at_least (serve three_pages) 2.
Proof.
  apply serve_page_size. unfold three_pages.
  repeat constructor; intros j items Hj Hi; cbn in Hj; injection Hj as <-;
    cbn in Hi; injection Hi as <-; cbn; lia.
Qed.

Lemma paginate_returns_all_pages_witness :
  exists reqs,
    _paginate (EvergreenApi (serve four_pages)) 4 "u1" None []
    = (Ok (JArr [JNum 1; JNum 2; JNum 3; JNum 4; JNum 5]), reqs)
    /\ List.length reqs = 4%nat.
Proof.
  destruct (paginate_returns_all_pages (EvergreenApi (serve four_pages)) (serve four_pages)
              "u1" None [] [[JNum 1; JNum 2]; [JNum 3; JNum 4]; []; [JNum 5]] 4
              (base_answers _) eq_refl ltac:(solve_chain) ltac:(cbn; lia))
    as (reqs & Heq & Hlen & _).
  exists reqs. split; [exact Heq | exact Hlen].
Defined.

(** Status 500 with the body [{"error": "the error"}], and status 404 with
    the body [["not found"]]. *)
Lemma call_api_error_classification_witness :
  Base._call_api
    (always (mkResponse 500 (Some (JObj [("error", JStr "the error")])) ∅))
    "u" None "GET" None []
  = (Raise (HTTPError (FromBody (JStr "the error"))), [mkRequest "u" None "GET" None])
  /\ Base._call_api
       (always (mkResponse 404 (Some (JArr [JStr "not found"])) ∅)) "u" None "GET" None []
     = (Raise (HTTPError (FromStatus 404)), [mkRequest "u" None "GET" None]).
Proof.
  split.
  - exact (proj1 (call_api_error_classification
                    (always (mkResponse 500 (Some (JObj [("error", JStr "the error")])) ∅))
                    "u" None "GET" None []
                    (mkResponse 500 (Some (JObj [("error", JStr "the error")])) ∅)
                    eq_refl ltac:(cbn; lia))
             [("error", JStr "the error")] (JStr "the error") eq_refl eq_refl).
  - exact (proj2 (call_api_error_classification
                    (always (mkResponse 404 (Some (JArr [JStr "not found"])) ∅))
                    "u" None "GET" None []
                    (mkResponse 404 (Some (JArr [JStr "not found"])) ∅)
                    eq_refl ltac:(cbn; lia))
             ltac:(cbn; lia)
             (or_intror (ex_intro _ (JArr [JStr "not found"]) (conj eq_refl eq_refl)))).
Defined.

(** C2, where the code fails it.  A response of status 500 whose body is
    the JSON text [null]: the body parses and has no ["error"] key, and
    [_call_api] raises a [TypeError], from the test ["error" in json_data],
    where the claim has the failure of the status.  The same response with a
    body that does not parse, or with the body [{}], raises that failure. *)
Theorem call_api_null_body_type_error :
  Base._call_api (always (mkResponse 500 (Some JNull) ∅)) "u" None "GET" None []
  = (Raise TypeError, [mkRequest "u" None "GET" None])
  /\ Base._call_api (always (mkResponse 500 None ∅)) "u" None "GET" None []
     = (Raise (HTTPError (FromStatus 500)), [mkRequest "u" None "GET" None])
  /\ Base._call_api (always (mkResponse 500 (Some (JObj [])) ∅)) "u" None "GET" None []
     = (Raise (HTTPError (FromStatus 500)), [mkRequest "u" None "GET" None]).
Proof.
  split; [| split]; vm_compute; reflexivity.
Qed.

(** Status 200 with the body [{"error": "x"}]. *)
Lemma call_api_returns_below_400_witness :
  Base._call_api (always (mkResponse 200 (Some (JObj [("error", JStr "x")])) ∅))
    "u" None "GET" None []
  = (Ok (mkResponse 200 (Some (JObj [("error", JStr "x")])) ∅),
     [mkRequest "u" None "GET" None]).
Proof.
  exact (call_api_returns_below_400
           (always (mkResponse 200 (Some (JObj [("error", JStr "x")])) ∅))
           "u" None "GET" None []
           (mkResponse 200 (Some (JObj [("error", JStr "x")])) ∅)
           eq_refl ltac:(cbn; lia)).
Defined.

(** Two failures of status 503, then a page: three attempts.  Status 503
    for ever: three attempts, and the failure of the third.  A read timeout,
    and a failure of the arguments: one attempt. *)
Lemma retrying_call_api_attempts_witness :
  Retrying._call_api flaky "u" None "GET" None []
  = (Ok (ok_page [JNum 1] None), repeat (mkRequest "u" None "GET" None) 3)
  /\ Retrying._call_api (always (mkResponse 503 None ∅)) "u" None "GET" None []
     = (Raise (HTTPError (FromStatus 503)), repeat (mkRequest "u" None "GET" None) 3)
  /\ Retrying._call_api (failing Timeout) "u" None "GET" None []
     = (Raise Timeout, [mkRequest "u" None "GET" None])
  /\ Retrying._call_api (failing ValueError) "u" None "GET" None []
     = (Raise ValueError, [mkRequest "u" None "GET" None]).
Proof.
  split; [| split; [| split]].
  - exact (proj1 (proj2 (retrying_call_api_attempts flaky "u" None "GET" None []))
             (HTTPError (FromStatus 503)) (HTTPError (FromStatus 503))
             (ok_page [JNum 1] None) eq_refl (or_introl (ex_intro _ _ eq_refl)) eq_refl
             (or_introl (ex_intro _ _ eq_refl)) eq_refl).
  - exact (proj1 (proj2 (proj2 (retrying_call_api_attempts
                                  (always (mkResponse 503 None ∅)) "u" None "GET" None [])))
             (HTTPError (FromStatus 503)) (HTTPError (FromStatus 503))
             (HTTPError (FromStatus 503)) eq_refl (or_introl (ex_intro _ _ eq_refl)) eq_refl
             (or_introl (ex_intro _ _ eq_refl)) eq_refl).
  - exact (proj2 (proj2 (proj2 (retrying_call_api_attempts
                                  (failing Timeout) "u" None "GET" None [])))
             Timeout eq_refl ltac:(discriminate) ltac:(discriminate)).
  - exact (proj2 (proj2 (proj2 (retrying_call_api_attempts
                                  (failing ValueError) "u" None "GET" None [])))
             ValueError eq_refl ltac:(discriminate) ltac:(discriminate)).
Defined.

(** Three items out of pages of two: two requests at most. *)
Lemma lazy_paginate_pull_driven_witness :
  exists reqs,
    snd (@islice _ (lazy_paginate_generator (EvergreenApi (serve three_pages))) 3
           (_lazy_paginate "u1" None) []) = reqs
    /\ (List.length reqs <= 2)%nat.
Proof.
  destruct (proj2 (proj2 (proj2
              (lazy_paginate_pull_driven (serve three_pages) 2 "u1" None []
                 ltac:(lia) three_pages_size))) 3%nat ltac:(lia))
    as (reqs & Hsnd & Hlen).
  exists reqs. split; [exact Hsnd | exact Hlen].
Defined.

(** With [limit = 3] on three pages of two items: two requests and four
    items, one more than the limit. *)
Lemma paginate_stops_at_limit_witness :
  exists items reqs,
    _paginate (EvergreenApi (serve three_pages)) 3 "u1" (limit_params 3) []
    = (Ok (JArr items), reqs)
    /\ (List.length reqs < 3)%nat
    /\ Z.of_nat (List.length items) <= 3 + 2.
Proof.
  destruct (paginate_stops_at_limit (EvergreenApi (serve three_pages)) (serve three_pages)
              "u1" (limit_params 3) 3 []
              [[JNum 1; JNum 2]; [JNum 3; JNum 4]; [JNum 5; JNum 6]] 3
              (base_answers _) ltac:(vm_compute; reflexivity) ltac:(solve_chain)
              ltac:(cbn; lia))
    as (fetched & unfetched & reqs & Heq & Hreqs & Hpages & Hne & Hpre & Hfewer & _ & Hmost).
  exists (concat fetched), reqs. split; [exact Heq |].
  assert (Hlt : (List.length reqs < 3)%nat).
  { apply (Hfewer [[JNum 1; JNum 2]; [JNum 3; JNum 4]] [JNum 5; JNum 6]);
      [reflexivity | discriminate | cbn; lia]. }
  split; [exact Hlt |].
  rewrite Hreqs in Hlt.
  destruct fetched as [| p1 [| p2 [| p3 fetched]]]; cbn [List.length] in Hlt; try lia.
  - congruence.
  - cbn [app] in Hpages. injection Hpages as <- _.
    pose proof (Hmost ltac:(lia) [] [JNum 1; JNum 2] eq_refl) as Hle.
    cbn in Hle |- *. lia.
  - cbn [app] in Hpages. injection Hpages as <- <- _.
    exact (Hmost ltac:(lia) [[JNum 1; JNum 2]] [JNum 3; JNum 4] eq_refl).
Defined.

(** Where the claim C7 fails as it is stated.  With [limit = 5], below the 6
    items of three pages of two, every page is fetched: as many requests as
    pages.  With [limit = -1] the first page is fetched all the same, and its
    2 items exceed the limit by more than a page. *)
Lemma paginate_stops_at_limit_counterexample :
  5 < Z.of_nat (List.length (concat [[JNum 1; JNum 2]; [JNum 3; JNum 4]; [JNum 5; JNum 6]]))
  /\ fst (_paginate (EvergreenApi (serve three_pages)) 3 "u1"
            (limit_params 5) [])
     = Ok (JArr [JNum 1; JNum 2; JNum 3; JNum 4; JNum 5; JNum 6])
  /\ List.length (snd (_paginate (EvergreenApi (serve three_pages)) 3 "u1"
                         (limit_params 5) []))
     = List.length three_pages
  /\ _paginate (EvergreenApi (serve three_pages)) 3 "u1" (limit_params (-1)) []
     = (Ok (JArr [JNum 1; JNum 2]), [mkRequest "u1" (limit_params (-1)) "GET" None])
  /\ -1 + Z.of_nat (List.length [JNum 1; JNum 2])
     < Z.of_nat (List.length [JNum 1; JNum 2]).
Proof.
  split; [cbn; lia |]. split; [vm_compute; reflexivity |]. split; [vm_compute; reflexivity |].
  split; [vm_compute; reflexivity | cbn; lia].
Qed.

(** A page of two items, a page of one item and an empty page: the three
    items and three requests, from cursor to cursor.  A page [P1], an empty
    page and a page [P3]: the items of [P1] and two requests. *)
Lemma lazy_paginate_by_date_cursor_witness :
  (@drain _ (lazy_paginate_by_date_generator keep_timestamp (EvergreenApi two_pages_by_date))
     4 (_lazy_paginate_by_date "u" None) []
   = (Ok ([created_at 20; created_at 10; created_at 5], BD_finished),
      by_date_requests "u" {["limit" := JNum 100]} [JNum 10; JNum 5])
   /\ map start_at_of (by_date_requests "u" {["limit" := JNum 100]} [JNum 10; JNum 5])
      = [None; Some (JNum 10); Some (JNum 5)])
  /\ @drain _ (lazy_paginate_by_date_generator keep_timestamp (EvergreenApi empty_second_page))
       3 (_lazy_paginate_by_date "u" None) []
     = (Ok ([created_at 20; created_at 10], BD_finished),
        by_date_requests "u" {["limit" := JNum 100]} [JNum 10]).
Proof.
  split; [split |].
  - exact (proj1 (lazy_paginate_by_date_cursor keep_timestamp two_pages_by_date "u" None []
                    [[created_at 20; created_at 10]; [created_at 5]] [JNum 10; JNum 5] 4
                    ltac:(repeat (econstructor; try (vm_compute; reflexivity); try (cbn; lia)))
                    ltac:(cbn; lia))).
  - vm_compute. reflexivity.
  - exact (proj1 (lazy_paginate_by_date_cursor keep_timestamp empty_second_page "u" None []
                    [[created_at 20; created_at 10]] [JNum 10] 3
                    ltac:(repeat (econstructor; try (vm_compute; reflexivity); try (cbn; lia)))
                    ltac:(cbn; lia))).
Defined.

(** The same page for ever: the iteration does not end. *)
Lemma lazy_paginate_by_date_progress_witness :
  fst (@drain _ (lazy_paginate_by_date_generator keep_timestamp (EvergreenApi same_page))
         9 (_lazy_paginate_by_date "u" None) [])
  = OutOfFuel.
Proof.
  exact (proj2 (lazy_paginate_by_date_progress keep_timestamp time_of_number same_page "u"
                  ∅ [] [] (created_at 10) (created_at 10) (JNum 10) (JNum 10)
                  (JNum 10) (JNum 10) eq_refl eq_refl eq_refl eq_refl)
           (ok_page [created_at 10] None) [] 9%nat None
           (fun _ _ => eq_refl) ltac:(cbn; lia) eq_refl).
Defined.

(** Where the claim C6 fails as it is stated: when the server answers every
    request with the same non-empty page, the second and the third request,
    sent after two successive non-empty pages, carry the same ["start_at"]:
    the later one is not strictly later than the earlier one. *)
Lemma lazy_paginate_by_date_progress_counterexample :
  match fst (@islice _ (lazy_paginate_by_date_generator keep_timestamp
                          (EvergreenApi same_page))
               3 (_lazy_paginate_by_date "u" None) []) with
  | Ok (items, _) => items = [created_at 10; created_at 10; created_at 10]
  | _ => False
  end
  /\ map start_at_of
       (snd (@islice _ (lazy_paginate_by_date_generator keep_timestamp
                          (EvergreenApi same_page))
               3 (_lazy_paginate_by_date "u" None) []))
     = [None; Some (JNum 10); Some (JNum 10)].
Proof.
  split; vm_compute; reflexivity.
Qed.

(** Items at 30, 20, 10, 5 and 1 and the window [10, 25): the items at 20 and
    10, and the item at 1 is never asked for. *)
Lemma time_window_filter_witness :
  @drain _ (time_window_generator time_of_number 6 25 10) 6
    (iterate_by_time_window [JNum 30; JNum 20; JNum 10; JNum 5; JNum 1]) []
  = (Ok ([JNum 20; JNum 10], mkTimeWindow [JNum 1] true), []).
Proof.
  destruct (proj1 (time_window_filter time_of_number 25 10
                     [JNum 30; JNum 20; JNum 10; JNum 5; JNum 1] 6 6 []
                     ltac:(repeat constructor; cbn; lia) ltac:(cbn; lia) ltac:(cbn; lia)))
    as (unconsumed & Heq & Hrest).
  rewrite Heq.
  rewrite (Hrest [JNum 30; JNum 20; JNum 10] (JNum 5) [JNum 1] eq_refl
             ltac:(repeat constructor; cbn; lia) ltac:(cbn; lia)).
  reflexivity.
Defined.

(** The filter over [_lazy_paginate]: the second item of the first page is
    before the window, and the second page is never fetched. *)
Example time_window_stops_fetching :
  @drain _ (@time_window_generator _ (lazy_paginate_generator
                                        (EvergreenApi (serve two_pages_descending)))
              time_of_number 5 100 10)
    5 (iterate_by_time_window (_lazy_paginate "v1" None)) []
  = (Ok ([JNum 30],
         mkTimeWindow (LP_yielding [] (ok_page [JNum 30; JNum 5] (Some "v2"))
                         (default_params None)) true),
     [mkRequest "v1" (Some (default_params None)) "GET" None]).
Proof. vm_compute. reflexivity. Qed.


(** Status 502 with the body [null]: a [TypeError]. *)
Lemma raise_for_status_not_a_container_witness :
  _raise_for_status (mkResponse 502 (Some JNull) ∅) = Raise TypeError.
Proof.
  exact (raise_for_status_not_a_container (mkResponse 502 (Some JNull) ∅) JNull
           eq_refl ltac:(cbn; lia) (or_introl eq_refl)).
Defined.

(** [_paginate] over four pages with [{"limit": 100}]: the parameters go
    with the first request only. *)
Lemma paginate_sends_params_once_witness :
  (exists (k : nat) (rest : list Request),
      snd (_paginate (RetryingEvergreenApi (serve four_pages)) 4 "u1" (limit_params 100) [])
      = [] ++ repeat (mkRequest "u1" (limit_params 100) "GET" None) k ++ rest
      /\ Forall follows_link rest)
  /\ (exists rest : list Request,
        snd (_paginate (EvergreenApi (serve four_pages)) 4 "u1" (limit_params 100) [])
        = [] ++ mkRequest "u1" (limit_params 100) "GET" None :: rest
        /\ Forall follows_link rest).
Proof.
  exact (paginate_sends_params_once (RetryingEvergreenApi (serve four_pages))
           (serve four_pages) 4 "u1" (limit_params 100) []
           (retrying_issues_own_request (serve four_pages))).
Defined.

(** [_lazy_paginate] over four pages without parameters: the default limit
    goes with every request. *)
Lemma lazy_paginate_sends_params_always_witness :
  exists reqs,
    snd (@islice _ (lazy_paginate_generator (EvergreenApi (serve four_pages))) 5
           (_lazy_paginate "u1" None) [])
    = [] ++ reqs
    /\ Forall (carries (default_params None)) reqs
    /\ (forall p, None = Some p -> params_truthy None = true -> Forall (carries p) reqs)
    /\ (params_truthy None = false -> Forall (carries {["limit" := JNum 100]}) reqs).
Proof.
  exact (lazy_paginate_sends_params_always (EvergreenApi (serve four_pages)) "u1" None 5 []
           (base_issues_own_request (serve four_pages))).
Defined.

(** A server that answers every request with status 404 and a message. *)
Lemma retrying_retries_status_failures_witness :
  Retrying._call_api
    (always (mkResponse 404 (Some (JObj [("error", JStr "not found")])) ∅))
    "u" None "GET" None []
  = (Raise (HTTPError (FromBody (JStr "not found"))),
     [] ++ repeat (mkRequest "u" None "GET" None) 3).
Proof.
  apply (retrying_retries_status_failures
           (always (mkResponse 404 (Some (JObj [("error", JStr "not found")])) ∅))
           "u" None "GET" None []
           (mkResponse 404 (Some (JObj [("error", JStr "not found")])) ∅)
           (mkResponse 404 (Some (JObj [("error", JStr "not found")])) ∅)
           (mkResponse 404 (Some (JObj [("error", JStr "not found")])) ∅));
    try reflexivity;
    (split; [cbn; lia | right; eexists; reflexivity]).
Defined.

(** A specification with [group_num_days = 0] and no tests: no parameter. *)
Lemma get_params_leaves_out_false_options_witness :
  (forall k v, (∅ : gmap string JSON) !! k = Some v ->
     In k stats_keys /\ (In k stats_plain_keys -> Py.truthy v = true))
  /\ (∅ : gmap string JSON) !! "limit" = None
  /\ (∅ : gmap string JSON) !! "project_id" = None.
Proof.
  exact (get_params_leaves_out_false_options date_as_number requester_as_value
           (stats_of_proj (Some 0) (Some [])) ∅ eq_refl).
Defined.

(** The statistics of [proj] over two pages. *)
Lemma test_stats_by_project_fetches_all_pages_witness :
  exists reqs,
    test_stats_by_project "srv" date_as_number requester_as_value new_entity
      (EvergreenApi (serve stats_pages)) 2 (stats_of_proj (Some 0) None) []
    = (Ok [JObj [("test_file", JStr "a.js")]; JObj [("test_file", JStr "b.js")];
           JObj [("test_file", JStr "c.js")]], [] ++ reqs)
    /\ List.length reqs = 2%nat.
Proof.
  exact (test_stats_by_project_fetches_all_pages "srv" date_as_number requester_as_value
           new_entity (EvergreenApi (serve stats_pages)) (serve stats_pages)
           (stats_of_proj (Some 0) None) ∅ []
           [[JObj [("test_file", JStr "a.js")]; JObj [("test_file", JStr "b.js")]];
            [JObj [("test_file", JStr "c.js")]]] 2
           (base_answers _) eq_refl ltac:(solve_chain) ltac:(cbn; lia)).
Defined.

(** A specification with an empty list of tests. *)
Lemma task_stats_reject_tests_witness :
  task_stats_by_project "srv" date_as_number requester_as_value new_entity
    (EvergreenApi (serve stats_pages)) 2 (stats_of_proj None (Some [])) []
  = (Raise ValueError, []).
Proof.
  exact (proj1 (proj1 (task_stats_reject_tests "srv" date_as_number requester_as_value
                         new_entity new_entity (EvergreenApi (serve stats_pages))
                         (serve stats_pages) 2 (stats_of_proj None (Some [])) [])
                  [] eq_refl)).
Defined.

(** The patches of a user, without a start and without a limit. *)
Lemma patches_by_user_parameters_witness :
  exists reqs,
    snd (@genexpr_islice _ (lazy_paginate_generator (EvergreenApi one_version_per_page)) _ 3
           (patches_by_user "srv" JNum new_entity "me" None None) [])
    = [] ++ reqs
    /\ Forall (carries {["limit" := JNum 100]}) reqs.
Proof.
  destruct (patches_by_user_parameters "srv" JNum new_entity
              (EvergreenApi one_version_per_page) "me" None None 3 []
              (base_issues_own_request one_version_per_page))
    as (reqs & Hsnd & Hdefault & _).
  exists reqs. split; [exact Hsnd | exact (Hdefault eq_refl (or_introl eq_refl))].
Defined.

(** The most recent version of [proj], on a server with a "next" link on
    every page. *)
Lemma most_recent_version_one_request_witness :
  snd (Project.most_recent_version (versions_by_project "srv" new_entity)
         (EvergreenApi one_version_per_page) (Project.mk "proj") [])
  = [] ++ [versions_request "srv" "proj" Requester.GITTER_REQUEST]
  /\ fst (Project.most_recent_version (versions_by_project "srv" new_entity)
            (EvergreenApi one_version_per_page) (Project.mk "proj") [])
     = Ok (Some (JObj [("version_id", JStr "v1")])).
Proof.
  destruct (most_recent_version_one_request "srv" new_entity one_version_per_page
              (Project.mk "proj") []) as (Hsnd & Hfst & _).
  split; [exact Hsnd |].
  exact (Hfst (ok_page [JObj [("version_id", JStr "v1")]] (Some "more"))
           (JObj [("version_id", JStr "v1")]) [] eq_refl ltac:(cbn; lia) eq_refl).
Defined.

(** The build of a version on linux is its last one there; it has none on
    windows. *)
Lemma build_by_variant_lookup_witness :
  Version.build_by_variant (build_by_id new_entity "srv" (EvergreenApi one_version_per_page))
    mainline_version "windows" []
  = (Raise KeyError, [])
  /\ Version.build_by_variant
       (build_by_id new_entity "srv" (EvergreenApi one_version_per_page))
       mainline_version "linux" []
     = build_by_id new_entity "srv" (EvergreenApi one_version_per_page) "b3" [].
Proof.
  split.
  - exact (proj1 (build_by_variant_lookup
                    (build_by_id new_entity "srv" (EvergreenApi one_version_per_page))
                    mainline_version "windows" []) eq_refl).
  - exact (proj2 (build_by_variant_lookup
                    (build_by_id new_entity "srv" (EvergreenApi one_version_per_page))
                    mainline_version "linux" [])
             (BuildVariantStatus.mk "linux" "b3") eq_refl).
Defined.

(** No patch is looked for on a version of the mainline; one request for
    the patch of a version of a patch. *)
Lemma get_patch_only_for_patches_witness :
  Version.get_patch (patch_by_id "srv" new_entity (EvergreenApi one_version_per_page))
    mainline_version []
  = (Ok None, [])
  /\ snd (Version.get_patch (patch_by_id "srv" new_entity (EvergreenApi one_version_per_page))
            patch_version [])
     = [] ++ [mkRequest "srv/rest/v2/patches/5f1e" None "GET" None].
Proof.
  split.
  - exact (proj1 (get_patch_only_for_patches "srv" new_entity one_version_per_page
                    mainline_version []) eq_refl
             (patch_by_id "srv" new_entity (EvergreenApi one_version_per_page))).
  - exact (proj1 (proj2 (get_patch_only_for_patches "srv" new_entity one_version_per_page
                           patch_version [])) eq_refl).
Defined.

(** The tasks of a revision whose first page has a "next" link. *)
Lemma tasks_by_project_and_commit_first_page_only_witness :
  tasks_by_project_and_commit "srv" new_entity (EvergreenApi (serve commit_pages)) "proj"
    "abc" None []
  = (Ok [JObj [("task_id", JStr "t1")]],
     [] ++ [mkRequest "srv/rest/v2/projects/proj/revisions/abc/tasks" None "GET" None]).
Proof.
  exact (tasks_by_project_and_commit_first_page_only "srv" new_entity (serve commit_pages)
           "proj" "abc" None [] [JObj [("task_id", JStr "t1")]]
           [[JObj [("task_id", JStr "t2")]]] ltac:(solve_chain)).
Defined.

(** The tests of a task at execution 0, over four pages. *)
Lemma tests_by_task_leaves_out_execution_zero_witness :
  (exists (p : gmap string JSON) (k : nat) (rest : list Request),
      snd (tests_by_task "srv" new_entity (EvergreenApi (serve four_pages)) 4 "t" None
             (Some 0) [])
      = [] ++ repeat (mkRequest "srv/rest/v2/tasks/t/tests" (Some p) "GET" None) k ++ rest
      /\ Forall follows_link rest
      /\ (forall v, p !! "execution" = Some v ->
            exists e, v = JNum e /\ e <> 0 /\ Some 0 = Some e)
      /\ (forall v, p !! "status" = Some v ->
            exists s, v = JStr s /\ s <> "" /\ None = Some s))
  /\ (forall task : Task.t,
        Task.execution task = 0 ->
        Task.get_tests (tests_by_task "srv" new_entity (EvergreenApi (serve four_pages)) 4)
          task None None
        = tests_by_task "srv" new_entity (EvergreenApi (serve four_pages)) 4
            (Task.task_id task) None None).
Proof.
  exact (tests_by_task_leaves_out_execution_zero "srv" new_entity
           (EvergreenApi (serve four_pages)) 4 "t" None (Some 0) []
           (base_issues_own_request (serve four_pages))).
Defined.

(** The execution tasks of a display task with two of them.  When the
    server has both, two requests and the two tasks; when it has the first
    only, the failure of the second lookup after the two requests. *)
Lemma get_execution_tasks_requests_witness :
  Task.get_execution_tasks example_task
    (task_by_id "srv" example_task (EvergreenApi (serve (execution_tasks_served true))))
    display_task None []
  = (Ok (Some [Task.mk "t1" 1 "success" (StatusDetails.mk "" false) false None None;
               Task.mk "t2" 1 "success" (StatusDetails.mk "" false) false None None]),
     [execution_task_request "srv" "t1"; execution_task_request "srv" "t2"])
  /\ Task.get_execution_tasks example_task
       (task_by_id "srv" example_task (EvergreenApi (serve (execution_tasks_served false))))
       display_task None []
     = (Raise ConnectionError,
        [execution_task_request "srv" "t1"; execution_task_request "srv" "t2"]).
Proof.
  split.
  - destruct (proj1 (proj2 (proj2 (get_execution_tasks_requests "srv" example_task
                                     (serve (execution_tasks_served true)) display_task
                                     None []))) eq_refl
                [Task.mk "t1" 1 "success" (StatusDetails.mk "" false) false None None;
                 Task.mk "t2" 1 "success" (StatusDetails.mk "" false) false None None]
                [execution_task_request "srv" "t1"; execution_task_request "srv" "t2"]
                ltac:(repeat (econstructor; try (vm_compute; reflexivity))))
      as [_ Heq].
    exact Heq.
  - exact (proj1 (proj2 (proj2 (proj2 (get_execution_tasks_requests "srv" example_task
                                         (serve (execution_tasks_served false))
                                         display_task None []))))
             eq_refl ["t1"] "t2" []
             [Task.mk "t1" 1 "success" (StatusDetails.mk "" false) false None None]
             [execution_task_request "srv" "t1"] ConnectionError eq_refl
             ltac:(repeat (econstructor; try (vm_compute; reflexivity)))
             ltac:(vm_compute; reflexivity)).
Defined.

(** The execution 0 of a task at execution 1. *)
Lemma get_execution_finds_first_witness :
  exists before raw after,
    Py.iter (previous_executions_of restarted_task) = Ok (before ++ raw :: after)
    /\ Forall (is_other_execution 0) before
    /\ is_execution 0 raw
    /\ example_task raw
       = Ok (Task.mk "t" 1 "success" (StatusDetails.mk "" false) false None None).
Proof.
  exact (proj1 (proj2 (get_execution_finds_first example_task restarted_task 0))
           ltac:(discriminate)
           (Task.mk "t" 1 "success" (StatusDetails.mk "" false) false None None) eq_refl).
Defined.

(** The thread levels of results with the keys 16 and 8, and of results with
    a key that [int] rejects. *)
Lemma thread_levels_ascending_witness :
  (exists sorted,
      PerformanceResults._thread_levels_from_results AsciiDigits.isdigit AsciiDigits.int
        AsciiDigits.str two_thread_levels
      = Ok (map AsciiDigits.str sorted)
      /\ Sorted Z.le sorted
      /\ sorted ≡ₚ [16; 8])
  /\ PerformanceResults._thread_levels_from_results (fun _ => true) AsciiDigits.int
       AsciiDigits.str two_thread_levels
     = Raise ValueError.
Proof.
  split.
  - exact (proj1 (thread_levels_ascending AsciiDigits.isdigit AsciiDigits.int
                    AsciiDigits.str two_thread_levels) [16; 8]
             ltac:(vm_compute; repeat constructor)).
  - exact (proj2 (proj2 (thread_levels_ascending (fun _ => true) AsciiDigits.int
                           AsciiDigits.str two_thread_levels))
             ["16"; "8"] "start" [] ValueError eq_refl
             ltac:(repeat constructor; intros _; eexists; vm_compute; reflexivity)
             eq_refl ltac:(vm_compute; reflexivity)).
Defined.

(** Results with the thread levels 16 and 8. *)
Lemma format_performance_results_requirements_witness :
  exists n, AsciiDigits.int "16" = Ok n
            /\ thread_level_complete two_thread_levels (AsciiDigits.str n).
Proof.
  exact (format_performance_results_requirements AsciiDigits.isdigit AsciiDigits.int
           AsciiDigits.str number_lt two_thread_levels
           [formatted_as "8" "ops" (JNum 9) (JArr [JNum 9; JNum 9]);
            formatted_as "16" "ops" (JNum 7) (JArr [JNum 7]);
            formatted_as "max" "ops" (JNum 9) (JArr [JNum 9; JNum 9])]
           ltac:(vm_compute; reflexivity) "16" ltac:(cbn; auto)
           ltac:(vm_compute; reflexivity)).
Defined.

Lemma number_lt_strict_order : strict_order number_lt.
Proof.
  split.
  - intros a. unfold number_lt. destruct (PyCmp.as_int a) as [m |]; [| discriminate].
    rewrite Z.ltb_irrefl. discriminate.
  - intros a b c. unfold number_lt.
    destruct (PyCmp.as_int a) as [m |], (PyCmp.as_int b) as [n |],
      (PyCmp.as_int c) as [k |]; try discriminate.
    intros [= Hmn] [= Hnk]. f_equal. apply Z.ltb_lt. apply Z.ltb_lt in Hmn, Hnk. lia.
Qed.

Lemma format_performance_results_maxima_witness :
  exists thread_levels entries maxes,
    PerformanceResults._thread_levels_from_results AsciiDigits.isdigit AsciiDigits.int
      AsciiDigits.str two_thread_levels = Ok thread_levels
    /\ [formatted_as "8" "ops" (JNum 9) (JArr [JNum 9; JNum 9]);
        formatted_as "16" "ops" (JNum 7) (JArr [JNum 7]);
        formatted_as "max" "ops" (JNum 9) (JArr [JNum 9; JNum 9])]
       = entries ++ maxes
    /\ (forall e, In e entries ->
          exists thread_level,
            entry_field "thread_level" e = Some (JStr thread_level)
            /\ In thread_level thread_levels)
    /\ NoDup (map (entry_field "measurement") maxes)
    /\ (forall x, In x maxes ->
          entry_field "thread_level" x = Some (JStr "max")
          /\ exists e, In e entries /\ x = PerformanceResults.max_copy e)
    /\ (forall e, In e entries ->
          exists x,
            In x maxes /\ entry_field "measurement" x = entry_field "measurement" e)
    /\ (forall e, In e entries ->
          exists x mean_e mean_x,
            In x maxes
            /\ entry_field "measurement" x = entry_field "measurement" e
            /\ entry_field "mean_value" e = Some mean_e
            /\ entry_field "mean_value" x = Some mean_x
            /\ number_lt mean_x mean_e <> Ok true).
Proof.
  destruct (format_performance_results_maxima AsciiDigits.isdigit AsciiDigits.int
              AsciiDigits.str number_lt two_thread_levels
              [formatted_as "8" "ops" (JNum 9) (JArr [JNum 9; JNum 9]);
               formatted_as "16" "ops" (JNum 7) (JArr [JNum 7]);
               formatted_as "max" "ops" (JNum 9) (JArr [JNum 9; JNum 9])]
              ltac:(vm_compute; reflexivity))
    as (thread_levels & entries & maxes & Hlevels & Hout & Hentries & Hnodup & Hmaxes
        & Hcover & Hgreatest).
  exists thread_levels, entries, maxes.
  split; [exact Hlevels |]. split; [exact Hout |]. split; [exact Hentries |].
  split; [exact Hnodup |]. split; [exact Hmaxes |]. split; [exact Hcover |].
  exact (Hgreatest number_lt_strict_order).
Defined.

(** The limit ["10"], a string, on a first page with a "next" link. *)
Lemma paginate_limit_not_a_number_witness :
  _paginate (EvergreenApi (serve four_pages)) 4 "u1" (Some {["limit" := JStr "10"]}) []
  = (Raise TypeError, [] ++ [mkRequest "u1" (Some {["limit" := JStr "10"]}) "GET" None]).
Proof.
  exact (proj1 (paginate_limit_not_a_number (serve four_pages) 4 "u1"
                  {["limit" := JStr "10"]} (JStr "10") []
                  (ok_page [JNum 1; JNum 2] (Some "u2")) [JNum 1; JNum 2]
                  ltac:(apply lookup_singleton_eq) eq_refl eq_refl ltac:(cbn; lia) eq_refl)
           ltac:(eexists; apply lookup_singleton_eq)).
Defined.

(** The JSON of a task that is an object, on a page with a "next" link. *)
Lemma json_by_task_single_page_witness :
  json_by_task "srv" (EvergreenApi (serve object_pages)) 1 "t" "perf" []
  = (Raise AttributeError,
     [] ++ [mkRequest "srv/plugin/json/task/t/perf" None "GET" None;
            mkRequest "more" None "GET" None]).
Proof.
  exact (proj2 (json_by_task_single_page "srv" (serve object_pages) 0 "t" "perf" []
                  (mkResponse 200 (Some (JObj [("name", JStr "perf")])) {["next" := "more"]})
                  (JObj [("name", JStr "perf")]) eq_refl ltac:(cbn; lia) eq_refl)
           "more" (ok_page [JNum 1] None) (JArr [JNum 1])
           ltac:(apply lookup_singleton_eq) ltac:(discriminate) eq_refl ltac:(cbn; lia)
           eq_refl eq_refl).
Defined.

(** A page whose last item has no creation time. *)
Lemma lazy_paginate_by_date_undated_page_witness :
  @islice _ (lazy_paginate_by_date_generator keep_timestamp (EvergreenApi undated_page)) 2
    (_lazy_paginate_by_date "u" None) []
  = (Ok ([created_at 20; JObj [("patch_id", JStr "p")]],
         BD_yielding [] (JArr [created_at 20; JObj [("patch_id", JStr "p")]]) "u"
           (default_params None)),
     [] ++ [mkRequest "u" (Some (default_params None)) "GET" None])
  /\ lazy_paginate_by_date_next keep_timestamp (EvergreenApi undated_page)
       (BD_yielding [] (JArr [created_at 20; JObj [("patch_id", JStr "p")]]) "u"
          (default_params None))
       [mkRequest "u" (Some (default_params None)) "GET" None]
     = (Raise KeyError, [mkRequest "u" (Some (default_params None)) "GET" None]).
Proof.
  destruct (lazy_paginate_by_date_undated_page keep_timestamp undated_page "u" None []
              (ok_page [created_at 20; JObj [("patch_id", JStr "p")]] None)
              [created_at 20] (JObj [("patch_id", JStr "p")]) KeyError
              eq_refl ltac:(cbn; lia) eq_refl eq_refl) as [Hitems Hnext].
  split; [exact Hitems | apply Hnext].
Defined.

(** A host that runs a task of the build [b1] and of no version. *)
Lemma host_lookups_only_when_running_witness :
  Host.get_version (version_by_id new_entity "srv" (EvergreenApi one_version_per_page))
    busy_host []
  = (Ok None, [])
  /\ snd (Host.get_build (build_by_id new_entity "srv" (EvergreenApi one_version_per_page))
            busy_host [])
     = [] ++ [lookup_request "srv" "/builds/" "b1"].
Proof.
  destruct (host_lookups_only_when_running "srv" new_entity new_entity one_version_per_page
              busy_host []) as (_ & Hversion & Hbuild & _).
  split.
  - exact (Hversion (or_introl eq_refl) _).
  - exact (Hbuild "b1" eq_refl ltac:(discriminate)).
Defined.
